(** * OGR vector import/export of the map editor: a shallow embedding

    The development follows [src/gdal/ogr_file_format.cpp].  Every
    definition names the C++ function it renders.  Conventions:

    - [int] values are [Z], with the range of 32 bits written out where
      the code can leave it; a finite [double] is the rational ([Q]) it
      denotes, and the arithmetic on doubles rounds as IEEE 754 binary64
      does ([double_add], [double_mul], [double_div] below); infinities
      and NaN are not represented;
    - [QString], [QByteArray] and [const char*] are [string]; a null
      [const char*] is the empty string where the code measures it with
      [qstrlen], and an [option] where the code tests it;
    - pointers to map colors and symbols are indices into the map's color
      and symbol lists (both lists only ever grow at their end during an
      import, so an index names one entity for the whole import);
    - [QHash] caches are [gmap]s from the key string;
    - the GDAL/OGR and Qt services the code calls (style-string parsing,
      RGB decoding, number formatting, coordinate transformations) are
      variables of the enclosing section. *)

From Stdlib Require Import ZArith QArith Qabs Qround Lia List String Ascii.
From Stdlib Require Import DecimalString.
From stdpp Require Import gmap strings list.

Set Warnings "-register-all".

Open Scope string_scope.
Open Scope list_scope.
Open Scope Z_scope.

(** ** Text objects and their alignment *)

Module TextObject.

Inductive HorizontalAlignment := AlignLeft | AlignHCenter | AlignRight.

Inductive VerticalAlignment := AlignBaseline | AlignTop | AlignVCenter | AlignBottom.

Record Alignment := mkAlignment {
  h_align : HorizontalAlignment;
  v_align : VerticalAlignment
}.

Definition setHorizontalAlignment (h : HorizontalAlignment) (t : Alignment) : Alignment :=
  {| h_align := h; v_align := v_align t |}.

Definition setVerticalAlignment (v : VerticalAlignment) (t : Alignment) : Alignment :=
  {| h_align := h_align t; v_align := v |}.

End TextObject.

Import TextObject.

(** [applyLabelAnchor(anchor, text_object)].  The C++ [/] and [%] on
    [int] truncate towards zero ([Z.quot], [Z.rem]).  [None] stands for
    reaching [Q_UNREACHABLE()]. *)
Definition applyLabelAnchor (anchor : Z) (text_object : Alignment) : option Alignment :=
  let v_align := Z.quot (anchor - 1) 3 in
  match
    match v_align with
    | 0 => Some (setVerticalAlignment AlignBaseline text_object)
    | 1 => Some (setVerticalAlignment AlignVCenter text_object)
    | 2 => Some (setVerticalAlignment AlignTop text_object)
    | 3 => Some (setVerticalAlignment AlignBottom text_object)
    | _ => None
    end
  with
  | None => None
  | Some text_object =>
      let h_align := Z.rem (anchor - 1) 3 in
      match h_align with
      | 0 => Some (setHorizontalAlignment AlignLeft text_object)
      | 1 => Some (setHorizontalAlignment AlignHCenter text_object)
      | 2 => Some (setHorizontalAlignment AlignRight text_object)
      | _ => None
      end
  end.

(** The anchor table as the specification words it. *)
Definition v_align_table (v : Z) : option VerticalAlignment :=
  if decide (v = 0) then Some AlignBaseline
  else if decide (v = 1) then Some AlignVCenter
  else if decide (v = 2) then Some AlignTop
  else if decide (v = 3) then Some AlignBottom
  else None.

Definition h_align_table (h : Z) : option HorizontalAlignment :=
  if decide (h = 0) then Some AlignLeft
  else if decide (h = 1) then Some AlignHCenter
  else if decide (h = 2) then Some AlignRight
  else None.

(** ** Numbers, strings, outcomes *)

(** *** Floating point

    [pow2 e] is the rational 2^e. *)
Definition pow2 (e : Z) : Q :=
  match e with
  | Z0 => 1
  | Zpos p => inject_Z (Zpos (2 ^ p))
  | Zneg p => 1 # (2 ^ p)
  end.

(** The exponent [e] of a positive rational: 2^e <= a < 2^(e+1). *)
Definition binary_exponent (a : Q) : Z :=
  let e := Z.log2 (Qnum a) - Z.log2 (Zpos (Qden a)) in
  if Qle_bool (pow2 e) a then e else e - 1.

(** To the nearest integer, halfway cases to the even one. *)
Definition round_half_even (m : Q) : Z :=
  let f := Qfloor m in
  match Qcompare (m - inject_Z f) (1 # 2) with
  | Lt => f
  | Gt => f + 1
  | Eq => if Z.even f then f else f + 1
  end.

(** A positive rational rounded to [prec] significant bits, the unit
    in the last place being no smaller than 2^[emin] (the subnormal
    numbers). *)
Definition round_magnitude (prec emin : Z) (a : Q) : Q :=
  let u := Z.max (binary_exponent a - (prec - 1)) emin in
  (inject_Z (round_half_even (a * pow2 (- u))) * pow2 u)%Q.

(** Rounding to the nearest number of a binary floating-point format,
    ties to even, which is the rounding of the arithmetic of C++ on
    the machines the program is built for.  A result beyond the largest
    finite number of the format would be an infinity and has no
    faithful value here. *)
Definition round_binary (prec emin : Z) (q : Q) : Q :=
  Qred match Qcompare q 0 with
       | Eq => 0
       | Gt => round_magnitude prec emin q
       | Lt => - round_magnitude prec emin (- q)
       end.

(** IEEE 754 binary64 ([double]) and binary32 ([float]); a literal
    such as [0.1] is [round_double (1 # 10)]. *)
Definition round_double : Q -> Q := round_binary 53 (-1074).

Definition round_float : Q -> Q := round_binary 24 (-149).

(** [x + y], [x - y], [x * y] and [x / y] on [double].  A division by
    zero gives an infinity or NaN in C++ and is not represented. *)
Definition double_add (x y : Q) : Q := round_double (x + y).

Definition double_sub (x y : Q) : Q := round_double (x - y).

Definition double_mul (x y : Q) : Q := round_double (x * y).

Definition double_div (x y : Q) : Q := round_double (x / y).

(** *** [int] *)

Definition INT_MIN : Z := - 2 ^ 31.

Definition INT_MAX : Z := 2 ^ 31 - 1.

(** [int(d)]: the fraction is discarded.  For a value outside the
    range of [int] the C++ standard leaves the behaviour undefined;
    the conversion instruction of x86-64 gives [INT_MIN], which is the
    value taken here. *)
Definition int_of_double (d : Q) : Z :=
  let t := Z.quot (Qnum d) (Zpos (Qden d)) in
  if (INT_MIN <=? t) && (t <=? INT_MAX) then t else INT_MIN.

(** [a + b] on [int]; the sum wraps around at 32 bits (an overflow is
    undefined in C++; two's complement machines wrap). *)
Definition int_add (a b : Z) : Z := (a + b - INT_MIN) mod 2 ^ 32 + INT_MIN.

(** [qRound(double)] of Qt 5:
    [d >= 0.0 ? int(d + 0.5) : int(d - double(int(d-1)) + 0.5) + int(d-1)]. *)
Definition qRound (d : Q) : Z :=
  if Qle_bool 0 d then int_of_double (double_add d (1 # 2))
  else
    let below := int_of_double (double_sub d 1) in
    int_add (int_of_double (double_add (double_sub d (inject_Z below)) (1 # 2))) below.

(** [std::round]: to the nearest integer, halfway cases away from zero
    (the result, a [double], is exact). *)
Definition std_round (d : Q) : Z :=
  if Qle_bool 0 d then Qfloor (d + (1 # 2)) else Qceiling (d - (1 # 2)).

(** [qBound(min, val, max)] is [qMax(min, qMin(max, val))]. *)
Definition qBound (min val max : Z) : Z := Z.max min (Z.min max val).

(** [QString::number(int)]: the decimal numeral. *)
Definition QString_number_int (n : Z) : string :=
  NilZero.string_of_int (Z.to_int n).

(** [QStringRef::toInt(&ok)] in base 10, on the numerals the importer
    reads back (an optional sign and decimal digits); [None] is [ok = false]. *)
Definition QString_toInt (s : string) : option Z :=
  match s with
  | EmptyString => None
  | _ => match NilEmpty.int_of_string s with
         | Some d => Some (Z.of_int d)
         | None => None
         end
  end.

(** [QString::mid(position, n)] / [QStringRef(&s, position, n)]. *)
Definition QStringRef (s : string) (position n : nat) : string :=
  String.substring position n s.

(** [QString::indexOf(QLatin1Char)]: the first position of the character. *)
Fixpoint indexOf (c : ascii) (s : string) : option nat :=
  match s with
  | EmptyString => None
  | String a rest =>
      if Ascii.eqb a c then Some O
      else match indexOf c rest with
           | Some i => Some (S i)
           | None => None
           end
  end.

(** [QString::right(n)]. *)
Definition QString_right (n : nat) (s : string) : string :=
  String.substring (String.length s - n) n s.

(** [QString::startsWith(QLatin1Char)] and [QString::endsWith(QLatin1Char)]. *)
Definition startsWith (c : ascii) (s : string) : bool :=
  match s with
  | String a _ => Ascii.eqb a c
  | EmptyString => false
  end.

Fixpoint endsWith (c : ascii) (s : string) : bool :=
  match s with
  | EmptyString => false
  | String a EmptyString => Ascii.eqb a c
  | String _ rest => endsWith c rest
  end.

(** [label.remove(0, 1); label.chop(1);]. *)
Definition strip_first_and_last (s : string) : string :=
  String.substring 1 (String.length s - 2) s.

(** [replace(before, after)] of [QString] and [QByteArray] for a
    non-empty [before]: every occurrence found scanning from the left
    is replaced, the scan resuming behind the occurrence.  [skip]
    counts the characters of an occurrence still to pass over. *)
Fixpoint replace_from (before after : string) (skip : nat) (s : string) : string :=
  match s with
  | EmptyString => EmptyString
  | String c rest =>
      match skip with
      | S k => replace_from before after k rest
      | O =>
          if String.prefix before s
          then after +:+ replace_from before after (String.length before - 1) rest
          else String c (replace_from before after 0 rest)
      end
  end.

Definition replace (before after s : string) : string := replace_from before after 0 s.

(** The tabulator. *)
Definition tab : string := String "009"%char EmptyString.

(** A thrown [FileFormatException], and undefined behaviour met at
    [Q_UNREACHABLE()]. *)
Inductive Outcome (A : Type) :=
| Return (a : A)
| Throw (what : string)
| Unreachable.

Arguments Return {A} a.
Arguments Throw {A} what.
Arguments Unreachable {A}.

(** ** The map document: colors and symbols *)

(** Pointers to map colors and symbols: positions in the map's lists. *)
Abbreviation ColorPtr := nat (only parsing).

Abbreviation SymbolPtr := nat (only parsing).

(** How a color got its components: [setRgb], [setCmyk] or
    [setSpotColorComposition] (the conversions between the color spaces
    belong to the map model and are not followed here). *)
Inductive ColorSpec :=
| Rgb (r g b : Z)
| Cmyk (c m y k : Q)
| SpotColors (base : ColorPtr) (factor : Q) (opacity : Q).

Record MapColor := mkMapColor {
  color_name : string;
  color_priority : Z;
  color_spec : ColorSpec
}.

Module Symbol.

Inductive Type_ := Point | Line | Area | Text | Combined.

#[global] Instance Type__eq_dec : EqDecision Type_.
Proof. solve_decision. Defined.

End Symbol.

Module LineSymbol.

Inductive CapStyle := FlatCap | RoundCap | SquareCap | PointedCap.

Inductive JoinStyle := BevelJoin | MiterJoin | RoundJoin.

End LineSymbol.

(** One record for the symbol classes the importer creates.  [sym_color]
    is the inner color of a point symbol, the color of a line, area or
    text symbol. *)
Record Symbol := mkSymbol {
  sym_type : Symbol.Type_;
  sym_name : string;
  sym_number : Z;
  sym_hidden : bool;
  sym_description : string;
  sym_color : option ColorPtr;
  sym_inner_radius : Z;
  sym_line_width : Q;
  sym_cap_style : LineSymbol.CapStyle;
  sym_join_style : LineSymbol.JoinStyle;
  sym_dashed : bool;
  sym_dash_length : Z;
  sym_break_length : Z;
  sym_font_size : Q
}.

Definition setColor (c : ColorPtr) (s : Symbol) : Symbol :=
  mkSymbol (sym_type s) (sym_name s) (sym_number s) (sym_hidden s) (sym_description s)
    (Some c) (sym_inner_radius s) (sym_line_width s) (sym_cap_style s) (sym_join_style s)
    (sym_dashed s) (sym_dash_length s) (sym_break_length s) (sym_font_size s).

Definition setHidden (h : bool) (s : Symbol) : Symbol :=
  mkSymbol (sym_type s) (sym_name s) (sym_number s) h (sym_description s)
    (sym_color s) (sym_inner_radius s) (sym_line_width s) (sym_cap_style s) (sym_join_style s)
    (sym_dashed s) (sym_dash_length s) (sym_break_length s) (sym_font_size s).

Definition setDescription (d : string) (s : Symbol) : Symbol :=
  mkSymbol (sym_type s) (sym_name s) (sym_number s) (sym_hidden s) d
    (sym_color s) (sym_inner_radius s) (sym_line_width s) (sym_cap_style s) (sym_join_style s)
    (sym_dashed s) (sym_dash_length s) (sym_break_length s) (sym_font_size s).

Definition setLineWidth (w : Q) (s : Symbol) : Symbol :=
  mkSymbol (sym_type s) (sym_name s) (sym_number s) (sym_hidden s) (sym_description s)
    (sym_color s) (sym_inner_radius s) w (sym_cap_style s) (sym_join_style s)
    (sym_dashed s) (sym_dash_length s) (sym_break_length s) (sym_font_size s).

Definition setCapStyle (c : LineSymbol.CapStyle) (s : Symbol) : Symbol :=
  mkSymbol (sym_type s) (sym_name s) (sym_number s) (sym_hidden s) (sym_description s)
    (sym_color s) (sym_inner_radius s) (sym_line_width s) c (sym_join_style s)
    (sym_dashed s) (sym_dash_length s) (sym_break_length s) (sym_font_size s).

Definition setJoinStyle (j : LineSymbol.JoinStyle) (s : Symbol) : Symbol :=
  mkSymbol (sym_type s) (sym_name s) (sym_number s) (sym_hidden s) (sym_description s)
    (sym_color s) (sym_inner_radius s) (sym_line_width s) (sym_cap_style s) j
    (sym_dashed s) (sym_dash_length s) (sym_break_length s) (sym_font_size s).

(** [setDashed(true); setDashLength(d); setBreakLength(b)]. *)
Definition setDashPattern (d b : Z) (s : Symbol) : Symbol :=
  mkSymbol (sym_type s) (sym_name s) (sym_number s) (sym_hidden s) (sym_description s)
    (sym_color s) (sym_inner_radius s) (sym_line_width s) (sym_cap_style s) (sym_join_style s)
    true d b (sym_font_size s).

(** [TextSymbol::scale(factor)], as far as the font size goes. *)
Definition scale (factor : Q) (s : Symbol) : Symbol :=
  mkSymbol (sym_type s) (sym_name s) (sym_number s) (sym_hidden s) (sym_description s)
    (sym_color s) (sym_inner_radius s) (sym_line_width s) (sym_cap_style s) (sym_join_style s)
    (sym_dashed s) (sym_dash_length s) (sym_break_length s) (double_mul (sym_font_size s) factor).

(** ** Georeferencing of the map *)

Module Georeferencing.

Inductive State := Local | Geospatial.

End Georeferencing.

(** Modelled from the spec: the [Georeferencing] class (core/georeferencing.h)
    is not among the sources; it is the record of what the document
    interface sets and gets: state, projected CRS id and specification,
    projected reference point, scale denominator, combined scale factor
    and declination.  A setter assigns its field. *)
Record Georeferencing := mkGeoreferencing {
  georef_state : Georeferencing.State;
  projected_crs_id : string;
  projected_crs_spec : string;
  projected_ref_point : Q * Q;
  scale_denominator : Z;
  combined_scale_factor : Q;
  declination : Q
}.

(** [Georeferencing()]: a local georeferencing. *)
Definition Georeferencing_new : Georeferencing :=
  mkGeoreferencing Georeferencing.Local "" "" (0, 0)%Q 1000 1 0.

(** [setProjectedCRS(id, spec)]: with a specification the map becomes
    geospatial. *)
Definition setProjectedCRS (id spec : string) (g : Georeferencing) : Georeferencing :=
  mkGeoreferencing Georeferencing.Geospatial id spec (projected_ref_point g)
    (scale_denominator g) (combined_scale_factor g) (declination g).

Definition setProjectedRefPoint (point : Q * Q) (g : Georeferencing) : Georeferencing :=
  mkGeoreferencing (georef_state g) (projected_crs_id g) (projected_crs_spec g) point
    (scale_denominator g) (combined_scale_factor g) (declination g).

Definition setScaleDenominator (d : Z) (g : Georeferencing) : Georeferencing :=
  mkGeoreferencing (georef_state g) (projected_crs_id g) (projected_crs_spec g)
    (projected_ref_point g) d (combined_scale_factor g) (declination g).

Definition setCombinedScaleFactor (f : Q) (g : Georeferencing) : Georeferencing :=
  mkGeoreferencing (georef_state g) (projected_crs_id g) (projected_crs_spec g)
    (projected_ref_point g) (scale_denominator g) f (declination g).

Definition setDeclination (d : Q) (g : Georeferencing) : Georeferencing :=
  mkGeoreferencing (georef_state g) (projected_crs_id g) (projected_crs_spec g)
    (projected_ref_point g) (scale_denominator g) (combined_scale_factor g) d.

Record Map := mkMap {
  map_colors : list MapColor;
  map_symbols : list Symbol;
  getGeoreferencing : Georeferencing
}.

Definition getNumColors (m : Map) : nat := length (map_colors m).

Definition getNumSymbols (m : Map) : nat := length (map_symbols m).

(** [map->addColor(color, map->getNumColors())]: the new color comes last. *)
Definition addColor (c : MapColor) (m : Map) : Map :=
  mkMap (map_colors m ++ [c]) (map_symbols m) (getGeoreferencing m).

(** [map->addSymbol(symbol, map->getNumSymbols())]: the new symbol comes last. *)
Definition addSymbol (s : Symbol) (m : Map) : Map :=
  mkMap (map_colors m) (map_symbols m ++ [s]) (getGeoreferencing m).

(** Writing through a [Symbol*]. *)
Definition updateSymbol (p : SymbolPtr) (f : Symbol -> Symbol) (m : Map) : Map :=
  mkMap (map_colors m) (alter f p (map_symbols m)) (getGeoreferencing m).

(** [map->setGeoreferencing(georef)]. *)
Definition setGeoreferencing (g : Georeferencing) (m : Map) : Map :=
  mkMap (map_colors m) (map_symbols m) g.

(** ** The data source: spatial references, geometries, features, layers *)

(** A spatial reference handle.  [srs_id] is the identity of the handle
    (the code compares handles, [data_srs != srs]); the other fields are
    what [OSRIsLocal], [OSRIsProjected] and [OSRExportToProj4] answer
    ([None]: the export reports an error). *)
Record SRS := mkSRS {
  srs_id : nat;
  OSRIsLocal : bool;
  OSRIsProjected : bool;
  OSRExportToProj4 : option string
}.

#[global] Instance SRS_eq_dec : EqDecision SRS.
Proof. solve_decision. Defined.

Inductive wkbType :=
| wkbUnknown | wkbPoint | wkbLineString | wkbPolygon
| wkbMultiPoint | wkbMultiLineString | wkbMultiPolygon | wkbGeometryCollection
| wkbOther (code : Z).

#[global] Instance wkbType_eq_dec : EqDecision wkbType.
Proof. solve_decision. Defined.

(** [OGRwkbGeometryType]: a flat type and whether the code carries a
    Z or M modifier (as in [wkbLineString25D]). *)
Record OGRwkbGeometryType := mkGeometryType {
  wkbFlatten : wkbType;
  wkbModified : bool
}.

#[global] Instance OGRwkbGeometryType_eq_dec : EqDecision OGRwkbGeometryType.
Proof. solve_decision. Defined.

(** A geometry handle as the OGR accessors present it: the type, the
    points ([OGR_G_GetPointCount], [OGR_G_GetX], [OGR_G_GetY]) and the
    sub-geometries ([OGR_G_GetGeometryCount], [OGR_G_GetGeometryRef]). *)
Inductive OGRGeometry :=
| Geometry (type : OGRwkbGeometryType) (points : list (Q * Q)) (geometries : list OGRGeometry).

Definition OGR_G_GetGeometryType (g : OGRGeometry) : OGRwkbGeometryType :=
  match g with Geometry type _ _ => type end.

Definition OGR_G_points (g : OGRGeometry) : list (Q * Q) :=
  match g with Geometry _ points _ => points end.

Definition OGR_G_geometries (g : OGRGeometry) : list OGRGeometry :=
  match g with Geometry _ _ geometries => geometries end.

(** [OGR_G_IsEmpty]: no point anywhere in the geometry. *)
Fixpoint OGR_G_IsEmpty (g : OGRGeometry) : bool :=
  match g with
  | Geometry _ points geometries =>
      match points with
      | [] => forallb OGR_G_IsEmpty geometries
      | _ => false
      end
  end.

(** [OGR_G_Transform(geometry, transformation)]: the transformed
    geometry, or [None] for an error. *)
Definition Transformation := OGRGeometry -> option OGRGeometry.

(** A feature: its geometry with the geometry's spatial reference, its
    fields in the order of the feature definition (name and
    [OGR_F_GetFieldAsString]), and its style string (empty for null). *)
Record OGRFeature := mkFeature {
  OGR_F_GetGeometryRef : option OGRGeometry;
  OGR_G_GetSpatialReference : option SRS;
  OGR_F_fields : list (string * string);
  OGR_F_GetStyleString : string
}.

Record OGRLayer := mkLayer {
  OGR_L_GetName : string;
  OGR_L_GetSpatialRef : option SRS;
  OGR_L_features : list OGRFeature
}.

(** [OGR_DS_GetLayer(data_source, i)] for every index; a layer can be null. *)
Abbreviation OGRDataSource := (list (option OGRLayer)) (only parsing).

(** [to_map_coord]: the member function [toMapCoord] dispatches to. *)
Inductive CoordinateMapping := fromProjected | fromDrawing.

Inductive UnitType := UnitOnGround | UnitOnPaper.

#[global] Instance UnitType_eq_dec : EqDecision UnitType.
Proof. solve_decision. Defined.

(** ** OGR style tools

    What the importer reads from an [OGRStyleToolH]: its class, its own
    style string and the parameters of its class.  [None] is a parameter
    for which the accessor reports [is_null]. *)

Inductive OGRSTClassId := OGRSTCNone | OGRSTCPen | OGRSTCBrush | OGRSTCSymbol | OGRSTCLabel | OGRSTCVector.

#[global] Instance OGRSTClassId_eq_dec : EqDecision OGRSTClassId.
Proof. solve_decision. Defined.

Record OGRStyleTool := mkTool {
  OGR_ST_GetType : OGRSTClassId;
  OGR_ST_GetStyleString : string;
  OGRSTPenColor : option string;
  OGRSTPenWidth : option Q;
  OGRSTPenCap : option string;
  OGRSTPenJoin : option string;
  OGRSTPenPattern : option string;
  OGRSTBrushFColor : option string;
  OGRSTSymbolColor : option string;
  OGRSTSymbolAngle : option Q;
  OGRSTLabelTextString : option string;
  OGRSTLabelFColor : option string;
  OGRSTLabelSize : option string;
  OGRSTLabelSizeDbl : option Q;
  OGRSTLabelAnchor : option Z;
  OGRSTLabelAngle : option Q
}.

(** A string parameter as the code goes on using it after a null
    report: a null [const char*], of [qstrlen] zero. *)
Definition c_str (p : option string) : string :=
  match p with Some s => s | None => "" end.

(** ** The importer *)

Record OgrFileImport := mkImport {
  map : Map;
  colors : gmap string (option ColorPtr);
  point_symbols : gmap string SymbolPtr;
  text_symbols : gmap string SymbolPtr;
  line_symbols : gmap string SymbolPtr;
  area_symbols : gmap string SymbolPtr;
  default_pen_color : ColorPtr;
  default_point_symbol : SymbolPtr;
  default_line_symbol : SymbolPtr;
  default_area_symbol : SymbolPtr;
  default_text_symbol : SymbolPtr;
  empty_geometries : Z;
  no_transformation : Z;
  failed_transformation : Z;
  unsupported_geometry_type : Z;
  too_few_coordinates : Z;
  unit_type : UnitType;
  driver_name : string;
  map_srs : SRS;
  data_srs : option SRS;
  data_transform : option Transformation;
  to_map_coord : CoordinateMapping
}.

Definition set_map (x : Map) (st : OgrFileImport) : OgrFileImport :=
  mkImport x (colors st) (point_symbols st) (text_symbols st) (line_symbols st)
    (area_symbols st) (default_pen_color st) (default_point_symbol st)
    (default_line_symbol st) (default_area_symbol st) (default_text_symbol st)
    (empty_geometries st) (no_transformation st) (failed_transformation st)
    (unsupported_geometry_type st) (too_few_coordinates st) (unit_type st) (driver_name st)
    (map_srs st) (data_srs st) (data_transform st) (to_map_coord st).

Definition set_colors (x : gmap string (option ColorPtr)) (st : OgrFileImport) : OgrFileImport :=
  mkImport (map st) x (point_symbols st) (text_symbols st) (line_symbols st)
    (area_symbols st) (default_pen_color st) (default_point_symbol st)
    (default_line_symbol st) (default_area_symbol st) (default_text_symbol st)
    (empty_geometries st) (no_transformation st) (failed_transformation st)
    (unsupported_geometry_type st) (too_few_coordinates st) (unit_type st) (driver_name st)
    (map_srs st) (data_srs st) (data_transform st) (to_map_coord st).

Definition set_point_symbols (x : gmap string SymbolPtr) (st : OgrFileImport) : OgrFileImport :=
  mkImport (map st) (colors st) x (text_symbols st) (line_symbols st) (area_symbols st)
    (default_pen_color st) (default_point_symbol st) (default_line_symbol st)
    (default_area_symbol st) (default_text_symbol st) (empty_geometries st)
    (no_transformation st) (failed_transformation st) (unsupported_geometry_type st)
    (too_few_coordinates st) (unit_type st) (driver_name st) (map_srs st) (data_srs st)
    (data_transform st) (to_map_coord st).

Definition set_text_symbols (x : gmap string SymbolPtr) (st : OgrFileImport) : OgrFileImport :=
  mkImport (map st) (colors st) (point_symbols st) x (line_symbols st) (area_symbols st)
    (default_pen_color st) (default_point_symbol st) (default_line_symbol st)
    (default_area_symbol st) (default_text_symbol st) (empty_geometries st)
    (no_transformation st) (failed_transformation st) (unsupported_geometry_type st)
    (too_few_coordinates st) (unit_type st) (driver_name st) (map_srs st) (data_srs st)
    (data_transform st) (to_map_coord st).

Definition set_line_symbols (x : gmap string SymbolPtr) (st : OgrFileImport) : OgrFileImport :=
  mkImport (map st) (colors st) (point_symbols st) (text_symbols st) x (area_symbols st)
    (default_pen_color st) (default_point_symbol st) (default_line_symbol st)
    (default_area_symbol st) (default_text_symbol st) (empty_geometries st)
    (no_transformation st) (failed_transformation st) (unsupported_geometry_type st)
    (too_few_coordinates st) (unit_type st) (driver_name st) (map_srs st) (data_srs st)
    (data_transform st) (to_map_coord st).

Definition set_area_symbols (x : gmap string SymbolPtr) (st : OgrFileImport) : OgrFileImport :=
  mkImport (map st) (colors st) (point_symbols st) (text_symbols st) (line_symbols st) x
    (default_pen_color st) (default_point_symbol st) (default_line_symbol st)
    (default_area_symbol st) (default_text_symbol st) (empty_geometries st)
    (no_transformation st) (failed_transformation st) (unsupported_geometry_type st)
    (too_few_coordinates st) (unit_type st) (driver_name st) (map_srs st) (data_srs st)
    (data_transform st) (to_map_coord st).

Definition set_map_srs (x : SRS) (st : OgrFileImport) : OgrFileImport :=
  mkImport (map st) (colors st) (point_symbols st) (text_symbols st) (line_symbols st)
    (area_symbols st) (default_pen_color st) (default_point_symbol st)
    (default_line_symbol st) (default_area_symbol st) (default_text_symbol st)
    (empty_geometries st) (no_transformation st) (failed_transformation st)
    (unsupported_geometry_type st) (too_few_coordinates st) (unit_type st) (driver_name st)
    x (data_srs st) (data_transform st) (to_map_coord st).

Definition set_data_srs (x : option SRS) (st : OgrFileImport) : OgrFileImport :=
  mkImport (map st) (colors st) (point_symbols st) (text_symbols st) (line_symbols st)
    (area_symbols st) (default_pen_color st) (default_point_symbol st)
    (default_line_symbol st) (default_area_symbol st) (default_text_symbol st)
    (empty_geometries st) (no_transformation st) (failed_transformation st)
    (unsupported_geometry_type st) (too_few_coordinates st) (unit_type st) (driver_name st)
    (map_srs st) x (data_transform st) (to_map_coord st).

Definition set_data_transform (x : option Transformation) (st : OgrFileImport) : OgrFileImport :=
  mkImport (map st) (colors st) (point_symbols st) (text_symbols st) (line_symbols st)
    (area_symbols st) (default_pen_color st) (default_point_symbol st)
    (default_line_symbol st) (default_area_symbol st) (default_text_symbol st)
    (empty_geometries st) (no_transformation st) (failed_transformation st)
    (unsupported_geometry_type st) (too_few_coordinates st) (unit_type st) (driver_name st)
    (map_srs st) (data_srs st) x (to_map_coord st).

Definition set_to_map_coord (x : CoordinateMapping) (st : OgrFileImport) : OgrFileImport :=
  mkImport (map st) (colors st) (point_symbols st) (text_symbols st) (line_symbols st)
    (area_symbols st) (default_pen_color st) (default_point_symbol st)
    (default_line_symbol st) (default_area_symbol st) (default_text_symbol st)
    (empty_geometries st) (no_transformation st) (failed_transformation st)
    (unsupported_geometry_type st) (too_few_coordinates st) (unit_type st) (driver_name st)
    (map_srs st) (data_srs st) (data_transform st) x.

(** [++empty_geometries]. *)
Definition count_empty_geometries (st : OgrFileImport) : OgrFileImport :=
  mkImport (map st) (colors st) (point_symbols st) (text_symbols st) (line_symbols st)
    (area_symbols st) (default_pen_color st) (default_point_symbol st)
    (default_line_symbol st) (default_area_symbol st) (default_text_symbol st)
    (empty_geometries st + 1) (no_transformation st) (failed_transformation st)
    (unsupported_geometry_type st) (too_few_coordinates st) (unit_type st) (driver_name st)
    (map_srs st) (data_srs st) (data_transform st) (to_map_coord st).

(** [++no_transformation]. *)
Definition count_no_transformation (st : OgrFileImport) : OgrFileImport :=
  mkImport (map st) (colors st) (point_symbols st) (text_symbols st) (line_symbols st)
    (area_symbols st) (default_pen_color st) (default_point_symbol st)
    (default_line_symbol st) (default_area_symbol st) (default_text_symbol st)
    (empty_geometries st) (no_transformation st + 1) (failed_transformation st)
    (unsupported_geometry_type st) (too_few_coordinates st) (unit_type st) (driver_name st)
    (map_srs st) (data_srs st) (data_transform st) (to_map_coord st).

(** [++failed_transformation]. *)
Definition count_failed_transformation (st : OgrFileImport) : OgrFileImport :=
  mkImport (map st) (colors st) (point_symbols st) (text_symbols st) (line_symbols st)
    (area_symbols st) (default_pen_color st) (default_point_symbol st)
    (default_line_symbol st) (default_area_symbol st) (default_text_symbol st)
    (empty_geometries st) (no_transformation st) (failed_transformation st + 1)
    (unsupported_geometry_type st) (too_few_coordinates st) (unit_type st) (driver_name st)
    (map_srs st) (data_srs st) (data_transform st) (to_map_coord st).

(** [++unsupported_geometry_type]. *)
Definition count_unsupported_geometry_type (st : OgrFileImport) : OgrFileImport :=
  mkImport (map st) (colors st) (point_symbols st) (text_symbols st) (line_symbols st)
    (area_symbols st) (default_pen_color st) (default_point_symbol st)
    (default_line_symbol st) (default_area_symbol st) (default_text_symbol st)
    (empty_geometries st) (no_transformation st) (failed_transformation st)
    (unsupported_geometry_type st + 1) (too_few_coordinates st) (unit_type st)
    (driver_name st) (map_srs st) (data_srs st) (data_transform st) (to_map_coord st).

(** [++too_few_coordinates]. *)
Definition count_too_few_coordinates (st : OgrFileImport) : OgrFileImport :=
  mkImport (map st) (colors st) (point_symbols st) (text_symbols st) (line_symbols st)
    (area_symbols st) (default_pen_color st) (default_point_symbol st)
    (default_line_symbol st) (default_area_symbol st) (default_text_symbol st)
    (empty_geometries st) (no_transformation st) (failed_transformation st)
    (unsupported_geometry_type st) (too_few_coordinates st + 1) (unit_type st)
    (driver_name st) (map_srs st) (data_srs st) (data_transform st) (to_map_coord st).

(** [QHash::value(key)] on a hash of pointers: null when the key is
    absent or maps to null. *)
Definition colors_value (st : OgrFileImport) (key : string) : option ColorPtr :=
  match colors st !! key with
  | Some c => c
  | None => None
  end.

(** [symbol->getType()] through a pointer into the map. *)
Definition getType (st : OgrFileImport) (p : SymbolPtr) : option Symbol.Type_ :=
  sym_type <$> map_symbols (map st) !! p.

(** [symbol && symbol->getType() == type]. *)
Definition cached_as (type : Symbol.Type_) (st : OgrFileImport) (cached : option SymbolPtr) : option SymbolPtr :=
  match cached with
  | Some p =>
      match getType st p with
      | Some t => if decide (t = type) then Some p else None
      | None => None
      end
  | None => None
  end.

(** ** Tags *)

Abbreviation KeyValueContainer := (list (string * string)) (only parsing).

(** Modelled from the spec: [KeyValueContainer] (util/key_value_container.h)
    is not among the sources.  It is the spec's tag set, "an ordered
    mapping from field name to string value": a sequence of key-value
    pairs without repeated keys, in insertion order.  [insert] and
    [insert_or_assign] are the operations of the C++ associative
    containers whose names they carry: [insert] leaves the value of a
    key that is present, [insert_or_assign] replaces it. *)
Module KeyValueContainer.

Definition find (key : string) (c : KeyValueContainer) : option string :=
  snd <$> List.find (fun kv => String.eqb (fst kv) key) c.

Definition contains (key : string) (c : KeyValueContainer) : bool :=
  match find key c with Some _ => true | None => false end.

(** Modelled from the spec: [insert_or_assign(key, value)] replaces
    the value of a key that is present and appends the pair otherwise. *)
Fixpoint insert_or_assign (key value : string) (c : KeyValueContainer) : KeyValueContainer :=
  match c with
  | [] => [(key, value)]
  | (k, v) :: rest =>
      if String.eqb k key then (k, value) :: rest
      else (k, v) :: insert_or_assign key value rest
  end.

(** Modelled from the spec: [insert(tag)] appends the pair unless its
    key is present, and then changes nothing. *)
Definition insert (tag : string * string) (c : KeyValueContainer) : KeyValueContainer :=
  if contains (fst tag) c then c else c ++ [tag].

End KeyValueContainer.

(** ** Map objects *)

(** Map coordinates in their native unit (1/1000 mm). *)
Abbreviation MapCoord := (Z * Z)%type (only parsing).

(** Modelled from the spec: the object classes (core/objects/object.h,
    text_object.h) are not among the sources.  A path object is a
    sequence of parts, each a sequence of coordinates that is open or
    closed; [addCoordinate] extends the last part or, asked to, starts
    a new part; [closeAllParts] closes every part.  A point object has
    a position, a text object an anchor position, a text and an
    alignment; both can be rotated.  Every object has a symbol and
    tags. *)
Record PathPart := mkPathPart {
  part_coords : list MapCoord;
  part_closed : bool
}.

Module Object.

Inductive Type_ := Point | Path | Text.

#[global] Instance Type__eq_dec : EqDecision Type_.
Proof. solve_decision. Defined.

End Object.

Record Object := mkObject {
  obj_type : Object.Type_;
  obj_symbol : SymbolPtr;
  obj_position : MapCoord;
  obj_parts : list PathPart;
  obj_rotation : option Q;
  obj_text : string;
  obj_alignment : option Alignment;
  obj_tags : KeyValueContainer
}.

(** [new PointObject(symbol)], [new PathObject(symbol)], [new TextObject(symbol)]:
    no coordinates, no rotation, no tags; the alignment is the class's
    until it is set. *)
Definition new_Object (t : Object.Type_) (symbol : SymbolPtr) : Object :=
  mkObject t symbol (0, 0) [] None "" None [].

(** [setPosition] of a point object, [setAnchorPosition] of a text object. *)
Definition setPosition (c : MapCoord) (o : Object) : Object :=
  mkObject (obj_type o) (obj_symbol o) c (obj_parts o) (obj_rotation o) (obj_text o)
    (obj_alignment o) (obj_tags o).

(** [setRotation(qDegreesToRadians(angle))]; the field keeps the angle in degrees. *)
Definition setRotationDegrees (angle : Q) (o : Object) : Object :=
  mkObject (obj_type o) (obj_symbol o) (obj_position o) (obj_parts o) (Some angle) (obj_text o)
    (obj_alignment o) (obj_tags o).

Definition setText (text : string) (o : Object) : Object :=
  mkObject (obj_type o) (obj_symbol o) (obj_position o) (obj_parts o) (obj_rotation o) text
    (obj_alignment o) (obj_tags o).

Definition setAlignment (a : Alignment) (o : Object) : Object :=
  mkObject (obj_type o) (obj_symbol o) (obj_position o) (obj_parts o) (obj_rotation o) (obj_text o)
    (Some a) (obj_tags o).

Definition setTags (tags : KeyValueContainer) (o : Object) : Object :=
  mkObject (obj_type o) (obj_symbol o) (obj_position o) (obj_parts o) (obj_rotation o) (obj_text o)
    (obj_alignment o) tags.

(** [object->setTag(key, value)]. *)
Definition setTag (key value : string) (o : Object) : Object :=
  setTags (KeyValueContainer.insert_or_assign key value (obj_tags o)) o.

Definition set_parts (parts : list PathPart) (o : Object) : Object :=
  mkObject (obj_type o) (obj_symbol o) (obj_position o) parts (obj_rotation o) (obj_text o)
    (obj_alignment o) (obj_tags o).

(** The parts after [addCoordinate(c, start_new_part)]. *)
Fixpoint add_to_last_part (c : MapCoord) (parts : list PathPart) : list PathPart :=
  match parts with
  | [] => [mkPathPart [c] false]
  | [p] => [mkPathPart (part_coords p ++ [c]) (part_closed p)]
  | p :: rest => p :: add_to_last_part c rest
  end.

(** Modelled from the spec: [PathObject::addCoordinate(c, start_new_part)],
    which extends the last part or, asked to, starts a new part ("each
    hole starting a new path part"). *)
Definition addCoordinate (c : MapCoord) (start_new_part : bool) (o : Object) : Object :=
  match obj_parts o with
  | [] => set_parts [mkPathPart [c] false] o
  | parts =>
      if start_new_part then set_parts (parts ++ [mkPathPart [c] false]) o
      else set_parts (add_to_last_part c parts) o
  end.

(** Modelled from the spec: [PathObject::closeAllParts()] ("close all parts"). *)
Definition closeAllParts (o : Object) : Object :=
  set_parts (List.map (fun p => mkPathPart (part_coords p) true) (obj_parts o)) o.

(** The text object under an anchor, when no unreachable branch is met. *)
Definition applyLabelAnchor_object (anchor : Z) (o : Object) (fallback : Alignment) : option Object :=
  match applyLabelAnchor anchor (default fallback (obj_alignment o)) with
  | Some a => Some (setAlignment a o)
  | None => None
  end.

(** ** Exporting text objects *)

Definition dquote : ascii := "034"%char.

Definition backslash : ascii := "092"%char.


(** The replacement [addTextToLayer] applies to the text before it goes
    into the style: the regular expression matches one double quote or
    one backslash, and the replacement is a backslash followed by the
    match. *)
Fixpoint escape_text (text : string) : string :=
  match text with
  | EmptyString => EmptyString
  | String c rest =>
      if Ascii.eqb c dquote || Ascii.eqb c backslash
      then String backslash (String c (escape_text rest))
      else String c (escape_text rest)
  end.


(** [QString::left(n)], [QString::leftRef(n)] and [QString::truncate(n)]. *)
Definition QString_left (n : nat) (s : string) : string := String.substring 0 n s.

(** What the exporter holds when features are written: the name of the
    field for the symbol name and the definition of the name field,
    null under the [UseLayerField] quirk. *)
Record OgrFileExport := mkExport {
  symbol_field : string;
  o_name_field : option string
}.

(** The part of [exportImplementation] under "Name field definition". *)
Definition name_field_definition (UseLayerField : bool) : OgrFileExport :=
  if UseLayerField then mkExport "Layer" None else mkExport "Name" (Some "Name").

Record ExportedFeature := mkExportedFeature {
  feature_fields : KeyValueContainer;
  feature_point : Q * Q;
  feature_style : string
}.

(** The style string [addTextToLayer] sets on the feature, [style]
    being the entry of the style table for the symbol. *)
Definition text_style (e : OgrFileExport) (text style : string) : string :=
  match o_name_field e with
  | Some _ =>
      if decide (32 < String.length text)%nat then replace "{Name}" (escape_text text) style
      else style
  | None => replace "{Name}" (escape_text text) style
  end.

(** The feature [add_feature] of [OgrFileExport::addTextToLayer]
    creates for a text object: [sym_name] is the plain text name of the
    symbol, [text] the text of the object, [point] its anchor in
    the coordinates written, [style] the style of the symbol. *)
Definition addTextToLayer_feature (e : OgrFileExport) (sym_name text : string) (point : Q * Q)
    (style : string) : ExportedFeature :=
  let fields := KeyValueContainer.insert_or_assign (symbol_field e) (QString_left 32 sym_name) [] in
  let fields :=
    match o_name_field e with
    | Some name => KeyValueContainer.insert_or_assign name (QString_left 32 text) fields
    | None => fields
    end in
  mkExportedFeature fields point (text_style e text style).

(** ** Decoding styles into colors and symbols *)

(** A symbol value that stands in when a dangling pointer is
    dereferenced; the importer's pointers are never dangling
    (see [wf] below). *)
Definition null_symbol (t : Symbol.Type_) : Symbol :=
  mkSymbol t "" 0 false "" None 0 0 LineSymbol.FlatCap LineSymbol.MiterJoin false 0 0 0.

(** [duplicate<T>( *p )]: a copy of the symbol behind [p]. *)
Definition duplicate (t : Symbol.Type_) (st : OgrFileImport) (p : SymbolPtr) : Symbol :=
  default (null_symbol t) (map_symbols (map st) !! p).

(** [OgrFileImport::OgrFileImport], with the spatial reference of the
    map and the driver name that [importImplementation] sets before the
    layers are read.  The OGR feature style defaults come first in the
    map: two colors, then a point, a line, an area and a text symbol.
    [new_Symbol] gives the symbol a default constructor makes. *)
Definition OgrFileImport_new (new_Symbol : Symbol.Type_ -> Symbol) (m : Map)
    (unit_type : UnitType) (driver_name : string) (map_srs : SRS) : OgrFileImport :=
  let default_pen_color :=
    mkMapColor "Purple" 0 (Cmyk (round_float (35 # 100)) (round_float (85 # 100)) 0 0) in
  let default_brush_color :=
    mkMapColor "Purple 40%" 0 (SpotColors 0%nat (round_float (8 # 10)) (round_float (1 # 2))) in
  let point := new_Symbol Symbol.Point in
  let default_point_symbol :=
    mkSymbol Symbol.Point "Point" 1 (sym_hidden point) (sym_description point) (Some 0%nat) 200
      (sym_line_width point) (sym_cap_style point) (sym_join_style point)
      (sym_dashed point) (sym_dash_length point) (sym_break_length point) (sym_font_size point) in
  let line := new_Symbol Symbol.Line in
  let default_line_symbol :=
    mkSymbol Symbol.Line "Line" 2 (sym_hidden line) (sym_description line) (Some 0%nat)
      (sym_inner_radius line) (round_double (1 # 10)) LineSymbol.FlatCap LineSymbol.MiterJoin
      (sym_dashed line) (sym_dash_length line) (sym_break_length line) (sym_font_size line) in
  let area := new_Symbol Symbol.Area in
  let default_area_symbol :=
    mkSymbol Symbol.Area "Area" 3 (sym_hidden area) (sym_description area) (Some 1%nat)
      (sym_inner_radius area) (sym_line_width area) (sym_cap_style area) (sym_join_style area)
      (sym_dashed area) (sym_dash_length area) (sym_break_length area) (sym_font_size area) in
  let text := new_Symbol Symbol.Text in
  let default_text_symbol :=
    mkSymbol Symbol.Text "Text" 4 (sym_hidden text) (sym_description text) (Some 0%nat)
      (sym_inner_radius text) (sym_line_width text) (sym_cap_style text) (sym_join_style text)
      (sym_dashed text) (sym_dash_length text) (sym_break_length text) (sym_font_size text) in
  let m :=
    mkMap ([default_pen_color; default_brush_color] ++ map_colors m)
      ([default_point_symbol; default_line_symbol; default_area_symbol; default_text_symbol]
         ++ map_symbols m)
      (getGeoreferencing m) in
  mkImport m ∅ ∅ ∅ ∅ ∅ 0%nat 0%nat 1%nat 2%nat 3%nat 0 0 0 0 0
    unit_type driver_name map_srs None None fromProjected.

(** [tauto] on the goal and the hypotheses, the variables the goal
    does not mention being put aside first. *)
Ltac clear_unused :=
  repeat match goal with
         | x : ?T |- _ => lazymatch type of T with Prop => fail | _ => clear x end
         end.

Ltac tauto_here := clear_unused; tauto.

Section Importer.

Set Default Proof Using "Type".

(** [OGR_SM_InitStyleString] followed by [OGR_SM_GetPartCount] and
    [OGR_SM_GetPart] for every index: [None] when the style manager
    rejects the string, else the parts in order, a part being [None]
    when [OGR_SM_GetPart] returns null. *)
Variable OGR_SM_parts : string -> option (list (option OGRStyleTool)).

(** [OGR_ST_GetRGBFromString]: [None] on failure, else red, green, blue
    and alpha. *)
Variable OGR_ST_GetRGBFromString : string -> option (Z * Z * Z * Z).

(** The regular expression of [applyPenPattern] matched against the
    pattern and captures 1 and 3 converted by [toDouble]; [None] when
    any of the three steps fails. *)
Variable match_dash_pattern : string -> option (Q * Q).

(** [QString::number(double, format, precision)]. *)
Variable QString_number : Q -> ascii -> nat -> string.

(** [OgrFileImport::makeColor]. *)
Definition makeColor (color_string : string) (st : OgrFileImport) : option ColorPtr * OgrFileImport :=
  let key := color_string in
  match colors_value st key with
  | Some color => (Some color, st)
  | None =>
      let '(color, st) :=
        match OGR_ST_GetRGBFromString color_string with
        | None => (Some (default_pen_color st), st)
        | Some (r, g, b, a) =>
            if 0 <? a then
              let color := getNumColors (map st) in
              let c := mkMapColor color_string (Z.of_nat (getNumColors (map st))) (Rgb r g b) in
              (Some color, set_map (addColor c (map st)) st)
            else (None, st)
        end in
      (color, set_colors (<[key := color]> (colors st)) st)
  end.

(** The common tail of [applyPenColor], [applyBrushColor] and the color
    steps of [getSymbolForOgrSymbol] and [getSymbolForLabel]:
    [if (color) symbol->setColor(color); else symbol->setHidden(true);]. *)
Definition applyColor (color : option ColorPtr) (symbol : Symbol) : Symbol :=
  match color with
  | Some c => setColor c symbol
  | None => setHidden true symbol
  end.

(** [OgrFileImport::applyPenColor]. *)
Definition applyPenColor (tool : OGRStyleTool) (line_symbol : Symbol) (st : OgrFileImport)
  : Symbol * OgrFileImport :=
  match OGRSTPenColor tool with
  | Some color_string =>
      let '(color, st) := makeColor color_string st in
      (applyColor color line_symbol, st)
  | None => (line_symbol, st)
  end.

(** [OgrFileImport::applyBrushColor]. *)
Definition applyBrushColor (tool : OGRStyleTool) (area_symbol : Symbol) (st : OgrFileImport)
  : Symbol * OgrFileImport :=
  match OGRSTBrushFColor tool with
  | Some color_string =>
      let '(color, st) := makeColor color_string st in
      (applyColor color area_symbol, st)
  | None => (area_symbol, st)
  end.

(** [applyPenWidth]. *)
Definition applyPenWidth (tool : OGRStyleTool) (line_symbol : Symbol) : Symbol :=
  match OGRSTPenWidth tool with
  | Some pen_width =>
      let pen_width :=
        if Qle_bool pen_width (round_double (1 # 100)) then round_double (1 # 10) else pen_width in
      setLineWidth pen_width line_symbol
  | None => line_symbol
  end.

(** [applyPenCap]: the switch on [pen_cap[0]]. *)
Definition applyPenCap (tool : OGRStyleTool) (line_symbol : Symbol) : Symbol :=
  match OGRSTPenCap tool with
  | Some (String "p" _) => setCapStyle LineSymbol.SquareCap line_symbol
  | Some (String "r" _) => setCapStyle LineSymbol.RoundCap line_symbol
  | _ => line_symbol
  end.

(** [applyPenJoin]: the switch on [pen_join[0]]. *)
Definition applyPenJoin (tool : OGRStyleTool) (line_symbol : Symbol) : Symbol :=
  match OGRSTPenJoin tool with
  | Some (String "b" _) => setJoinStyle LineSymbol.BevelJoin line_symbol
  | Some (String "r" _) => setJoinStyle LineSymbol.RoundJoin line_symbol
  | _ => line_symbol
  end.

(** [applyPenPattern]. *)
Definition applyPenPattern (tool : OGRStyleTool) (line_symbol : Symbol) : Symbol :=
  match OGRSTPenPattern tool with
  | Some raw_pattern =>
      match match_dash_pattern raw_pattern with
      | Some (length_0, length_1) =>
          setDashPattern (Z.max 100 (qRound (double_mul length_0 1000)))
            (Z.max 100 (qRound (double_mul length_1 1000))) line_symbol
      | None => line_symbol
      end
  | None => line_symbol
  end.

(** [OgrFileImport::getSymbolForPen]. *)
Definition getSymbolForPen (tool : OGRStyleTool) (style_string : string) (st : OgrFileImport)
  : SymbolPtr * OgrFileImport :=
  let tool_key := OGR_ST_GetStyleString tool in
  match cached_as Symbol.Line st (line_symbols st !! tool_key) with
  | Some symbol => (symbol, st)
  | None =>
      let line_symbol := duplicate Symbol.Line st (default_line_symbol st) in
      let '(line_symbol, st) := applyPenColor tool line_symbol st in
      let line_symbol := applyPenWidth tool line_symbol in
      let line_symbol := applyPenCap tool line_symbol in
      let line_symbol := applyPenJoin tool line_symbol in
      let line_symbol := applyPenPattern tool line_symbol in
      let ret := getNumSymbols (map st) in
      let key := style_string in
      let st := set_line_symbols (<[key := ret]> (line_symbols st)) st in
      let st := if decide (key = tool_key) then st
                else set_line_symbols (<[tool_key := ret]> (line_symbols st)) st in
      (ret, set_map (addSymbol line_symbol (map st)) st)
  end.

(** [OgrFileImport::getSymbolForBrush]. *)
Definition getSymbolForBrush (tool : OGRStyleTool) (style_string : string) (st : OgrFileImport)
  : SymbolPtr * OgrFileImport :=
  let tool_key := OGR_ST_GetStyleString tool in
  match cached_as Symbol.Area st (area_symbols st !! tool_key) with
  | Some symbol => (symbol, st)
  | None =>
      let area_symbol := duplicate Symbol.Area st (default_area_symbol st) in
      let '(area_symbol, st) := applyBrushColor tool area_symbol st in
      let s := getNumSymbols (map st) in
      let key := style_string in
      let st := set_area_symbols (<[key := s]> (area_symbols st)) st in
      let st := if decide (key = tool_key) then st
                else set_area_symbols (<[tool_key := s]> (area_symbols st)) st in
      (s, set_map (addSymbol area_symbol (map st)) st)
  end.

(** The color parameter [getSymbolForOgrSymbol] selects by the tool's
    class; the outer [None] is the [default: return nullptr] branch. *)
Definition ogr_symbol_color (tool : OGRStyleTool) : option (option string) :=
  match OGR_ST_GetType tool with
  | OGRSTCBrush => Some (OGRSTBrushFColor tool)
  | OGRSTCPen => Some (OGRSTPenColor tool)
  | OGRSTCSymbol => Some (OGRSTSymbolColor tool)
  | _ => None
  end.

(** [OgrFileImport::getSymbolForOgrSymbol]. *)
Definition getSymbolForOgrSymbol (tool : OGRStyleTool) (style_string : string) (st : OgrFileImport)
  : option SymbolPtr * OgrFileImport :=
  let tool_key := OGR_ST_GetStyleString tool in
  match cached_as Symbol.Point st (point_symbols st !! tool_key) with
  | Some symbol => (Some symbol, st)
  | None =>
      match ogr_symbol_color tool with
      | None => (None, st)
      | Some None => (None, st)
      | Some (Some color_string) =>
          let point_symbol := duplicate Symbol.Point st (default_point_symbol st) in
          let '(color, st) := makeColor color_string st in
          let point_symbol := applyColor color point_symbol in
          let ret := getNumSymbols (map st) in
          let key := style_string in
          let st := set_point_symbols (<[key := ret]> (point_symbols st)) st in
          let st := if decide (key = tool_key) then st
                    else set_point_symbols (<[tool_key := ret]> (point_symbols st)) st in
          let st := set_map (addSymbol point_symbol (map st)) st in
          let st :=
            if decide (OGR_ST_GetType tool = OGRSTCSymbol) then
              match OGRSTSymbolAngle tool with
              | Some angle =>
                  set_map (updateSymbol ret (setDescription (QString_number angle "f" 2)) (map st)) st
              | None => st
              end
            else st in
          (Some ret, st)
      end
  end.

(** The packed description of [getSymbolForLabel]:
    [100 + anchor], the angle, a space and the label. *)
Definition label_description (tool : OGRStyleTool) (label_string : string) : string :=
  let anchor := qBound 1 (default 0 (OGRSTLabelAnchor tool)) 12 in
  let anchor := match OGRSTLabelAnchor tool with None => 1 | Some _ => anchor end in
  let angle := match OGRSTLabelAngle tool with None => 0%Q | Some a => a end in
  QString_number_int (100 + anchor) +:+ QString_number angle "g" 1 +:+ " " +:+ label_string.

(** [OgrFileImport::getSymbolForLabel]. *)
Definition getSymbolForLabel (tool : OGRStyleTool) (st : OgrFileImport)
  : option SymbolPtr * OgrFileImport :=
  match OGRSTLabelTextString tool with
  | None => (None, st)
  | Some label_string =>
      let color_string := c_str (OGRSTLabelFColor tool) in
      let font_size_string := c_str (OGRSTLabelSize tool) in
      let key := color_string +:+ font_size_string in
      let '(text_symbol, st) :=
        match text_symbols st !! key with
        | Some text_symbol => (text_symbol, st)
        | None =>
            let copy := duplicate Symbol.Text st (default_text_symbol st) in
            let '(color, st) := makeColor color_string st in
            let copy := applyColor color copy in
            let copy :=
              match OGRSTLabelSizeDbl tool with
              | Some font_size =>
                  if Qlt_le_dec 0 font_size then scale (double_div font_size (sym_font_size copy)) copy
                  else copy
              | None => copy
              end in
            let text_symbol := getNumSymbols (map st) in
            let st := set_text_symbols (<[key := text_symbol]> (text_symbols st)) st in
            (text_symbol, set_map (addSymbol copy (map st)) st)
        end in
      let description := label_description tool label_string in
      (Some text_symbol, set_map (updateSymbol text_symbol (setDescription description) (map st)) st)
  end.

(** The loop [for (int i = 0; !symbol && i < num_parts; ++i)] of
    [getSymbolForPointGeometry], [getLineSymbol] and [getAreaSymbol]:
    null parts are skipped, the first symbol a part yields ends the loop. *)
Fixpoint first_symbol (f : OGRStyleTool -> OgrFileImport -> option SymbolPtr * OgrFileImport)
    (parts : list (option OGRStyleTool)) (st : OgrFileImport) : option SymbolPtr * OgrFileImport :=
  match parts with
  | [] => (None, st)
  | None :: parts => first_symbol f parts st
  | Some tool :: parts =>
      match f tool st with
      | (Some symbol, st) => (Some symbol, st)
      | (None, st) => first_symbol f parts st
      end
  end.

(** The part of the three functions before the loop: an empty style
    string, a rejected one and one without parts give no symbol. *)
Definition style_parts (style_string : string) : list (option OGRStyleTool) :=
  if decide (style_string = "") then []
  else match OGR_SM_parts style_string with
       | None => []
       | Some parts => parts
       end.

(** The body of the loop in [getSymbolForPointGeometry]: the switch on
    the class of the part. *)
Definition point_geometry_part (style_string : string) (tool : OGRStyleTool) (st : OgrFileImport)
  : option SymbolPtr * OgrFileImport :=
  match OGR_ST_GetType tool with
  | OGRSTCBrush | OGRSTCPen | OGRSTCSymbol => getSymbolForOgrSymbol tool style_string st
  | OGRSTCLabel => getSymbolForLabel tool st
  | _ => (None, st)
  end.

(** [OgrFileImport::getSymbolForPointGeometry]. *)
Definition getSymbolForPointGeometry (style_string : string) (st : OgrFileImport)
  : option SymbolPtr * OgrFileImport :=
  first_symbol (point_geometry_part style_string) (style_parts style_string) st.

(** The body of the loop in [getLineSymbol]. *)
Definition line_part (style_string : string) (tool : OGRStyleTool) (st : OgrFileImport)
  : option SymbolPtr * OgrFileImport :=
  match OGR_ST_GetType tool with
  | OGRSTCPen => let '(s, st) := getSymbolForPen tool style_string st in (Some s, st)
  | _ => (None, st)
  end.

(** [OgrFileImport::getLineSymbol]. *)
Definition getLineSymbol (style_string : string) (st : OgrFileImport)
  : option SymbolPtr * OgrFileImport :=
  first_symbol (line_part style_string) (style_parts style_string) st.

(** The body of the loop in [getAreaSymbol]. *)
Definition area_part (style_string : string) (tool : OGRStyleTool) (st : OgrFileImport)
  : option SymbolPtr * OgrFileImport :=
  match OGR_ST_GetType tool with
  | OGRSTCBrush => let '(s, st) := getSymbolForBrush tool style_string st in (Some s, st)
  | _ => (None, st)
  end.

(** [OgrFileImport::getAreaSymbol]. *)
Definition getAreaSymbol (style_string : string) (st : OgrFileImport)
  : option SymbolPtr * OgrFileImport :=
  first_symbol (area_part style_string) (style_parts style_string) st.

(** [OgrFileImport::getSymbol]: the cache under the full style string,
    then the decoder of the category, then the category's default. *)
Definition getSymbol (type : Symbol.Type_) (style_string : string) (st : OgrFileImport)
  : SymbolPtr * OgrFileImport :=
  match type with
  | Symbol.Point | Symbol.Text =>
      match point_symbols st !! style_string with
      | Some symbol => (symbol, st)
      | None =>
          match getSymbolForPointGeometry style_string st with
          | (Some symbol, st) => (symbol, st)
          | (None, st) => (default_point_symbol st, st)
          end
      end
  | Symbol.Combined | Symbol.Line =>
      match line_symbols st !! style_string with
      | Some symbol => (symbol, st)
      | None =>
          match getLineSymbol style_string st with
          | (Some symbol, st) => (symbol, st)
          | (None, st) => (default_line_symbol st, st)
          end
      end
  | Symbol.Area =>
      match area_symbols st !! style_string with
      | Some symbol => (symbol, st)
      | None =>
          match getAreaSymbol style_string st with
          | (Some symbol, st) => (symbol, st)
          | (None, st) => (default_area_symbol st, st)
          end
      end
  end.

(** ** Importing geometries *)

(** [QString::toDouble(&ok)]. *)
Variable QString_toDouble : string -> option Q.

(** [MapCoord::load(x, y, flags)] on millimetres. *)
Variable MapCoord_load : Q -> Q -> MapCoord.

(** [georef.toMapCoordF(QPointF)]: projected coordinates to millimetres on the map. *)
Variable toMapCoordF : Georeferencing -> Q * Q -> Q * Q.

(** [OGR_G_ForceToLineString(OGR_G_Clone(geometry))]. *)
Variable OGR_G_ForceToLineString : OGRGeometry -> OGRGeometry.

(** The two replacements applied to a label: formatting sequences
    matched by the regular expression are removed. *)
Variable remove_formatting : string -> string.

(** The alignment of a text object as constructed. *)
Variable TextObject_alignment : Alignment.

(** [OgrFileImport::fromDrawing] and [OgrFileImport::fromProjected]. *)
Definition fromDrawing_ (x y : Q) : MapCoord := MapCoord_load x (- y).

Definition fromProjected_ (st : OgrFileImport) (x y : Q) : MapCoord :=
  let p := toMapCoordF (getGeoreferencing (map st)) (x, y) in
  MapCoord_load (fst p) (snd p).

(** [toMapCoord(x, y)]: [(this->*to_map_coord)(x, y)]. *)
Definition toMapCoord (st : OgrFileImport) (x y : Q) : MapCoord :=
  match to_map_coord st with
  | fromProjected => fromProjected_ st x y
  | fromDrawing => fromDrawing_ x y
  end.

(** [toMapCoord(OGR_G_GetX(geometry, i), OGR_G_GetY(geometry, i))]. *)
Definition point_at (st : OgrFileImport) (geometry : OGRGeometry) (i : nat) : MapCoord :=
  let p := nth i (OGR_G_points geometry) (0, 0)%Q in
  toMapCoord st (fst p) (snd p).

(** [OGR_F_GetFieldIndex(feature, name)] and [OGR_F_GetFieldAsString]. *)
Fixpoint OGR_F_GetFieldIndex (fields : list (string * string)) (name : string) : option nat :=
  match fields with
  | [] => None
  | (n, _) :: rest =>
      if String.eqb n name then Some O
      else match OGR_F_GetFieldIndex rest name with
           | Some i => Some (S i)
           | None => None
           end
  end.

Definition OGR_F_GetFieldAsString (feature : OGRFeature) (i : nat) : string :=
  match OGR_F_fields feature !! i with
  | Some (_, value) => value
  | None => ""
  end.

(** [symbol->getDescription()]. *)
Definition getDescription (st : OgrFileImport) (symbol : SymbolPtr) : string :=
  match map_symbols (map st) !! symbol with
  | Some s => sym_description s
  | None => ""
  end.

(** The label of a text object: the description behind the first
    space, a [{field}] reference replaced by the feature's field. *)
Definition label_of (feature : OGRFeature) (description : string) (split : nat) : string :=
  let length := String.length description in
  let label := QString_right (length - split - 1) description in
  if startsWith "{" label && endsWith "}" label then
    let label := strip_first_and_last label in
    match OGR_F_GetFieldIndex (OGR_F_fields feature) label with
    | Some index => OGR_F_GetFieldAsString feature index
    | None => label
    end
  else label.

(** [OgrFileImport::importPointGeometry]. *)
Definition importPointGeometry (feature : OGRFeature) (geometry : OGRGeometry) (st : OgrFileImport)
  : Outcome (option Object) * OgrFileImport :=
  let style := OGR_F_GetStyleString feature in
  let '(symbol, st) := getSymbol Symbol.Point style st in
  match getType st symbol with
  | Some Symbol.Point =>
      let object := new_Object Object.Point symbol in
      let object := setPosition (point_at st geometry 0) object in
      let description := getDescription st symbol in
      match QString_toDouble description with
      | Some angle =>
          let object := setRotationDegrees angle object in
          let object := setTag "Rotation" (QString_number angle "g" 6) object in
          (Return (Some object), st)
      | None => (Return (Some object), st)
      end
  | Some Symbol.Text =>
      let description := getDescription st symbol in
      let length := String.length description in
      match indexOf " " description with
      | None => (Throw "split > 0", st)
      | Some split =>
          if decide (split = O) then (Throw "split > 0", st)
          else if decide (length <= split)%nat then (Throw "split < length", st)
          else
            let label := label_of feature description split in
            if decide (label = "") then (Return None, st)
            else
              let object := new_Object Object.Text symbol in
              let object := setPosition (point_at st geometry 0) object in
              let label := remove_formatting label in
              let label := replace "^I" tab label in
              let object := setText label object in
              let anchored :=
                match QString_toInt (QStringRef description 1 2) with
                | Some anchor => applyLabelAnchor_object anchor object TextObject_alignment
                | None => Some object
                end in
              match anchored with
              | None => (Unreachable, st)
              | Some object =>
                  let object :=
                    match QString_toDouble (QStringRef description 3 (split - 3)) with
                    | Some angle => setRotationDegrees angle object
                    | None => object
                    end in
                  (Return (Some object), st)
              end
      end
  | _ => (Return None, st)
  end.

(** The coordinates [toMapCoord] gives for the points of a geometry, in order. *)
Definition map_coords (st : OgrFileImport) (geometry : OGRGeometry) : list MapCoord :=
  List.map (fun p => toMapCoord st (fst p) (snd p)) (OGR_G_points geometry).

(** The loop [for (i = 0; i < num_points; ++i) object->addCoordinate(c, start_new_part)]
    with [start_new_part] as given for the first point and false afterwards. *)
Fixpoint add_coordinates (coords : list MapCoord) (start_new_part : bool) (object : Object) : Object :=
  match coords with
  | [] => object
  | c :: coords => add_coordinates coords false (addCoordinate c start_new_part object)
  end.

Definition wkbLineString_ : OGRwkbGeometryType := mkGeometryType wkbLineString false.

(** The geometry a line is read from: forced to a line string unless
    its type is [wkbLineString]. *)
Definition as_line_string (geometry : OGRGeometry) : OGRGeometry :=
  if decide (OGR_G_GetGeometryType geometry = wkbLineString_) then geometry
  else OGR_G_ForceToLineString geometry.

(** [OgrFileImport::importLineStringGeometry]. *)
Definition importLineStringGeometry (feature : OGRFeature) (geometry : OGRGeometry) (st : OgrFileImport)
  : option Object * OgrFileImport :=
  let geometry := as_line_string geometry in
  let num_points := length (OGR_G_points geometry) in
  if decide (num_points < 2)%nat then (None, count_too_few_coordinates st)
  else
    let style := OGR_F_GetStyleString feature in
    let '(symbol, st) := getSymbol Symbol.Line style st in
    let object := new_Object Object.Path symbol in
    (Some (add_coordinates (map_coords st geometry) false object), st).

(** The loop over the hole rings, [g = 1 .. num_geometries - 1]. *)
Fixpoint add_holes (st : OgrFileImport) (holes : list OGRGeometry) (object : Object) : Object :=
  match holes with
  | [] => object
  | hole :: holes => add_holes st holes (add_coordinates (map_coords st hole) true object)
  end.

(** [OgrFileImport::importPolygonGeometry]. *)
Definition importPolygonGeometry (feature : OGRFeature) (geometry : OGRGeometry) (st : OgrFileImport)
  : option Object * OgrFileImport :=
  match OGR_G_geometries geometry with
  | [] => (None, count_too_few_coordinates st)
  | outline :: holes =>
      let outline := as_line_string outline in
      let num_points := length (OGR_G_points outline) in
      if decide (num_points < 3)%nat then (None, count_too_few_coordinates st)
      else
        let style := OGR_F_GetStyleString feature in
        let '(symbol, st) := getSymbol Symbol.Area style st in
        let object := new_Object Object.Path symbol in
        let object := add_coordinates (map_coords st outline) false object in
        let object := add_holes st holes object in
        (Some (closeAllParts object), st)
  end.

(** A returned object pointer as the one-element or empty result list. *)
Definition object_list (object : option Object) : list Object :=
  match object with Some o => [o] | None => [] end.

(** The loop of [OgrFileImport::importGeometryCollection], [import]
    being the import of one sub-geometry: the results are concatenated,
    an exception ends the loop. *)
Definition importGeometryCollection_with
    (import : OGRGeometry -> OgrFileImport -> Outcome (list Object) * OgrFileImport) :=
  fix loop (geometries : list OGRGeometry) (st : OgrFileImport)
    : Outcome (list Object) * OgrFileImport :=
    match geometries with
    | [] => (Return [], st)
    | g :: geometries =>
        match import g st with
        | (Return tmp, st) =>
            match loop geometries st with
            | (Return result, st) => (Return (tmp ++ result), st)
            | failure => failure
            end
        | failure => failure
        end
    end.

(** [OgrFileImport::importGeometry]. *)
Fixpoint importGeometry (feature : OGRFeature) (geometry : OGRGeometry) (st : OgrFileImport)
  {struct geometry} : Outcome (list Object) * OgrFileImport :=
  match geometry with
  | Geometry type _ geometries =>
      match wkbFlatten type with
      | wkbPoint =>
          match importPointGeometry feature geometry st with
          | (Return object, st) => (Return (object_list object), st)
          | (Throw what, st) => (Throw what, st)
          | (Unreachable, st) => (Unreachable, st)
          end
      | wkbLineString =>
          let '(object, st) := importLineStringGeometry feature geometry st in
          (Return (object_list object), st)
      | wkbPolygon =>
          let '(object, st) := importPolygonGeometry feature geometry st in
          (Return (object_list object), st)
      | wkbGeometryCollection | wkbMultiLineString | wkbMultiPoint | wkbMultiPolygon =>
          importGeometryCollection_with (importGeometry feature) geometries st
      | _ => (Return [], count_unsupported_geometry_type st)
      end
  end.

(** [OgrFileImport::importGeometryCollection]. *)
Definition importGeometryCollection (feature : OGRFeature) (geometry : OGRGeometry)
    (st : OgrFileImport) : Outcome (list Object) * OgrFileImport :=
  importGeometryCollection_with (importGeometry feature) (OGR_G_geometries geometry) st.

(** ** Importing features *)

(** [OCTNewCoordinateTransformation(source, target)]: [None] for a null result. *)
Variable OCTNewCoordinateTransformation : SRS -> SRS -> option Transformation.

(** [GdalFile::exists] for the file the [icon] field of a KML overlay names. *)
Variable icon_file_exists : string -> bool.

(** [OgrFileImport::setSRS]. *)
Definition setSRS (srs : option SRS) (st : OgrFileImport) : bool * OgrFileImport :=
  let st := set_to_map_coord fromProjected st in
  let changed :=
    match srs with
    | Some s =>
        if decide (data_srs st = Some s) then Return st
        else match OCTNewCoordinateTransformation s (map_srs st) with
             | None => Throw ""
             | Some transformation =>
                 Return (set_data_transform (Some transformation) (set_data_srs (Some s) st))
             end
    | None => Return st
    end in
  match changed with
  | Return st =>
      let st :=
        match srs with
        | None => if decide (unit_type st = UnitOnPaper) then set_to_map_coord fromDrawing st else st
        | Some _ => st
        end in
      (true, st)
  | _ => (false, count_no_transformation st)
  end.

(** [OgrFileImport::importFields]: one tag for every field with a
    non-empty value, in the order of the fields. *)
Fixpoint importFields_from (fields : list (string * string)) (tags : KeyValueContainer)
  : KeyValueContainer :=
  match fields with
  | [] => tags
  | (name, value) :: fields =>
      if decide (value = "") then importFields_from fields tags
      else importFields_from fields (KeyValueContainer.insert_or_assign name value tags)
  end.

Definition importFields (feature : OGRFeature) : KeyValueContainer :=
  importFields_from (OGR_F_fields feature) [].

(** [getCoordinateCount()] of a path object. *)
Definition getCoordinateCount (o : Object) : nat :=
  list_sum (List.map (fun p => length (part_coords p)) (obj_parts o)).

(** [OgrFileImport::handleKmlOverlayIcon], as far as the objects go:
    a rectangle with an existing icon file becomes a template, and the
    object list is cleared. *)
Definition handleKmlOverlayIcon (objects : list Object) (tags : KeyValueContainer) : list Object :=
  match objects, KeyValueContainer.find "icon" tags with
  | [object], Some icon_field =>
      if decide (obj_type object = Object.Path) then
        if decide (getCoordinateCount object = 5%nat) then
          if icon_file_exists icon_field then [] else objects
        else objects
      else objects
  | _, _ => objects
  end.

(** The loop at the end of [importFeature]: the tags an object brings
    are inserted into [tags], the object gets [tags], and [tags] goes
    on to the next object. *)
Fixpoint add_objects (objects : list Object) (tags : KeyValueContainer) : list Object :=
  match objects with
  | [] => []
  | object :: objects =>
      let tags :=
        if decide (0 < length (obj_tags object))%nat
        then fold_left (fun tags tag => KeyValueContainer.insert tag tags) (obj_tags object) tags
        else tags in
      setTags tags object :: add_objects objects tags
  end.

(** [OgrFileImport::importFeature]; the result lists the objects added
    to the map part. *)
Definition importFeature (feature : OGRFeature) (geometry : OGRGeometry)
    (clipping : option (list Object -> list Object)) (st : OgrFileImport)
  : Outcome (list Object) * OgrFileImport :=
  let new_srs := OGR_G_GetSpatialReference feature in
  match setSRS new_srs st with
  | (false, st) => (Return [], st)
  | (true, st) =>
      let transformed :=
        match new_srs with
        | Some _ =>
            match data_transform st with
            | Some transformation => transformation geometry
            | None => None
            end
        | None => Some geometry
        end in
      match transformed with
      | None => (Return [], count_failed_transformation st)
      | Some geometry =>
          match importGeometry feature geometry st with
          | (Return objects, st) =>
              let tags := importFields feature in
              let objects :=
                if decide (driver_name st = "LIBKML") then handleKmlOverlayIcon objects tags
                else objects in
              let objects :=
                match clipping with
                | Some process => process objects
                | None => objects
                end in
              (Return (add_objects objects tags), st)
          | failure => failure
          end
      end
  end.

(** ** Finding the spatial reference of the map *)

(** [srsFromMap()], which depends on the georeferencing of the map. *)
Variable srsFromMap : Georeferencing -> SRS.

(** The orthographic reference of [importGeoreferencing], centered at (0, 0),
    and the WGS84 reference of [calcAverageLatLon]. *)
Variable orthographic : SRS.

Variable geo_srs : SRS.

(** [unsigned]: 32 bits. *)
Definition unsigned_max : Z := 2 ^ 32.

Record AverageCoords := mkAverageCoords {
  avg_x : Q;
  avg_y : Q;
  num_coords : Z
}.

(** The loop over the points of a point or line string:
    [x += OGR_G_GetX(geometry, i); y += OGR_G_GetY(geometry, i); ++num_coords;]. *)
Definition add_point (a : AverageCoords) (p : Q * Q) : AverageCoords :=
  mkAverageCoords (double_add (avg_x a) (fst p)) (double_add (avg_y a) (snd p))
    ((num_coords a + 1) mod unsigned_max).

(** [AverageCoords::handleGeometry]. *)
Fixpoint handleGeometry (geometry : OGRGeometry) (a : AverageCoords) {struct geometry} : AverageCoords :=
  match geometry with
  | Geometry type points geometries =>
      match wkbFlatten type with
      | wkbPoint | wkbLineString => fold_left add_point points a
      | wkbPolygon | wkbMultiPoint | wkbMultiLineString | wkbMultiPolygon | wkbGeometryCollection =>
          fold_left (fun a g => handleGeometry g a) geometries a
      | _ => a
      end
  end.

(** The [while] loop over the features of one layer. *)
Definition handleFeature (transformation : Transformation) (a : AverageCoords) (feature : OGRFeature)
  : AverageCoords :=
  match OGR_F_GetGeometryRef feature with
  | None => a
  | Some geometry =>
      if OGR_G_IsEmpty geometry then a
      else match transformation geometry with
           | None => a
           | Some geometry => handleGeometry geometry a
           end
  end.

(** The body of the loop over the layers in the constructor of [AverageCoords]. *)
Definition handleLayer (srs : SRS) (a : AverageCoords) (layer : option OGRLayer) : AverageCoords :=
  match layer with
  | None => a
  | Some layer =>
      match OGR_L_GetSpatialRef layer with
      | None => a
      | Some spatial_reference =>
          match OCTNewCoordinateTransformation spatial_reference srs with
          | None => a
          | Some transformation => fold_left (handleFeature transformation) (OGR_L_features layer) a
          end
      end
  end.

(** [AverageCoords(data_source, srs)] and its conversion to [QPointF]:
    [OgrFileImport::calcAverageCoords]. *)
Definition calcAverageCoords (data_source : OGRDataSource) (srs : SRS) : Q * Q :=
  let a := fold_left (handleLayer srs) data_source (mkAverageCoords 0 0 0) in
  if decide (num_coords a = 0) then (0, 0)%Q
  else (double_div (avg_x a) (inject_Z (num_coords a)),
        double_div (avg_y a) (inject_Z (num_coords a))).

(** [OgrFileImport::calcAverageLatLon]: latitude and longitude. *)
Definition calcAverageLatLon (data_source : OGRDataSource) : Q * Q :=
  let average := calcAverageCoords data_source geo_srs in
  (snd average, fst average).

(** The variables of the layer scan in [importGeoreferencing]. *)
Record SrsScan := mkSrsScan {
  no_srs : bool;
  local_srs : option SRS;
  suitable_srs : option SRS;
  projected_srs_spec : option string
}.

(** The [for] loop over the layers in [importGeoreferencing]; the
    [break] is the branch that does not go on with the rest. *)
Fixpoint scan_layers (layers : OGRDataSource) (v : SrsScan) : SrsScan :=
  match layers with
  | [] => v
  | None :: layers => scan_layers layers v
  | Some layer :: layers =>
      match OGR_L_GetSpatialRef layer with
      | None => scan_layers layers v
      | Some spatial_reference =>
          let v := mkSrsScan false (local_srs v) (suitable_srs v) (projected_srs_spec v) in
          if OSRIsLocal spatial_reference then
            match local_srs v with
            | None =>
                scan_layers layers
                  (mkSrsScan (no_srs v) (Some spatial_reference) (suitable_srs v) (projected_srs_spec v))
            | Some _ => scan_layers layers v
            end
          else
            match OCTNewCoordinateTransformation spatial_reference orthographic with
            | None => scan_layers layers v
            | Some _ =>
                let keep :=
                  match suitable_srs v with
                  | None =>
                      mkSrsScan (no_srs v) (local_srs v) (Some spatial_reference) (projected_srs_spec v)
                  | Some _ => v
                  end in
                if OSRIsProjected spatial_reference then
                  match OSRExportToProj4 spatial_reference with
                  | Some srs_spec =>
                      mkSrsScan (no_srs v) (local_srs v) (Some spatial_reference) (Some srs_spec)
                  | None => scan_layers layers keep
                  end
                else scan_layers layers keep
            end
      end
  end.

(** The specification of the local orthographic projection. *)
Definition ortho_spec (latitude longitude : Q) : string :=
  "+proj=ortho +datum=WGS84 +ellps=WGS84 +units=m +lat_0=" +:+ QString_number latitude "f" 6
  +:+ " +lon_0=" +:+ QString_number longitude "f" 6 +:+ " +no_defs".

(** [OgrFileImport::importGeoreferencing]: the spatial reference of
    the map, the georeferencing of the map being set on the way, or
    the exception. *)
Definition importGeoreferencing (data_source : OGRDataSource) (m : Map) : Outcome SRS * Map :=
  let v := scan_layers data_source (mkSrsScan true None None None) in
  match projected_srs_spec v, suitable_srs v with
  | Some spec, Some suitable =>
      let center := calcAverageCoords data_source suitable in
      let georef := getGeoreferencing m in
      let georef := setProjectedCRS "PROJ.4" spec georef in
      let georef :=
        setProjectedRefPoint (inject_Z (std_round (fst center)), inject_Z (std_round (snd center))) georef in
      (Return suitable, setGeoreferencing georef m)
  | _, Some _ =>
      let center := calcAverageLatLon data_source in
      let latitude :=
        double_mul (round_double (1 # 1000)) (inject_Z (qRound (double_mul 1000 (fst center)))) in
      let longitude :=
        double_mul (round_double (1 # 1000)) (inject_Z (qRound (double_mul 1000 (snd center)))) in
      let ortho_georef := Georeferencing_new in
      let ortho_georef := setScaleDenominator (scale_denominator (getGeoreferencing m)) ortho_georef in
      let ortho_georef := setProjectedCRS "" (ortho_spec latitude longitude) ortho_georef in
      let ortho_georef := setProjectedRefPoint (0, 0)%Q ortho_georef in
      let ortho_georef := setCombinedScaleFactor 1 ortho_georef in
      let ortho_georef := setDeclination (declination (getGeoreferencing m)) ortho_georef in
      (Return (srsFromMap ortho_georef), setGeoreferencing ortho_georef m)
  | _, None =>
      match local_srs v with
      | Some local =>
          let georef := Georeferencing_new in
          let georef := setScaleDenominator (scale_denominator (getGeoreferencing m)) georef in
          let georef := setDeclination (declination (getGeoreferencing m)) georef in
          (Return local, setGeoreferencing georef m)
      | None =>
          if no_srs v then
            let georef := Georeferencing_new in
            let georef := setScaleDenominator (scale_denominator (getGeoreferencing m)) georef in
            let georef := setDeclination (declination (getGeoreferencing m)) georef in
            (Return (srsFromMap georef), setGeoreferencing georef m)
          else (Throw "The geospatial data has no suitable spatial reference.", m)
      end
  end.

(** ** Properties of the color cache *)

(** What a call that only touches colors leaves alone. *)
Definition symbols_kept (st st' : OgrFileImport) : Prop :=
  map_symbols (map st') = map_symbols (map st)
  /\ point_symbols st' = point_symbols st /\ text_symbols st' = text_symbols st
  /\ line_symbols st' = line_symbols st /\ area_symbols st' = area_symbols st
  /\ default_pen_color st' = default_pen_color st
  /\ default_point_symbol st' = default_point_symbol st
  /\ default_line_symbol st' = default_line_symbol st
  /\ default_area_symbol st' = default_area_symbol st
  /\ default_text_symbol st' = default_text_symbol st.

Lemma makeColor_symbols_kept color_string st :
  symbols_kept st (makeColor color_string st).2.
Proof.
  unfold makeColor, symbols_kept.
  destruct (colors_value st color_string); [simpl; tauto_here |].
  destruct (OGR_ST_GetRGBFromString color_string) as [[[[r g] b] a] |]; [| simpl; tauto_here].
  destruct (0 <? a); simpl; tauto_here.
Qed.

(** A string the RGB decoder rejects gets the default pen color, and
    no color is created. *)
Lemma makeColor_malformed color_string st :
  OGR_ST_GetRGBFromString color_string = None ->
  colors_value st color_string = None ->
  (makeColor color_string st).1 = Some (default_pen_color st)
  /\ map (makeColor color_string st).2 = map st.
Proof.
  intros Hrgb Hc. unfold makeColor. rewrite Hc, Hrgb. done.
Qed.

(** A string that decodes to a transparent color gives no color. *)
Lemma makeColor_transparent color_string st r g b a :
  OGR_ST_GetRGBFromString color_string = Some (r, g, b, a) ->
  a <= 0 ->
  colors_value st color_string = None ->
  (makeColor color_string st).1 = None /\ map (makeColor color_string st).2 = map st.
Proof.
  intros Hrgb Ha Hc. unfold makeColor. rewrite Hc, Hrgb.
  destruct (0 <? a) eqn:E; [apply Z.ltb_lt in E; lia | done].
Qed.

(** The invariant of the color cache, [n0] being the number of colors
    of the map when the import begins: a cached color for a string the
    decoder rejects is the default pen color, a string with a cached
    color that decodes has a positive alpha, and every color created
    since is cached under its name. *)
Definition colors_inv (n0 : nat) (st : OgrFileImport) : Prop :=
  (forall k c, colors st !! k = Some (Some c) ->
               OGR_ST_GetRGBFromString k = None -> c = default_pen_color st)
  /\ (forall k c r g b a, colors st !! k = Some (Some c) ->
                          OGR_ST_GetRGBFromString k = Some (r, g, b, a) -> 0 < a)
  /\ (forall i c, (n0 <= i)%nat -> map_colors (map st) !! i = Some c ->
                  colors st !! color_name c = Some (Some i)).

Lemma colors_value_None st k :
  colors_value st k = None -> forall i, colors st !! k <> Some (Some i).
Proof. unfold colors_value. intros H i Hi. rewrite Hi in H. done. Qed.

Lemma makeColor_colors_inv n0 color_string st :
  colors_inv n0 st -> colors_inv n0 (makeColor color_string st).2.
Proof.
  intros (Hbad & Halpha & Hnew). unfold makeColor.
  destruct (colors_value st color_string) as [c |] eqn:Hc; [done |].
  pose proof (colors_value_None _ _ Hc) as Hfree.
  assert (Hother : forall i c, (n0 <= i)%nat -> map_colors (map st) !! i = Some c ->
                               color_name c <> color_string).
  { intros i c Hi Hl E. apply (Hfree i). rewrite <- E. by apply Hnew. }
  assert (Hkeep : forall (v : option nat) i c, (n0 <= i)%nat ->
            map_colors (map st) !! i = Some c ->
            <[color_string := v]> (colors st) !! color_name c = Some (Some i)).
  { intros v i c Hi Hl.
    rewrite lookup_insert_ne by (intros E; exact (Hother i c Hi Hl (eq_sym E))).
    by apply Hnew. }
  destruct (OGR_ST_GetRGBFromString color_string) as [[[[r g] b] a] |] eqn:Hrgb.
  - destruct (0 <? a) eqn:Ea; repeat split; simpl.
    + intros k c. destruct (decide (color_string = k)) as [<- | Hne].
      * rewrite lookup_insert_eq. congruence.
      * rewrite lookup_insert_ne by done. apply Hbad.
    + intros k c r' g' b' a'. destruct (decide (color_string = k)) as [<- | Hne].
      * rewrite lookup_insert_eq. intros _ E. rewrite Hrgb in E. simplify_eq.
        by apply Z.ltb_lt.
      * rewrite lookup_insert_ne by done. apply Halpha.
    + intros i c Hi Hl. unfold getNumColors in *.
      destruct (decide (i < length (map_colors (map st)))%nat) as [Hlt | Hge].
      * rewrite lookup_app_l in Hl by done. by apply Hkeep.
      * rewrite lookup_app_r in Hl by lia.
        destruct (i - length (map_colors (map st)))%nat eqn:E; [| by destruct n].
        simpl in Hl. injection Hl as <-. simpl. rewrite lookup_insert_eq.
        do 2 f_equal. lia.
    + intros k c. destruct (decide (color_string = k)) as [<- | Hne].
      * rewrite lookup_insert_eq. congruence.
      * rewrite lookup_insert_ne by done. apply Hbad.
    + intros k c r' g' b' a'. destruct (decide (color_string = k)) as [<- | Hne].
      * rewrite lookup_insert_eq. congruence.
      * rewrite lookup_insert_ne by done. apply Halpha.
    + apply Hkeep.
  - repeat split; simpl.
    + intros k c. destruct (decide (color_string = k)) as [<- | Hne].
      * rewrite lookup_insert_eq. congruence.
      * rewrite lookup_insert_ne by done. apply Hbad.
    + intros k c r' g' b' a'. destruct (decide (color_string = k)) as [<- | Hne].
      * rewrite lookup_insert_eq. congruence.
      * rewrite lookup_insert_ne by done. apply Halpha.
    + apply Hkeep.
Qed.


(** Under the invariant the color of a string depends on the decoder
    alone: the default pen color for a string it rejects, none for a
    transparent color, some color otherwise. *)
Lemma makeColor_result n0 color_string st :
  colors_inv n0 st ->
  match OGR_ST_GetRGBFromString color_string with
  | None =>
      (makeColor color_string st).1 = Some (default_pen_color st)
      /\ map (makeColor color_string st).2 = map st
  | Some (r, g, b, a) =>
      if decide (0 < a) then exists c, (makeColor color_string st).1 = Some c
      else (makeColor color_string st).1 = None
  end.
Proof.
  intros (Hbad & Halpha & _). unfold makeColor, colors_value.
  destruct (OGR_ST_GetRGBFromString color_string) as [[[[r g] b] a] |] eqn:Hrgb.
  - destruct (colors st !! color_string) as [[c |] |] eqn:Hc.
    + rewrite decide_True by (eapply Halpha; eauto). eauto.
    + case_decide as Ha.
      * apply Z.ltb_lt in Ha. rewrite Ha. simpl. eauto.
      * destruct (0 <? a) eqn:E; [apply Z.ltb_lt in E; lia | done].
    + case_decide as Ha.
      * apply Z.ltb_lt in Ha. rewrite Ha. simpl. eauto.
      * destruct (0 <? a) eqn:E; [apply Z.ltb_lt in E; lia | done].
  - destruct (colors st !! color_string) as [[c |] |] eqn:Hc; simpl; [| done | done].
    rewrite (Hbad _ _ Hc Hrgb). done.
Qed.

(** ** Properties of the symbol caches *)

(** Reduction of the projections of an importer state through its setters. *)
Ltac simpl_state :=
  cbn [map colors point_symbols text_symbols line_symbols area_symbols
       default_pen_color default_point_symbol default_line_symbol default_area_symbol
       default_text_symbol empty_geometries no_transformation failed_transformation
       unsupported_geometry_type too_few_coordinates unit_type driver_name
       map_srs data_srs data_transform to_map_coord
       set_map set_colors set_point_symbols set_text_symbols set_line_symbols set_area_symbols
       set_data_srs set_data_transform set_to_map_coord set_map_srs
       count_empty_geometries count_no_transformation count_failed_transformation
       count_unsupported_geometry_type count_too_few_coordinates
       addSymbol addColor updateSymbol setGeoreferencing
       map_symbols map_colors getGeoreferencing fst snd] in *.

Definition defaults_kept (st st' : OgrFileImport) : Prop :=
  default_pen_color st' = default_pen_color st
  /\ default_point_symbol st' = default_point_symbol st
  /\ default_line_symbol st' = default_line_symbol st
  /\ default_area_symbol st' = default_area_symbol st
  /\ default_text_symbol st' = default_text_symbol st.

Lemma symbols_kept_defaults st st' : symbols_kept st st' -> defaults_kept st st'.
Proof. unfold symbols_kept, defaults_kept. tauto_here. Qed.

(** The setters of the decoders keep the class of a symbol. *)
Lemma applyColor_type color s : sym_type (applyColor color s) = sym_type s.
Proof. by destruct color. Qed.

Lemma applyPenWidth_type tool s : sym_type (applyPenWidth tool s) = sym_type s.
Proof. unfold applyPenWidth. by destruct (OGRSTPenWidth tool). Qed.

Lemma applyPenCap_type tool s : sym_type (applyPenCap tool s) = sym_type s.
Proof. unfold applyPenCap. repeat case_match; done. Qed.

Lemma applyPenJoin_type tool s : sym_type (applyPenJoin tool s) = sym_type s.
Proof. unfold applyPenJoin. repeat case_match; done. Qed.

Lemma applyPenPattern_type tool s : sym_type (applyPenPattern tool s) = sym_type s.
Proof. unfold applyPenPattern. repeat case_match; done. Qed.

Lemma applyPenColor_spec tool s st :
  symbols_kept st (applyPenColor tool s st).2
  /\ sym_type (applyPenColor tool s st).1 = sym_type s.
Proof.
  unfold applyPenColor. destruct (OGRSTPenColor tool) as [c |].
  - pose proof (makeColor_symbols_kept c st) as H.
    destruct (makeColor c st) as [color st']. simpl in *. split; [done | apply applyColor_type].
  - simpl. unfold symbols_kept. tauto_here.
Qed.

Lemma applyBrushColor_spec tool s st :
  symbols_kept st (applyBrushColor tool s st).2
  /\ sym_type (applyBrushColor tool s st).1 = sym_type s.
Proof.
  unfold applyBrushColor. destruct (OGRSTBrushFColor tool) as [c |].
  - pose proof (makeColor_symbols_kept c st) as H.
    destruct (makeColor c st) as [color st']. simpl in *. split; [done | apply applyColor_type].
  - simpl. unfold symbols_kept. tauto_here.
Qed.

(** What the creation of a symbol does to the map and the caches: one
    symbol [s] is appended, and [cache'] is [cache] with the style
    string and the tool's own style string bound to the new pointer. *)
Definition registered (K tk : string) (n : SymbolPtr) (cache cache' : gmap string SymbolPtr) : Prop :=
  cache' = <[tk := n]> (<[K := n]> cache).

Lemma registered_lookup K tk n cache cache' k :
  registered K tk n cache cache' ->
  cache' !! k = if decide (k = tk) then Some n else if decide (k = K) then Some n else cache !! k.
Proof.
  intros ->. destruct (decide (k = tk)) as [-> | H1].
  - by rewrite lookup_insert_eq.
  - rewrite lookup_insert_ne by done. destruct (decide (k = K)) as [-> | H2].
    + by rewrite lookup_insert_eq.
    + by rewrite lookup_insert_ne.
Qed.

Lemma getSymbolForPen_hit tool K st p :
  cached_as Symbol.Line st (line_symbols st !! OGR_ST_GetStyleString tool) = Some p ->
  getSymbolForPen tool K st = (p, st).
Proof. intros H. unfold getSymbolForPen. by rewrite H. Qed.

Lemma getSymbolForPen_miss tool K st :
  cached_as Symbol.Line st (line_symbols st !! OGR_ST_GetStyleString tool) = None ->
  exists s st',
    getSymbolForPen tool K st = (length (map_symbols (map st)), st')
    /\ map_symbols (map st') = map_symbols (map st) ++ [s]
    /\ sym_type s = sym_type (duplicate Symbol.Line st (default_line_symbol st))
    /\ registered K (OGR_ST_GetStyleString tool) (length (map_symbols (map st)))
         (line_symbols st) (line_symbols st')
    /\ point_symbols st' = point_symbols st /\ text_symbols st' = text_symbols st
    /\ area_symbols st' = area_symbols st
    /\ defaults_kept st st'.
Proof.
  intros H. unfold getSymbolForPen. rewrite H.
  pose proof (applyPenColor_spec tool (duplicate Symbol.Line st (default_line_symbol st)) st)
    as [Hk Ht].
  destruct (applyPenColor tool _ st) as [s1 st1]. simpl in Hk, Ht.
  destruct Hk as (Hs & Hp & Htx & Hl & Ha & Hd).
  eexists _, _. split; [unfold getNumSymbols; rewrite Hs; reflexivity |].
  unfold registered, defaults_kept.
  destruct (decide (K = OGR_ST_GetStyleString tool)) as [<- | Hne]; simpl_state;
    rewrite ?Hs, ?Hl, ?insert_insert_eq;
    (split; [reflexivity |]);
    rewrite ?applyPenPattern_type, ?applyPenJoin_type, ?applyPenCap_type, ?applyPenWidth_type;
    tauto_here.
Qed.

Lemma getSymbolForBrush_hit tool K st p :
  cached_as Symbol.Area st (area_symbols st !! OGR_ST_GetStyleString tool) = Some p ->
  getSymbolForBrush tool K st = (p, st).
Proof. intros H. unfold getSymbolForBrush. by rewrite H. Qed.

Lemma getSymbolForBrush_miss tool K st :
  cached_as Symbol.Area st (area_symbols st !! OGR_ST_GetStyleString tool) = None ->
  exists s st',
    getSymbolForBrush tool K st = (length (map_symbols (map st)), st')
    /\ map_symbols (map st') = map_symbols (map st) ++ [s]
    /\ sym_type s = sym_type (duplicate Symbol.Area st (default_area_symbol st))
    /\ registered K (OGR_ST_GetStyleString tool) (length (map_symbols (map st)))
         (area_symbols st) (area_symbols st')
    /\ point_symbols st' = point_symbols st /\ text_symbols st' = text_symbols st
    /\ line_symbols st' = line_symbols st
    /\ defaults_kept st st'.
Proof.
  intros H. unfold getSymbolForBrush. rewrite H.
  pose proof (applyBrushColor_spec tool (duplicate Symbol.Area st (default_area_symbol st)) st)
    as [Hk Ht].
  destruct (applyBrushColor tool _ st) as [s1 st1]. simpl in Hk, Ht.
  destruct Hk as (Hs & Hp & Htx & Hl & Ha & Hd).
  eexists _, _. split; [unfold getNumSymbols; rewrite Hs; reflexivity |].
  unfold registered, defaults_kept.
  destruct (decide (K = OGR_ST_GetStyleString tool)) as [<- | Hne]; simpl_state;
    rewrite ?Hs, ?Ha, ?insert_insert_eq;
    (split; [reflexivity |]); tauto_here.
Qed.

Lemma alter_app_last {A} (f : A -> A) (l : list A) (x : A) :
  alter f (length l) (l ++ [x]) = l ++ [f x].
Proof. induction l as [| a l IH]; [done |]. cbn. f_equal. exact IH. Qed.

Lemma getSymbolForOgrSymbol_hit tool K st p :
  cached_as Symbol.Point st (point_symbols st !! OGR_ST_GetStyleString tool) = Some p ->
  getSymbolForOgrSymbol tool K st = (Some p, st).
Proof. intros H. unfold getSymbolForOgrSymbol. by rewrite H. Qed.

Lemma getSymbolForOgrSymbol_none tool K st :
  cached_as Symbol.Point st (point_symbols st !! OGR_ST_GetStyleString tool) = None ->
  ogr_symbol_color tool = None \/ ogr_symbol_color tool = Some None ->
  getSymbolForOgrSymbol tool K st = (None, st).
Proof. intros H [H' | H']; unfold getSymbolForOgrSymbol; by rewrite H, H'. Qed.

Lemma getSymbolForOgrSymbol_miss tool K st color_string :
  cached_as Symbol.Point st (point_symbols st !! OGR_ST_GetStyleString tool) = None ->
  ogr_symbol_color tool = Some (Some color_string) ->
  exists s st',
    getSymbolForOgrSymbol tool K st = (Some (length (map_symbols (map st))), st')
    /\ map_symbols (map st') = map_symbols (map st) ++ [s]
    /\ sym_type s = sym_type (duplicate Symbol.Point st (default_point_symbol st))
    /\ registered K (OGR_ST_GetStyleString tool) (length (map_symbols (map st)))
         (point_symbols st) (point_symbols st')
    /\ line_symbols st' = line_symbols st /\ text_symbols st' = text_symbols st
    /\ area_symbols st' = area_symbols st
    /\ defaults_kept st st'.
Proof.
  intros H Hc. unfold getSymbolForOgrSymbol. rewrite H, Hc.
  pose proof (makeColor_symbols_kept color_string st) as Hk.
  destruct (makeColor color_string st) as [color st1]. simpl in Hk.
  destruct Hk as (Hs & Hp & Htx & Hl & Ha & Hd).
  unfold getNumSymbols. rewrite Hs.
  unfold registered, defaults_kept.
  destruct (decide (K = OGR_ST_GetStyleString tool)) as [<- | Hne];
    destruct (decide (OGR_ST_GetType tool = OGRSTCSymbol));
    try destruct (OGRSTSymbolAngle tool);
    eexists _, _; (split; [reflexivity |]); simpl_state;
    rewrite ?Hs, ?Hp, ?insert_insert_eq, ?alter_app_last;
    (split; [reflexivity |]); simpl;
    rewrite ?applyColor_type; tauto_here.
Qed.

(** The key of a text symbol: color string and font size string. *)
Definition label_key (tool : OGRStyleTool) : string :=
  c_str (OGRSTLabelFColor tool) +:+ c_str (OGRSTLabelSize tool).

Lemma getSymbolForLabel_none tool st :
  OGRSTLabelTextString tool = None -> getSymbolForLabel tool st = (None, st).
Proof. intros H. unfold getSymbolForLabel. by rewrite H. Qed.

Lemma getSymbolForLabel_hit tool st label_string p :
  OGRSTLabelTextString tool = Some label_string ->
  text_symbols st !! label_key tool = Some p ->
  exists st',
    getSymbolForLabel tool st = (Some p, st')
    /\ map_symbols (map st')
       = alter (setDescription (label_description tool label_string)) p (map_symbols (map st))
    /\ map_colors (map st') = map_colors (map st) /\ colors st' = colors st
    /\ point_symbols st' = point_symbols st /\ text_symbols st' = text_symbols st
    /\ line_symbols st' = line_symbols st /\ area_symbols st' = area_symbols st
    /\ defaults_kept st st'.
Proof.
  intros Ht Hc. unfold getSymbolForLabel, label_key in *. rewrite Ht. cbv zeta. rewrite Hc.
  eexists. split; [reflexivity |]. unfold defaults_kept. simpl_state. tauto_here.
Qed.

Lemma getSymbolForLabel_miss tool st label_string :
  OGRSTLabelTextString tool = Some label_string ->
  text_symbols st !! label_key tool = None ->
  exists s st',
    getSymbolForLabel tool st = (Some (length (map_symbols (map st))), st')
    /\ map_symbols (map st') = map_symbols (map st) ++ [s]
    /\ sym_type s = sym_type (duplicate Symbol.Text st (default_text_symbol st))
    /\ sym_description s = label_description tool label_string
    /\ text_symbols st' = <[label_key tool := length (map_symbols (map st))]> (text_symbols st)
    /\ point_symbols st' = point_symbols st
    /\ line_symbols st' = line_symbols st /\ area_symbols st' = area_symbols st
    /\ defaults_kept st st'.
Proof.
  intros Ht Hc. unfold getSymbolForLabel, label_key in *. rewrite Ht. cbv zeta. rewrite Hc.
  pose proof (makeColor_symbols_kept (c_str (OGRSTLabelFColor tool)) st) as Hk.
  destruct (makeColor (c_str (OGRSTLabelFColor tool)) st) as [color st1]. simpl in Hk.
  destruct Hk as (Hs & Hp & Htx & Hl & Ha & Hd).
  unfold getNumSymbols. rewrite Hs.
  eexists _, _. split; [reflexivity |]. unfold defaults_kept. simpl_state.
  rewrite Hs, alter_app_last, Htx. split; [reflexivity |]. simpl.
  repeat split; try tauto_here.
  destruct (OGRSTLabelSizeDbl tool) as [font_size |]; [| apply applyColor_type].
  destruct (Qlt_le_dec 0 font_size); simpl; apply applyColor_type.
Qed.

(** ** Well-formed importer states *)

(** Every cached pointer and every default pointer names a symbol of
    the map, of the class of its cache. *)
Record wf (st : OgrFileImport) : Prop := mk_wf {
  wf_point : forall k p, point_symbols st !! k = Some p -> getType st p = Some Symbol.Point;
  wf_text : forall k p, text_symbols st !! k = Some p -> getType st p = Some Symbol.Text;
  wf_line : forall k p, line_symbols st !! k = Some p -> getType st p = Some Symbol.Line;
  wf_area : forall k p, area_symbols st !! k = Some p -> getType st p = Some Symbol.Area;
  wf_default_point : getType st (default_point_symbol st) = Some Symbol.Point;
  wf_default_line : getType st (default_line_symbol st) = Some Symbol.Line;
  wf_default_area : getType st (default_area_symbol st) = Some Symbol.Area;
  wf_default_text : getType st (default_text_symbol st) = Some Symbol.Text
}.

Lemma getType_Some st p t :
  getType st p = Some t <-> exists s, map_symbols (map st) !! p = Some s /\ sym_type s = t.
Proof.
  unfold getType. destruct (map_symbols (map st) !! p) as [s |]; simpl; split.
  - intros [= <-]. eauto.
  - intros (s' & [= <-] & <-). done.
  - done.
  - intros (s' & ? & _). done.
Qed.


Lemma duplicate_type st p t : getType st p = Some t -> sym_type (duplicate t st p) = t.
Proof. intros (s & H & <-)%getType_Some. unfold duplicate. by rewrite H. Qed.

(** The classes of the symbols after one symbol was appended. *)
Lemma getType_app st st' s p t :
  map_symbols (map st') = map_symbols (map st) ++ [s] ->
  getType st p = Some t -> getType st' p = Some t.
Proof.
  intros Hs (s0 & H & <-)%getType_Some. apply getType_Some. exists s0. split; [| done].
  rewrite Hs. apply lookup_app_l_Some. done.
Qed.

Lemma getType_new st st' s :
  map_symbols (map st') = map_symbols (map st) ++ [s] ->
  getType st' (length (map_symbols (map st))) = Some (sym_type s).
Proof.
  intros Hs. apply getType_Some. exists s. split; [| done].
  rewrite Hs. rewrite lookup_app_r by lia. by rewrite Nat.sub_diag.
Qed.

(** The classes of the symbols after a description was set. *)
Lemma getType_alter st st' d q p :
  map_symbols (map st') = alter (setDescription d) q (map_symbols (map st)) ->
  getType st' p = getType st p.
Proof.
  intros Hs. unfold getType. rewrite Hs.
  destruct (decide (q = p)) as [-> | Hne].
  - rewrite list_lookup_alter_eq. by destruct (map_symbols (map st) !! p).
  - by rewrite list_lookup_alter_ne.
Qed.

(** The creation of a symbol of class [t] keeps a state well-formed:
    the new pointer enters the cache of its class only. *)
Lemma wf_create st st' s :
  wf st ->
  map_symbols (map st') = map_symbols (map st) ++ [s] ->
  defaults_kept st st' ->
  (forall k p, point_symbols st' !! k = Some p ->
     point_symbols st !! k = Some p
     \/ p = length (map_symbols (map st)) /\ sym_type s = Symbol.Point) ->
  (forall k p, text_symbols st' !! k = Some p ->
     text_symbols st !! k = Some p
     \/ p = length (map_symbols (map st)) /\ sym_type s = Symbol.Text) ->
  (forall k p, line_symbols st' !! k = Some p ->
     line_symbols st !! k = Some p
     \/ p = length (map_symbols (map st)) /\ sym_type s = Symbol.Line) ->
  (forall k p, area_symbols st' !! k = Some p ->
     area_symbols st !! k = Some p
     \/ p = length (map_symbols (map st)) /\ sym_type s = Symbol.Area) ->
  wf st'.
Proof.
  intros [] Hs (_ & Hd1 & Hd2 & Hd3 & Hd4) Hp Ht Hl Ha.
  assert (Hnew := getType_new st st' s Hs).
  assert (Hold := fun p t => getType_app st st' s p t Hs).
  split.
  - intros k p [H | [-> <-]]%Hp; eauto.
  - intros k p [H | [-> <-]]%Ht; eauto.
  - intros k p [H | [-> <-]]%Hl; eauto.
  - intros k p [H | [-> <-]]%Ha; eauto.
  - rewrite Hd1. eauto.
  - rewrite Hd2. eauto.
  - rewrite Hd3. eauto.
  - rewrite Hd4. eauto.
Qed.

Lemma registered_cases K tk n cache cache' k p :
  registered K tk n cache cache' -> cache' !! k = Some p -> cache !! k = Some p \/ p = n.
Proof.
  intros Hr. rewrite (registered_lookup _ _ _ _ _ k Hr).
  repeat case_decide; intros; simplify_eq; auto.
Qed.

Lemma getSymbolForPen_wf tool K st : wf st -> wf (getSymbolForPen tool K st).2.
Proof.
  intros Hwf.
  destruct (cached_as Symbol.Line st (line_symbols st !! OGR_ST_GetStyleString tool)) as [p |] eqn:E.
  - by rewrite (getSymbolForPen_hit _ _ _ _ E).
  - destruct (getSymbolForPen_miss tool K st E) as (s & st' & -> & Hs & Ht & Hr & Hp & Htx & Ha & Hd).
    simpl. rewrite duplicate_type in Ht by apply Hwf.
    eapply wf_create; eauto.
    + rewrite Hp. auto.
    + rewrite Htx. auto.
    + intros k p Hk. destruct (registered_cases _ _ _ _ _ _ _ Hr Hk); auto.
    + rewrite Ha. auto.
Qed.

Lemma getSymbolForBrush_wf tool K st : wf st -> wf (getSymbolForBrush tool K st).2.
Proof.
  intros Hwf.
  destruct (cached_as Symbol.Area st (area_symbols st !! OGR_ST_GetStyleString tool)) as [p |] eqn:E.
  - by rewrite (getSymbolForBrush_hit _ _ _ _ E).
  - destruct (getSymbolForBrush_miss tool K st E) as (s & st' & -> & Hs & Ht & Hr & Hp & Htx & Hl & Hd).
    simpl. rewrite duplicate_type in Ht by apply Hwf.
    eapply wf_create; eauto.
    + rewrite Hp. auto.
    + rewrite Htx. auto.
    + rewrite Hl. auto.
    + intros k p Hk. destruct (registered_cases _ _ _ _ _ _ _ Hr Hk); auto.
Qed.

Lemma ogr_symbol_color_cases tool :
  ogr_symbol_color tool = None \/ ogr_symbol_color tool = Some None
  \/ exists c, ogr_symbol_color tool = Some (Some c).
Proof. destruct (ogr_symbol_color tool) as [[c |] |]; eauto. Qed.

Lemma getSymbolForOgrSymbol_wf tool K st : wf st -> wf (getSymbolForOgrSymbol tool K st).2.
Proof.
  intros Hwf.
  destruct (cached_as Symbol.Point st (point_symbols st !! OGR_ST_GetStyleString tool)) as [p |] eqn:E.
  - by rewrite (getSymbolForOgrSymbol_hit _ _ _ _ E).
  - destruct (ogr_symbol_color_cases tool) as [H | [H | [c H]]].
    + rewrite getSymbolForOgrSymbol_none by auto. done.
    + rewrite getSymbolForOgrSymbol_none by auto. done.
    + destruct (getSymbolForOgrSymbol_miss tool K st c E H)
        as (s & st' & -> & Hs & Ht & Hr & Hl & Htx & Ha & Hd).
      simpl. rewrite duplicate_type in Ht by apply Hwf.
      eapply wf_create; eauto.
      * intros k p Hk. destruct (registered_cases _ _ _ _ _ _ _ Hr Hk); auto.
      * rewrite Htx. auto.
      * rewrite Hl. auto.
      * rewrite Ha. auto.
Qed.

Lemma getSymbolForLabel_wf tool st : wf st -> wf (getSymbolForLabel tool st).2.
Proof.
  intros Hwf.
  destruct (OGRSTLabelTextString tool) as [label_string |] eqn:El;
    [| by rewrite getSymbolForLabel_none].
  destruct (text_symbols st !! label_key tool) as [p |] eqn:E.
  - destruct (getSymbolForLabel_hit tool st label_string p El E)
      as (st' & -> & Hs & _ & _ & Hp & Htx & Hl & Ha & (_ & Hd1 & Hd2 & Hd3 & Hd4)).
    simpl. assert (Hty := fun q => getType_alter st st' _ p q Hs).
    destruct Hwf. split; rewrite ?Hp, ?Htx, ?Hl, ?Ha, ?Hd1, ?Hd2, ?Hd3, ?Hd4;
      try (intros k q Hk; rewrite Hty; eauto); rewrite Hty; done.
  - destruct (getSymbolForLabel_miss tool st label_string El E)
      as (s & st' & -> & Hs & Ht & _ & Htx & Hp & Hl & Ha & Hd).
    simpl. rewrite duplicate_type in Ht by apply Hwf.
    eapply wf_create; eauto.
    + rewrite Hp. auto.
    + intros k p. rewrite Htx. destruct (decide (label_key tool = k)) as [<- | Hne].
      * rewrite lookup_insert_eq. intros [= <-]. auto.
      * rewrite lookup_insert_ne by done. auto.
    + rewrite Hl. auto.
    + rewrite Ha. auto.
Qed.

(** ** What a lookup may change *)

(** [frame st st']: every symbol of [st] is still there in [st'], with
    the attributes it had; only the description of a text symbol can
    differ. *)
Definition frame (st st' : OgrFileImport) : Prop :=
  forall p s, map_symbols (map st) !! p = Some s ->
    exists s', map_symbols (map st') !! p = Some s'
               /\ s' = setDescription (sym_description s') s
               /\ (sym_type s <> Symbol.Text -> s' = s).

Lemma setDescription_same s : s = setDescription (sym_description s) s.
Proof. by destruct s. Qed.

Lemma frame_refl st : frame st st.
Proof. intros p s H. exists s. split; [done |]. split; [apply setDescription_same | done]. Qed.

Lemma frame_eq st st' : map_symbols (map st') = map_symbols (map st) -> frame st st'.
Proof. intros E p s H. rewrite E. by apply frame_refl. Qed.

Lemma frame_trans st1 st2 st3 : frame st1 st2 -> frame st2 st3 -> frame st1 st3.
Proof.
  intros H12 H23 p s H.
  destruct (H12 p s H) as (s2 & H2 & E2 & T2).
  destruct (H23 p s2 H2) as (s3 & H3 & E3 & T3).
  exists s3. split; [done |]. split.
  - rewrite E3 at 1. rewrite E2. done.
  - intros Hty. rewrite T3; [by apply T2 |]. by rewrite (T2 Hty).
Qed.

Lemma frame_app st st' s :
  map_symbols (map st') = map_symbols (map st) ++ [s] -> frame st st'.
Proof.
  intros E p s0 H. exists s0. rewrite E. split; [by apply lookup_app_l_Some |].
  split; [apply setDescription_same | done].
Qed.

Lemma frame_alter st st' d q :
  getType st q = Some Symbol.Text ->
  map_symbols (map st') = alter (setDescription d) q (map_symbols (map st)) ->
  frame st st'.
Proof.
  intros (sq & Hq & Hty)%getType_Some E p s H. rewrite E.
  destruct (decide (q = p)) as [-> | Hne].
  - rewrite list_lookup_alter_eq, H. simpl. eexists. split; [done |].
    split; [done |]. intros Hn. by simplify_eq.
  - rewrite list_lookup_alter_ne by done. exists s. split; [done |].
    split; [apply setDescription_same | done].
Qed.

Lemma colors_inv_ext n0 st st' :
  colors st' = colors st -> map_colors (map st') = map_colors (map st) ->
  default_pen_color st' = default_pen_color st ->
  colors_inv n0 st -> colors_inv n0 st'.
Proof. unfold colors_inv. intros -> -> ->. done. Qed.

Lemma wf_ext st st' : symbols_kept st st' -> wf st -> wf st'.
Proof.
  intros (Hs & Hp & Ht & Hl & Ha & _ & Hd1 & Hd2 & Hd3 & Hd4) [].
  assert (Hty : forall p, getType st' p = getType st p) by (intros p; unfold getType; by rewrite Hs).
  split; rewrite ?Hp, ?Ht, ?Hl, ?Ha, ?Hd1, ?Hd2, ?Hd3, ?Hd4;
    try (intros k q Hk; rewrite Hty; eauto); rewrite Hty; done.
Qed.

(** One step of the import: a well-formed state stays well-formed, the
    symbols are framed, the default pointers stay, and the invariant of
    the color cache carries over. *)
Definition sound_step (st st' : OgrFileImport) : Prop :=
  wf st ->
  wf st' /\ frame st st' /\ defaults_kept st st'
  /\ forall n0, colors_inv n0 st -> colors_inv n0 st'.

Lemma defaults_kept_refl st : defaults_kept st st.
Proof. unfold defaults_kept. tauto_here. Qed.

Lemma defaults_kept_trans st1 st2 st3 :
  defaults_kept st1 st2 -> defaults_kept st2 st3 -> defaults_kept st1 st3.
Proof. unfold defaults_kept. intros (-> & -> & -> & -> & ->) (-> & -> & -> & -> & ->). tauto_here. Qed.

Lemma sound_step_refl st : sound_step st st.
Proof. intros H. split; [done |]. split; [apply frame_refl |]. split; [apply defaults_kept_refl | done]. Qed.

Lemma sound_step_trans st1 st2 st3 : sound_step st1 st2 -> sound_step st2 st3 -> sound_step st1 st3.
Proof.
  intros H12 H23 H1. destruct (H12 H1) as (H2 & F12 & D12 & C12).
  destruct (H23 H2) as (H3 & F23 & D23 & C23).
  split; [done |]. split; [by eapply frame_trans |].
  split; [by eapply defaults_kept_trans | auto].
Qed.

(** A step that leaves symbols, caches, defaults and colors alone. *)
Lemma sound_step_same st st' :
  symbols_kept st st' -> colors st' = colors st -> map_colors (map st') = map_colors (map st) ->
  sound_step st st'.
Proof.
  intros Hk Hc Hm Hwf. split; [by eapply wf_ext |].
  split; [apply frame_eq, Hk |]. split; [by apply symbols_kept_defaults |].
  intros n0. apply colors_inv_ext; [done | done | apply Hk].
Qed.

Lemma makeColor_sound color_string st : sound_step st (makeColor color_string st).2.
Proof.
  intros Hwf. pose proof (makeColor_symbols_kept color_string st) as Hk.
  split; [by eapply wf_ext |]. split; [apply frame_eq, Hk |].
  split; [by apply symbols_kept_defaults |].
  intros n0. apply makeColor_colors_inv.
Qed.

Lemma getSymbolForPen_colors n0 tool K st :
  colors_inv n0 st -> colors_inv n0 (getSymbolForPen tool K st).2.
Proof.
  intros H. unfold getSymbolForPen.
  destruct (cached_as Symbol.Line st _); [done |].
  unfold applyPenColor. destruct (OGRSTPenColor tool) as [c |].
  - pose proof (makeColor_colors_inv n0 c st H) as H1.
    destruct (makeColor c st) as [color st1]. simpl in H1.
    destruct (decide (K = OGR_ST_GetStyleString tool));
      (eapply colors_inv_ext; [.. | exact H1]); reflexivity.
  - destruct (decide (K = OGR_ST_GetStyleString tool));
      (eapply colors_inv_ext; [.. | exact H]); reflexivity.
Qed.

Lemma getSymbolForBrush_colors n0 tool K st :
  colors_inv n0 st -> colors_inv n0 (getSymbolForBrush tool K st).2.
Proof.
  intros H. unfold getSymbolForBrush.
  destruct (cached_as Symbol.Area st _); [done |].
  unfold applyBrushColor. destruct (OGRSTBrushFColor tool) as [c |].
  - pose proof (makeColor_colors_inv n0 c st H) as H1.
    destruct (makeColor c st) as [color st1]. simpl in H1.
    destruct (decide (K = OGR_ST_GetStyleString tool));
      (eapply colors_inv_ext; [.. | exact H1]); reflexivity.
  - destruct (decide (K = OGR_ST_GetStyleString tool));
      (eapply colors_inv_ext; [.. | exact H]); reflexivity.
Qed.

Lemma getSymbolForOgrSymbol_colors n0 tool K st :
  colors_inv n0 st -> colors_inv n0 (getSymbolForOgrSymbol tool K st).2.
Proof.
  intros H. unfold getSymbolForOgrSymbol.
  destruct (cached_as Symbol.Point st _); [done |].
  destruct (ogr_symbol_color tool) as [[c |] |]; [| done | done].
  pose proof (makeColor_colors_inv n0 c st H) as H1.
  destruct (makeColor c st) as [color st1]. simpl in H1.
  destruct (decide (K = OGR_ST_GetStyleString tool));
    destruct (decide (OGR_ST_GetType tool = OGRSTCSymbol));
    try destruct (OGRSTSymbolAngle tool);
    (eapply colors_inv_ext; [.. | exact H1]); reflexivity.
Qed.

Lemma getSymbolForLabel_colors n0 tool st :
  colors_inv n0 st -> colors_inv n0 (getSymbolForLabel tool st).2.
Proof.
  intros H. unfold getSymbolForLabel.
  destruct (OGRSTLabelTextString tool) as [label_string |]; [| done].
  cbv zeta. destruct (text_symbols st !! _).
  - (eapply colors_inv_ext; [.. | exact H]); reflexivity.
  - pose proof (makeColor_colors_inv n0 (c_str (OGRSTLabelFColor tool)) st H) as H1.
    destruct (makeColor (c_str (OGRSTLabelFColor tool)) st) as [color st1]. simpl in H1.
    (eapply colors_inv_ext; [.. | exact H1]); reflexivity.
Qed.

Lemma getSymbolForPen_sound tool K st : sound_step st (getSymbolForPen tool K st).2.
Proof.
  intros Hwf. split; [by apply getSymbolForPen_wf |].
  split; [| split; [| intros n0; apply getSymbolForPen_colors]].
  - destruct (cached_as Symbol.Line st (line_symbols st !! OGR_ST_GetStyleString tool)) as [p |] eqn:E.
    + rewrite (getSymbolForPen_hit _ _ _ _ E). apply frame_refl.
    + destruct (getSymbolForPen_miss tool K st E) as (s & st' & -> & Hs & _). by eapply frame_app.
  - destruct (cached_as Symbol.Line st (line_symbols st !! OGR_ST_GetStyleString tool)) as [p |] eqn:E.
    + rewrite (getSymbolForPen_hit _ _ _ _ E). apply defaults_kept_refl.
    + destruct (getSymbolForPen_miss tool K st E) as (s & st' & -> & _ & _ & _ & _ & _ & _ & Hd).
      exact Hd.
Qed.

Lemma getSymbolForBrush_sound tool K st : sound_step st (getSymbolForBrush tool K st).2.
Proof.
  intros Hwf. split; [by apply getSymbolForBrush_wf |].
  split; [| split; [| intros n0; apply getSymbolForBrush_colors]].
  - destruct (cached_as Symbol.Area st (area_symbols st !! OGR_ST_GetStyleString tool)) as [p |] eqn:E.
    + rewrite (getSymbolForBrush_hit _ _ _ _ E). apply frame_refl.
    + destruct (getSymbolForBrush_miss tool K st E) as (s & st' & -> & Hs & _). by eapply frame_app.
  - destruct (cached_as Symbol.Area st (area_symbols st !! OGR_ST_GetStyleString tool)) as [p |] eqn:E.
    + rewrite (getSymbolForBrush_hit _ _ _ _ E). apply defaults_kept_refl.
    + destruct (getSymbolForBrush_miss tool K st E) as (s & st' & -> & _ & _ & _ & _ & _ & _ & Hd).
      exact Hd.
Qed.

Lemma getSymbolForOgrSymbol_sound tool K st : sound_step st (getSymbolForOgrSymbol tool K st).2.
Proof.
  intros Hwf. split; [by apply getSymbolForOgrSymbol_wf |].
  split; [| split; [| intros n0; apply getSymbolForOgrSymbol_colors]].
  - destruct (cached_as Symbol.Point st (point_symbols st !! OGR_ST_GetStyleString tool)) as [p |] eqn:E.
    + rewrite (getSymbolForOgrSymbol_hit _ _ _ _ E). apply frame_refl.
    + destruct (ogr_symbol_color_cases tool) as [H | [H | [c H]]].
      * rewrite getSymbolForOgrSymbol_none by auto. apply frame_refl.
      * rewrite getSymbolForOgrSymbol_none by auto. apply frame_refl.
      * destruct (getSymbolForOgrSymbol_miss tool K st c E H) as (s & st' & -> & Hs & _).
        by eapply frame_app.
  - destruct (cached_as Symbol.Point st (point_symbols st !! OGR_ST_GetStyleString tool)) as [p |] eqn:E.
    + rewrite (getSymbolForOgrSymbol_hit _ _ _ _ E). apply defaults_kept_refl.
    + destruct (ogr_symbol_color_cases tool) as [H | [H | [c H]]].
      * rewrite getSymbolForOgrSymbol_none by auto. apply defaults_kept_refl.
      * rewrite getSymbolForOgrSymbol_none by auto. apply defaults_kept_refl.
      * destruct (getSymbolForOgrSymbol_miss tool K st c E H)
          as (s & st' & -> & _ & _ & _ & _ & _ & _ & Hd).
        exact Hd.
Qed.

Lemma getSymbolForLabel_sound tool st : sound_step st (getSymbolForLabel tool st).2.
Proof.
  intros Hwf. split; [by apply getSymbolForLabel_wf |].
  split; [| split; [| intros n0; apply getSymbolForLabel_colors]].
  - destruct (OGRSTLabelTextString tool) as [label_string |] eqn:El;
      [| rewrite getSymbolForLabel_none by done; apply frame_refl].
    destruct (text_symbols st !! label_key tool) as [p |] eqn:E.
    + destruct (getSymbolForLabel_hit tool st label_string p El E) as (st' & -> & Hs & _).
      eapply frame_alter; [| exact Hs]. by eapply wf_text.
    + destruct (getSymbolForLabel_miss tool st label_string El E) as (s & st' & -> & Hs & _).
      by eapply frame_app.
  - destruct (OGRSTLabelTextString tool) as [label_string |] eqn:El;
      [| rewrite getSymbolForLabel_none by done; apply defaults_kept_refl].
    destruct (text_symbols st !! label_key tool) as [p |] eqn:E.
    + destruct (getSymbolForLabel_hit tool st label_string p El E)
        as (st' & -> & _ & _ & _ & _ & _ & _ & _ & Hd).
      exact Hd.
    + destruct (getSymbolForLabel_miss tool st label_string El E)
        as (s & st' & -> & _ & _ & _ & _ & _ & _ & _ & Hd).
      exact Hd.
Qed.

(** The loop over the parts of a style. *)
Lemma first_symbol_sound f parts st :
  (forall tool st, sound_step st (f tool st).2) ->
  sound_step st (first_symbol f parts st).2.
Proof.
  intros Hf. revert st. induction parts as [| [tool |] parts IH]; intros st; simpl.
  - apply sound_step_refl.
  - pose proof (Hf tool st) as H. destruct (f tool st) as [[symbol |] st1]; simpl in *.
    + exact H.
    + eapply sound_step_trans; [exact H | apply IH].
  - apply IH.
Qed.

Lemma point_geometry_part_sound K tool st : sound_step st (point_geometry_part K tool st).2.
Proof.
  unfold point_geometry_part.
  destruct (OGR_ST_GetType tool);
    auto using sound_step_refl, getSymbolForOgrSymbol_sound, getSymbolForLabel_sound.
Qed.

Lemma line_part_sound K tool st : sound_step st (line_part K tool st).2.
Proof.
  unfold line_part. destruct (OGR_ST_GetType tool); try apply sound_step_refl.
  pose proof (getSymbolForPen_sound tool K st) as H.
  by destruct (getSymbolForPen tool K st).
Qed.

Lemma area_part_sound K tool st : sound_step st (area_part K tool st).2.
Proof.
  unfold area_part. destruct (OGR_ST_GetType tool); try apply sound_step_refl.
  pose proof (getSymbolForBrush_sound tool K st) as H.
  by destruct (getSymbolForBrush tool K st).
Qed.

Lemma getSymbol_sound type K st : sound_step st (getSymbol type K st).2.
Proof.
  unfold getSymbol.
  destruct type.
  - destruct (point_symbols st !! K); [apply sound_step_refl |].
    pose proof (first_symbol_sound (point_geometry_part K) (style_parts K) st
                  (point_geometry_part_sound K)) as H.
    unfold getSymbolForPointGeometry.
    destruct (first_symbol _ _ st) as [[symbol |] st1]; exact H.
  - destruct (line_symbols st !! K); [apply sound_step_refl |].
    pose proof (first_symbol_sound (line_part K) (style_parts K) st (line_part_sound K)) as H.
    unfold getLineSymbol.
    destruct (first_symbol _ _ st) as [[symbol |] st1]; exact H.
  - destruct (area_symbols st !! K); [apply sound_step_refl |].
    pose proof (first_symbol_sound (area_part K) (style_parts K) st (area_part_sound K)) as H.
    unfold getAreaSymbol.
    destruct (first_symbol _ _ st) as [[symbol |] st1]; exact H.
  - destruct (point_symbols st !! K); [apply sound_step_refl |].
    pose proof (first_symbol_sound (point_geometry_part K) (style_parts K) st
                  (point_geometry_part_sound K)) as H.
    unfold getSymbolForPointGeometry.
    destruct (first_symbol _ _ st) as [[symbol |] st1]; exact H.
  - destruct (line_symbols st !! K); [apply sound_step_refl |].
    pose proof (first_symbol_sound (line_part K) (style_parts K) st (line_part_sound K)) as H.
    unfold getLineSymbol.
    destruct (first_symbol _ _ st) as [[symbol |] st1]; exact H.
Qed.

(** ** Steps of an import *)

Ltac solve_same :=
  apply sound_step_same; [unfold symbols_kept; repeat split; reflexivity | reflexivity | reflexivity].

Lemma count_too_few_coordinates_sound st : sound_step st (count_too_few_coordinates st).
Proof. solve_same. Qed.

Lemma count_unsupported_geometry_type_sound st : sound_step st (count_unsupported_geometry_type st).
Proof. solve_same. Qed.

Lemma count_failed_transformation_sound st : sound_step st (count_failed_transformation st).
Proof. solve_same. Qed.

(** The state after [importPointGeometry] is the state after its lookup. *)
Lemma importPointGeometry_state feature geometry st :
  (importPointGeometry feature geometry st).2
  = (getSymbol Symbol.Point (OGR_F_GetStyleString feature) st).2.
Proof.
  unfold importPointGeometry.
  destruct (getSymbol Symbol.Point (OGR_F_GetStyleString feature) st) as [symbol st1].
  cbv zeta. repeat case_match; reflexivity.
Qed.

Lemma importLineStringGeometry_state feature geometry st :
  (importLineStringGeometry feature geometry st).2 = count_too_few_coordinates st
  \/ (importLineStringGeometry feature geometry st).2
     = (getSymbol Symbol.Line (OGR_F_GetStyleString feature) st).2.
Proof.
  unfold importLineStringGeometry. cbv zeta. case_decide; [by left |]. right.
  by destruct (getSymbol Symbol.Line (OGR_F_GetStyleString feature) st).
Qed.

Lemma importPolygonGeometry_state feature geometry st :
  (importPolygonGeometry feature geometry st).2 = count_too_few_coordinates st
  \/ (importPolygonGeometry feature geometry st).2
     = (getSymbol Symbol.Area (OGR_F_GetStyleString feature) st).2.
Proof.
  unfold importPolygonGeometry. destruct (OGR_G_geometries geometry); [by left |].
  cbv zeta. case_decide; [by left |]. right.
  by destruct (getSymbol Symbol.Area (OGR_F_GetStyleString feature) st).
Qed.

(** Induction over a geometry and its sub-geometries. *)
Lemma OGRGeometry_rect' (P : OGRGeometry -> Prop) :
  (forall type points geometries, Forall P geometries -> P (Geometry type points geometries)) ->
  forall g, P g.
Proof.
  intros H. fix IH 1. intros [type points geometries]. apply H.
  induction geometries as [| g geometries IHg]; constructor; [apply IH | exact IHg].
Qed.

Lemma importGeometry_sound feature geometry :
  forall st, sound_step st (importGeometry feature geometry st).2.
Proof.
  induction geometry as [type points geometries IH] using OGRGeometry_rect'.
  intros st. simpl.
  assert (Hcoll : forall st,
    sound_step st (importGeometryCollection_with (importGeometry feature) geometries st).2).
  { clear st. induction IH as [| g geometries Hg _ IHl]; intros st; simpl.
    - apply sound_step_refl.
    - pose proof (Hg st) as H1.
      destruct (importGeometry feature g st) as [[tmp | what |] st1]; simpl in *; try exact H1.
      pose proof (IHl st1) as H2.
      destruct (importGeometryCollection_with (importGeometry feature) geometries st1)
        as [[result | what |] st2]; simpl in *; by eapply sound_step_trans. }
  destruct (wkbFlatten type); try apply Hcoll.
  - apply count_unsupported_geometry_type_sound.
  - pose proof (importPointGeometry_state feature (Geometry type points geometries) st) as E.
    destruct (importPointGeometry feature _ st) as [[object | what |] st1];
      cbn [fst snd] in *; rewrite E; apply getSymbol_sound.
  - destruct (importLineStringGeometry_state feature (Geometry type points geometries) st) as [E | E];
      destruct (importLineStringGeometry feature _ st) as [object st1]; cbn [fst snd] in *;
      rewrite E; auto using count_too_few_coordinates_sound, getSymbol_sound.
  - destruct (importPolygonGeometry_state feature (Geometry type points geometries) st) as [E | E];
      destruct (importPolygonGeometry feature _ st) as [object st1]; cbn [fst snd] in *;
      rewrite E; auto using count_too_few_coordinates_sound, getSymbol_sound.
  - apply count_unsupported_geometry_type_sound.
Qed.

Lemma setSRS_sound srs st : sound_step st (setSRS srs st).2.
Proof.
  unfold setSRS. destruct srs as [s |]; cbv zeta.
  - case_decide; [solve_same |].
    destruct (OCTNewCoordinateTransformation s _); solve_same.
  - case_decide; solve_same.
Qed.

Lemma importFeature_sound feature geometry clipping st :
  sound_step st (importFeature feature geometry clipping st).2.
Proof.
  unfold importFeature. pose proof (setSRS_sound (OGR_G_GetSpatialReference feature) st) as H1.
  destruct (setSRS _ st) as [[|] st1]; simpl in H1; [| exact H1].
  cbv zeta.
  match goal with |- context [match ?t with Some _ => _ | None => _ end] =>
    destruct t as [g |] end.
  - pose proof (importGeometry_sound feature g st1) as H2.
    destruct (importGeometry feature g st1) as [[objects | what |] st2]; simpl in *;
      by eapply sound_step_trans.
  - eapply sound_step_trans; [exact H1 | apply count_failed_transformation_sound].
Qed.

(** The two operations of an import that work on one feature with a
    geometry: a symbol lookup or the import of the feature.  They are
    the part of an import that never counts an empty geometry; the
    import of a layer, which does, the clipping of a layer and the
    other assignments to the importer are among the operations of
    [operation] further down, and every state [import_step] leads to is
    a state [operation] leads to ([imports_from_runs]). *)
Inductive import_step (st : OgrFileImport) : OgrFileImport -> Prop :=
| step_getSymbol type style_string :
    import_step st (getSymbol type style_string st).2
| step_importFeature feature geometry clipping :
    import_step st (importFeature feature geometry clipping st).2.

(** The states lookups and feature imports reach from [st]. *)
Definition imports_from (st st' : OgrFileImport) : Prop := rtc import_step st st'.

Lemma imports_from_sound st st' : imports_from st st' -> sound_step st st'.
Proof.
  induction 1 as [st | st1 st2 st3 Hstep _ IH].
  - apply sound_step_refl.
  - eapply sound_step_trans; [| exact IH].
    destruct Hstep; [apply getSymbol_sound | apply importFeature_sound].
Qed.

(** The importer as constructed is well-formed, and its color cache
    satisfies the invariant for the colors it starts with. *)
Lemma OgrFileImport_new_wf new_Symbol m u d srs : wf (OgrFileImport_new new_Symbol m u d srs).
Proof.
  split; unfold OgrFileImport_new; simpl_state; try done;
    intros k p H; by rewrite lookup_empty in H.
Qed.

Lemma OgrFileImport_new_colors new_Symbol m u d srs :
  colors_inv (getNumColors (map (OgrFileImport_new new_Symbol m u d srs)))
    (OgrFileImport_new new_Symbol m u d srs).
Proof.
  repeat split.
  - intros k c H. unfold OgrFileImport_new in H. simpl_state. by rewrite lookup_empty in H.
  - intros k c r g b a H. unfold OgrFileImport_new in H. simpl_state. by rewrite lookup_empty in H.
  - intros i c Hi Hl. apply lookup_lt_Some in Hl. unfold getNumColors in Hi. lia.
Qed.

(** ** The states of an import *)

(** [importing st]: [st] is reached from a newly constructed importer
    by lookups and feature imports. *)
Definition importing (st : OgrFileImport) : Prop :=
  exists new_Symbol m u d srs, imports_from (OgrFileImport_new new_Symbol m u d srs) st.

Lemma importing_wf st : importing st -> wf st.
Proof.
  intros (new_Symbol & m & u & d & srs & H).
  apply (imports_from_sound _ _ H), OgrFileImport_new_wf.
Qed.

(** ** Colors that fail to decode *)

(** What the color step for [color_string] makes of a symbol: [after]
    has the default pen color and the hidden flag of [before] when the
    decoder rejects the string; it is hidden when the string decodes
    with an alpha of zero or less; otherwise it has a color and the
    hidden flag of [before]. *)
Definition decoded (color_string : string) (st : OgrFileImport) (before after : Symbol) : Prop :=
  match OGR_ST_GetRGBFromString color_string with
  | None =>
      sym_color after = Some (default_pen_color st) /\ sym_hidden after = sym_hidden before
  | Some (r, g, b, a) =>
      if decide (0 < a)
      then (exists c, sym_color after = Some c) /\ sym_hidden after = sym_hidden before
      else sym_hidden after = true
  end.

Lemma applyColor_decoded n0 color_string st s :
  colors_inv n0 st -> decoded color_string st s (applyColor (makeColor color_string st).1 s).
Proof.
  intros Hinv.
  pose proof (makeColor_result n0 color_string st Hinv) as H. unfold decoded.
  destruct (OGR_ST_GetRGBFromString color_string) as [[[[r g] b] a] |].
  - case_decide.
    + destruct H as [c ->]. simpl. eauto.
    + by rewrite H.
  - destruct H as [-> _]. done.
Qed.

Lemma decoded_same color_string st s a b :
  sym_color b = sym_color a -> sym_hidden b = sym_hidden a ->
  decoded color_string st s a -> decoded color_string st s b.
Proof. unfold decoded. intros -> ->. done. Qed.

(** The point symbol made for a tool with a color. *)
Lemma getSymbolForOgrSymbol_created tool K st color_string :
  cached_as Symbol.Point st (point_symbols st !! OGR_ST_GetStyleString tool) = None ->
  ogr_symbol_color tool = Some (Some color_string) ->
  exists p s,
    (getSymbolForOgrSymbol tool K st).1 = Some p
    /\ map_symbols (map (getSymbolForOgrSymbol tool K st).2) !! p = Some s
    /\ sym_color s
       = sym_color (applyColor (makeColor color_string st).1
                      (duplicate Symbol.Point st (default_point_symbol st)))
    /\ sym_hidden s
       = sym_hidden (applyColor (makeColor color_string st).1
                       (duplicate Symbol.Point st (default_point_symbol st))).
Proof.
  intros H Hc. unfold getSymbolForOgrSymbol. rewrite H, Hc.
  destruct (makeColor color_string st) as [color st1].
  destruct (decide (K = OGR_ST_GetStyleString tool));
    destruct (decide (OGR_ST_GetType tool = OGRSTCSymbol));
    try destruct (OGRSTSymbolAngle tool);
    eexists _, _; (split; [reflexivity |]); simpl_state; unfold getNumSymbols;
    rewrite ?alter_app_last; (split; [by apply list_lookup_middle |]); done.
Qed.

(** The text symbol made for a label tool. *)
Lemma getSymbolForLabel_created tool st label_string :
  OGRSTLabelTextString tool = Some label_string ->
  text_symbols st !! label_key tool = None ->
  exists p s,
    (getSymbolForLabel tool st).1 = Some p
    /\ map_symbols (map (getSymbolForLabel tool st).2) !! p = Some s
    /\ sym_color s
       = sym_color (applyColor (makeColor (c_str (OGRSTLabelFColor tool)) st).1
                      (duplicate Symbol.Text st (default_text_symbol st)))
    /\ sym_hidden s
       = sym_hidden (applyColor (makeColor (c_str (OGRSTLabelFColor tool)) st).1
                       (duplicate Symbol.Text st (default_text_symbol st))).
Proof.
  intros Ht Hc. unfold getSymbolForLabel, label_key in *. rewrite Ht. cbv zeta. rewrite Hc.
  destruct (makeColor (c_str (OGRSTLabelFColor tool)) st) as [color st1].
  eexists _, _. split; [reflexivity |]. simpl_state. unfold getNumSymbols.
  rewrite alter_app_last. split; [by apply list_lookup_middle |].
  destruct (OGRSTLabelSizeDbl tool) as [font_size |]; [| done].
  by destruct (Qlt_le_dec 0 font_size).
Qed.

(** C2 (as amended).  In every state whose color cache agrees with
    the decoder ([colors_inv]: the state the constructor makes is such
    a state, [OgrFileImport_new_colors], and every operation of the
    importer keeps a well-formed state so, the import of a layer with
    its counting of empty geometries and the change of the spatial
    reference included, [runs_from_colors]) and for every style tool
    with the color parameter [color_string], decoding the color ends in
    a symbol and a state, never in an exception, and the symbol is as
    [decoded] says: when the RGB decoder rejects the
    string, the symbol gets the default pen color and its hidden flag
    is not touched (and no color is created); the symbol is hidden
    when the string decodes with an alpha of zero or less; with a
    positive alpha it gets a color, the hidden flag untouched.  This
    holds for the line symbol of a pen, the area symbol of a brush,
    the point symbol made for a pen, brush or symbol tool and the text
    symbol made for a label. *)
Theorem color_decoding n0 color_string st :
  colors_inv n0 st ->
  (forall tool s, OGRSTPenColor tool = Some color_string ->
     decoded color_string st s (applyPenColor tool s st).1)
  /\ (forall tool s, OGRSTBrushFColor tool = Some color_string ->
        decoded color_string st s (applyBrushColor tool s st).1)
  /\ (forall tool K,
        cached_as Symbol.Point st (point_symbols st !! OGR_ST_GetStyleString tool) = None ->
        ogr_symbol_color tool = Some (Some color_string) ->
        exists p s,
          (getSymbolForOgrSymbol tool K st).1 = Some p
          /\ map_symbols (map (getSymbolForOgrSymbol tool K st).2) !! p = Some s
          /\ decoded color_string st (duplicate Symbol.Point st (default_point_symbol st)) s)
  /\ (forall tool label_string,
        OGRSTLabelTextString tool = Some label_string ->
        c_str (OGRSTLabelFColor tool) = color_string ->
        text_symbols st !! label_key tool = None ->
        exists p s,
          (getSymbolForLabel tool st).1 = Some p
          /\ map_symbols (map (getSymbolForLabel tool st).2) !! p = Some s
          /\ decoded color_string st (duplicate Symbol.Text st (default_text_symbol st)) s)
  /\ (OGR_ST_GetRGBFromString color_string = None -> map (makeColor color_string st).2 = map st).
Proof.
  intros Hst. repeat split.
  - intros tool s Hc. unfold applyPenColor. rewrite Hc.
    pose proof (applyColor_decoded n0 color_string st s Hst) as H.
    by destruct (makeColor color_string st).
  - intros tool s Hc. unfold applyBrushColor. rewrite Hc.
    pose proof (applyColor_decoded n0 color_string st s Hst) as H.
    by destruct (makeColor color_string st).
  - intros tool K Hmiss Hc.
    destruct (getSymbolForOgrSymbol_created tool K st color_string Hmiss Hc)
      as (p & s & Hp & Hs & Hcolor & Hhidden).
    exists p, s. repeat split; [done | done |].
    eapply decoded_same; [exact Hcolor | exact Hhidden | by eapply applyColor_decoded].
  - intros tool label_string Ht <- Hmiss.
    destruct (getSymbolForLabel_created tool st label_string Ht Hmiss)
      as (p & s & Hp & Hs & Hcolor & Hhidden).
    exists p, s. repeat split; [done | done |].
    eapply decoded_same; [exact Hcolor | exact Hhidden | by eapply applyColor_decoded].
  - intros Hrgb.
    pose proof (makeColor_result n0 color_string st Hst) as H. rewrite Hrgb in H. apply H.
Qed.


(** ** Looking a style up again *)

(** A loop body that changes nothing when it yields no symbol. *)
Definition quiet (f : OGRStyleTool -> OgrFileImport -> option SymbolPtr * OgrFileImport) : Prop :=
  forall tool st st', f tool st = (None, st') -> st' = st.

(** The parts that yield no symbol in state [st]. *)
Definition skipped (f : OGRStyleTool -> OgrFileImport -> option SymbolPtr * OgrFileImport)
    (st : OgrFileImport) (part : option OGRStyleTool) : Prop :=
  forall tool, part = Some tool -> f tool st = (None, st).

Lemma first_symbol_None f parts st st' :
  quiet f -> first_symbol f parts st = (None, st') -> st' = st /\ Forall (skipped f st) parts.
Proof.
  intros Hq. induction parts as [| [tool |] parts IH]; simpl.
  - intros [= <-]. auto.
  - destruct (f tool st) as [[p |] st1] eqn:E; [done |].
    pose proof (Hq _ _ _ E) as ->. intros [-> Hall]%IH. split; [done |].
    constructor; [| done]. by intros ? [= <-].
  - intros [-> Hall]%IH. split; [done |]. constructor; [| done]. by intros ? [=].
Qed.

Lemma first_symbol_Some f parts st p st' :
  quiet f -> first_symbol f parts st = (Some p, st') ->
  exists pre tool post,
    parts = pre ++ Some tool :: post /\ Forall (skipped f st) pre /\ f tool st = (Some p, st').
Proof.
  intros Hq. induction parts as [| [tool |] parts IH]; simpl.
  - done.
  - destruct (f tool st) as [[q |] st1] eqn:E.
    + intros [= <- <-]. exists [], tool, parts. auto.
    + pose proof (Hq _ _ _ E) as ->. intros (pre & tool' & post & -> & Hpre & Hf)%IH.
      exists (Some tool :: pre), tool', post. split; [done |]. split; [| done].
      constructor; [| done]. by intros ? [= <-].
  - intros (pre & tool' & post & -> & Hpre & Hf)%IH.
    exists (None :: pre), tool', post. split; [done |]. split; [| done].
    constructor; [| done]. by intros ? [=].
Qed.


Lemma line_part_quiet K : quiet (line_part K).
Proof.
  intros tool st st'. unfold line_part.
  destruct (OGR_ST_GetType tool); try (by intros [= <-]).
  by destruct (getSymbolForPen tool K st).
Qed.

Lemma area_part_quiet K : quiet (area_part K).
Proof.
  intros tool st st'. unfold area_part.
  destruct (OGR_ST_GetType tool); try (by intros [= <-]).
  by destruct (getSymbolForBrush tool K st).
Qed.

(** When [getSymbolForOgrSymbol] yields no symbol, the tool's style
    string is not cached as a point symbol and the tool has no color. *)
Lemma getSymbolForOgrSymbol_None tool K st st' :
  getSymbolForOgrSymbol tool K st = (None, st') ->
  st' = st
  /\ cached_as Symbol.Point st (point_symbols st !! OGR_ST_GetStyleString tool) = None
  /\ (ogr_symbol_color tool = None \/ ogr_symbol_color tool = Some None).
Proof.
  destruct (cached_as Symbol.Point st (point_symbols st !! OGR_ST_GetStyleString tool)) as [p |] eqn:E.
  - by rewrite (getSymbolForOgrSymbol_hit _ _ _ _ E).
  - destruct (ogr_symbol_color_cases tool) as [H | [H | [c H]]].
    + rewrite getSymbolForOgrSymbol_none by auto. intros [= <-]. auto.
    + rewrite getSymbolForOgrSymbol_none by auto. intros [= <-]. auto.
    + destruct (getSymbolForOgrSymbol_miss tool K st c E H) as (s & st1 & -> & _). done.
Qed.

Lemma getSymbolForLabel_None tool st st' :
  getSymbolForLabel tool st = (None, st') -> st' = st /\ OGRSTLabelTextString tool = None.
Proof.
  destruct (OGRSTLabelTextString tool) as [label_string |] eqn:El.
  - destruct (text_symbols st !! label_key tool) as [p |] eqn:E.
    + destruct (getSymbolForLabel_hit tool st label_string p El E) as (st1 & -> & _). done.
    + destruct (getSymbolForLabel_miss tool st label_string El E) as (s & st1 & -> & _). done.
  - rewrite getSymbolForLabel_none by done. intros [= <-]. auto.
Qed.

Lemma point_geometry_part_quiet K : quiet (point_geometry_part K).
Proof.
  intros tool st st'. unfold point_geometry_part.
  destruct (OGR_ST_GetType tool); try (by intros [= <-]);
    try (by intros [-> _]%getSymbolForOgrSymbol_None); by intros [-> _]%getSymbolForLabel_None.
Qed.



(** In a well-formed state a cached pointer passes the class test. *)
Lemma cached_as_wf_point st k :
  wf st -> cached_as Symbol.Point st (point_symbols st !! k) = point_symbols st !! k.
Proof.
  intros Hwf. destruct (point_symbols st !! k) as [p |] eqn:E; [| done].
  simpl. rewrite (wf_point _ Hwf _ _ E). by rewrite decide_True.
Qed.



(** ** Different style strings *)









(** ** What a lookup never touches *)

(** The counters, the coordinate mapping and the georeferencing. *)
Definition context_kept (st st' : OgrFileImport) : Prop :=
  empty_geometries st' = empty_geometries st
  /\ no_transformation st' = no_transformation st
  /\ failed_transformation st' = failed_transformation st
  /\ unsupported_geometry_type st' = unsupported_geometry_type st
  /\ too_few_coordinates st' = too_few_coordinates st
  /\ to_map_coord st' = to_map_coord st
  /\ getGeoreferencing (map st') = getGeoreferencing (map st).

Lemma context_kept_refl st : context_kept st st.
Proof. unfold context_kept. tauto_here. Qed.

Lemma context_kept_trans st1 st2 st3 :
  context_kept st1 st2 -> context_kept st2 st3 -> context_kept st1 st3.
Proof.
  unfold context_kept.
  intros (-> & -> & -> & -> & -> & -> & ->) (-> & -> & -> & -> & -> & -> & ->). tauto_here.
Qed.

Ltac solve_context := unfold context_kept; repeat split; reflexivity.

Lemma makeColor_context color_string st : context_kept st (makeColor color_string st).2.
Proof.
  unfold makeColor. destruct (colors_value st color_string); [solve_context |].
  destruct (OGR_ST_GetRGBFromString color_string) as [[[[r g] b] a] |]; [| solve_context].
  destruct (0 <? a); solve_context.
Qed.

Lemma getSymbolForPen_context tool K st : context_kept st (getSymbolForPen tool K st).2.
Proof.
  unfold getSymbolForPen. destruct (cached_as Symbol.Line st _); [solve_context |].
  unfold applyPenColor. destruct (OGRSTPenColor tool) as [c |].
  - pose proof (makeColor_context c st) as H. destruct (makeColor c st) as [color st1].
    eapply context_kept_trans; [exact H |]. case_decide; solve_context.
  - case_decide; solve_context.
Qed.

Lemma getSymbolForBrush_context tool K st : context_kept st (getSymbolForBrush tool K st).2.
Proof.
  unfold getSymbolForBrush. destruct (cached_as Symbol.Area st _); [solve_context |].
  unfold applyBrushColor. destruct (OGRSTBrushFColor tool) as [c |].
  - pose proof (makeColor_context c st) as H. destruct (makeColor c st) as [color st1].
    eapply context_kept_trans; [exact H |]. case_decide; solve_context.
  - case_decide; solve_context.
Qed.

Lemma getSymbolForOgrSymbol_context tool K st : context_kept st (getSymbolForOgrSymbol tool K st).2.
Proof.
  unfold getSymbolForOgrSymbol. destruct (cached_as Symbol.Point st _); [solve_context |].
  destruct (ogr_symbol_color tool) as [[c |] |]; [| solve_context | solve_context].
  pose proof (makeColor_context c st) as H. destruct (makeColor c st) as [color st1].
  eapply context_kept_trans; [exact H |].
  destruct (decide (K = OGR_ST_GetStyleString tool));
    destruct (decide (OGR_ST_GetType tool = OGRSTCSymbol));
    try destruct (OGRSTSymbolAngle tool); solve_context.
Qed.

Lemma getSymbolForLabel_context tool st : context_kept st (getSymbolForLabel tool st).2.
Proof.
  unfold getSymbolForLabel. destruct (OGRSTLabelTextString tool); [| solve_context].
  cbv zeta. destruct (text_symbols st !! _); [solve_context |].
  pose proof (makeColor_context (c_str (OGRSTLabelFColor tool)) st) as H.
  destruct (makeColor (c_str (OGRSTLabelFColor tool)) st) as [color st1].
  eapply context_kept_trans; [exact H |]. solve_context.
Qed.

Lemma first_symbol_context f parts st :
  (forall tool st, context_kept st (f tool st).2) ->
  context_kept st (first_symbol f parts st).2.
Proof.
  intros Hf. revert st. induction parts as [| [tool |] parts IH]; intros st; simpl.
  - apply context_kept_refl.
  - pose proof (Hf tool st) as H. destruct (f tool st) as [[symbol |] st1]; simpl in *.
    + exact H.
    + eapply context_kept_trans; [exact H | apply IH].
  - apply IH.
Qed.

Lemma getSymbol_context type K st : context_kept st (getSymbol type K st).2.
Proof.
  assert (Hpoint : forall tool st, context_kept st (point_geometry_part K tool st).2).
  { intros tool st0. unfold point_geometry_part.
    destruct (OGR_ST_GetType tool);
      auto using context_kept_refl, getSymbolForOgrSymbol_context, getSymbolForLabel_context. }
  assert (Hline : forall tool st, context_kept st (line_part K tool st).2).
  { intros tool st0. unfold line_part. destruct (OGR_ST_GetType tool); try apply context_kept_refl.
    pose proof (getSymbolForPen_context tool K st0). by destruct (getSymbolForPen tool K st0). }
  assert (Harea : forall tool st, context_kept st (area_part K tool st).2).
  { intros tool st0. unfold area_part. destruct (OGR_ST_GetType tool); try apply context_kept_refl.
    pose proof (getSymbolForBrush_context tool K st0). by destruct (getSymbolForBrush tool K st0). }
  pose proof (first_symbol_context _ (style_parts K) st Hpoint) as H1.
  pose proof (first_symbol_context _ (style_parts K) st Hline) as H2.
  pose proof (first_symbol_context _ (style_parts K) st Harea) as H3.
  unfold getSymbol, getSymbolForPointGeometry, getLineSymbol, getAreaSymbol.
  destruct type.
  - destruct (point_symbols st !! K); [apply context_kept_refl |].
    by destruct (first_symbol (point_geometry_part K) _ st) as [[s |] st1].
  - destruct (line_symbols st !! K); [apply context_kept_refl |].
    by destruct (first_symbol (line_part K) _ st) as [[s |] st1].
  - destruct (area_symbols st !! K); [apply context_kept_refl |].
    by destruct (first_symbol (area_part K) _ st) as [[s |] st1].
  - destruct (point_symbols st !! K); [apply context_kept_refl |].
    by destruct (first_symbol (point_geometry_part K) _ st) as [[s |] st1].
  - destruct (line_symbols st !! K); [apply context_kept_refl |].
    by destruct (first_symbol (line_part K) _ st) as [[s |] st1].
Qed.

(** The mapping of coordinates is the same before and after a lookup. *)
Lemma toMapCoord_kept st st' x y : context_kept st st' -> toMapCoord st' x y = toMapCoord st x y.
Proof.
  intros (_ & _ & _ & _ & _ & Hm & Hg). unfold toMapCoord, fromProjected_. by rewrite Hm, Hg.
Qed.

(** ** The anchor table *)

Lemma anchor_cases (anchor : Z) :
  1 <= anchor <= 12 ->
  anchor = 1 \/ anchor = 2 \/ anchor = 3 \/ anchor = 4 \/ anchor = 5 \/ anchor = 6 \/
  anchor = 7 \/ anchor = 8 \/ anchor = 9 \/ anchor = 10 \/ anchor = 11 \/ anchor = 12.
Proof. lia. Qed.

Ltac each_anchor H :=
  apply anchor_cases in H;
  repeat (destruct H as [H | H]; [subst | ]); [.. | subst].

(** C8.  For every anchor code in 1..12 the decoded vertical alignment is
    the table entry of [(anchor-1)/3] (0 baseline, 1 center, 2 top,
    3 bottom) and the horizontal alignment the table entry of
    [(anchor-1) mod 3] (0 left, 1 center, 2 right); no unreachable branch
    is met. *)
Theorem applyLabelAnchor_table (anchor : Z) (t : Alignment) :
  1 <= anchor <= 12 ->
  exists v h,
    v_align_table ((anchor - 1) / 3) = Some v /\
    h_align_table ((anchor - 1) mod 3) = Some h /\
    applyLabelAnchor anchor t = Some (mkAlignment h v).
Proof.
  intros H. each_anchor H; vm_compute; eauto.
Qed.

(** Anchor 5 is centered on both axes. *)
Lemma applyLabelAnchor_table_witness :
  1 <= 5 <= 12 /\
  applyLabelAnchor 5 (mkAlignment AlignLeft AlignBaseline)
  = Some (mkAlignment AlignHCenter AlignVCenter).
Proof.
  split; [lia |].
  destruct (applyLabelAnchor_table 5 (mkAlignment AlignLeft AlignBaseline)) as (v & h & Hv & Hh & Hr);
    [lia |].
  vm_compute in Hv, Hh. inversion Hv; inversion Hh; subst. exact Hr.
Defined.

(** ** The anchor in a packed description *)

(** The anchor [getSymbolForLabel] packs: 1 without an anchor
    parameter, else the parameter bound to 1..12. *)
Definition label_anchor (tool : OGRStyleTool) : Z :=
  match OGRSTLabelAnchor tool with
  | None => 1
  | Some a => qBound 1 a 12
  end.

Lemma label_anchor_range tool : 1 <= label_anchor tool <= 12.
Proof. unfold label_anchor, qBound. destruct (OGRSTLabelAnchor tool); lia. Qed.

Definition is_unreachable {A} (o : Outcome A) : bool :=
  match o with Unreachable => true | _ => false end.

(** The numeral of [100 + anchor] is a "1" and two digits that read
    back as the anchor. *)
Lemma anchor_numeral (anchor : Z) :
  1 <= anchor <= 12 ->
  exists c1 c2,
    QString_number_int (100 + anchor) = String "1" (String c1 (String c2 EmptyString))
    /\ QString_toInt (String c1 (String c2 EmptyString)) = Some anchor.
Proof. intros H. each_anchor H; vm_compute; eauto. Qed.

Lemma applyLabelAnchor_Some (anchor : Z) (t : Alignment) :
  1 <= anchor <= 12 -> exists t', applyLabelAnchor anchor t = Some t'.
Proof. intros H. each_anchor H; vm_compute; eauto. Qed.

(** The second and third character of a string. *)
Lemma QStringRef_1_2 c0 c1 c2 rest :
  QStringRef (String c0 (String c1 (String c2 rest))) 1 2 = String c1 (String c2 EmptyString).
Proof. unfold QStringRef. simpl. by destruct rest. Qed.

Lemma label_description_anchor tool label_string :
  QString_toInt (QStringRef (label_description tool label_string) 1 2) = Some (label_anchor tool).
Proof.
  unfold label_description.
  assert (Ea : match OGRSTLabelAnchor tool with
               | Some _ => qBound 1 (default 0 (OGRSTLabelAnchor tool)) 12
               | None => 1
               end = label_anchor tool)
    by (unfold label_anchor; by destruct (OGRSTLabelAnchor tool)).
  cbv zeta. rewrite Ea.
  destruct (anchor_numeral _ (label_anchor_range tool)) as (c1 & c2 & -> & <-).
  exact (f_equal QString_toInt (QStringRef_1_2 _ _ _ _)).
Qed.

(** The description of a text symbol a point lookup returns is a
    packed description. *)
Lemma getSymbol_Point_description K st p st1 :
  wf st ->
  getSymbol Symbol.Point K st = (p, st1) ->
  getType st1 p = Some Symbol.Text ->
  exists tool label_string, getDescription st1 p = label_description tool label_string.
Proof.
  intros Hwf Hg Hty. unfold getSymbol in Hg.
  destruct (point_symbols st !! K) as [q |] eqn:E.
  { simplify_eq. rewrite (wf_point _ Hwf _ _ E) in Hty. done. }
  unfold getSymbolForPointGeometry in Hg.
  destruct (first_symbol (point_geometry_part K) (style_parts K) st) as [[q |] st2] eqn:Ef.
  2: { destruct (first_symbol_None _ _ _ _ (point_geometry_part_quiet K) Ef) as [-> _].
       simplify_eq. rewrite (wf_default_point _ Hwf) in Hty. done. }
  simplify_eq.
  destruct (first_symbol_Some _ _ _ _ _ (point_geometry_part_quiet K) Ef)
    as (pre & tool & post & _ & _ & Hf).
  assert (Hogr : getSymbolForOgrSymbol tool K st = (Some p, st1) -> False).
  { intros Hr.
    destruct (cached_as Symbol.Point st (point_symbols st !! OGR_ST_GetStyleString tool))
      as [q |] eqn:Ec.
    - rewrite (getSymbolForOgrSymbol_hit _ _ _ _ Ec) in Hr. simplify_eq.
      rewrite cached_as_wf_point in Ec by done.
      rewrite (wf_point _ Hwf _ _ Ec) in Hty. done.
    - destruct (ogr_symbol_color_cases tool) as [H | [H | [c H]]].
      + rewrite getSymbolForOgrSymbol_none in Hr by auto. done.
      + rewrite getSymbolForOgrSymbol_none in Hr by auto. done.
      + destruct (getSymbolForOgrSymbol_miss tool K st c Ec H) as (s & st2 & Hr2 & Hs & Ht & _).
        rewrite Hr2 in Hr. simplify_eq.
        rewrite (getType_new _ _ _ Hs), Ht, duplicate_type in Hty by apply Hwf. done. }
  unfold point_geometry_part in Hf.
  destruct (OGR_ST_GetType tool); try done; try (by destruct (Hogr Hf)).
  destruct (OGRSTLabelTextString tool) as [label_string |] eqn:El;
    [| by rewrite getSymbolForLabel_none in Hf].
  exists tool, label_string. unfold getDescription.
  destruct (text_symbols st !! label_key tool) as [q |] eqn:Ek.
  - destruct (getSymbolForLabel_hit tool st label_string q El Ek) as (st2 & Hr & Hs & _).
    rewrite Hr in Hf. simplify_eq. rewrite Hs.
    destruct (proj1 (getType_Some _ _ _) (wf_text _ Hwf _ _ Ek)) as (s & Hl & _).
    by rewrite list_lookup_alter_eq, Hl.
  - destruct (getSymbolForLabel_miss tool st label_string El Ek) as (s & st2 & Hr & Hs & _ & Hd & _).
    rewrite Hr in Hf. simplify_eq. rewrite Hs, lookup_app_r by lia.
    by rewrite Nat.sub_diag.
Qed.

Lemma importPointGeometry_reachable feature geometry st :
  wf st -> is_unreachable (importPointGeometry feature geometry st).1 = false.
Proof.
  intros Hwf. unfold importPointGeometry.
  destruct (getSymbol Symbol.Point (OGR_F_GetStyleString feature) st) as [symbol st1] eqn:Eg.
  destruct (getType st1 symbol) as [[] |] eqn:Ety; try done.
  - cbv zeta. by destruct (QString_toDouble _).
  - destruct (getSymbol_Point_description _ _ _ _ Hwf Eg Ety) as (tool & label_string & Hd).
    cbv zeta. rewrite Hd, label_description_anchor.
    unfold applyLabelAnchor_object.
    pose proof (label_anchor_range tool) as Hr.
    generalize dependent (label_anchor tool). intros a Hr.
    generalize (label_description tool label_string). intros description.
    repeat case_match; try done; simplify_eq.
    all: match goal with
         | H : applyLabelAnchor ?x ?t = None |- _ =>
             destruct (applyLabelAnchor_Some x t Hr) as [t' Ht]; congruence
         end.
Qed.

(** C10.  The description [getSymbolForLabel] packs reads back, at the
    two characters [importPointGeometry] takes the anchor from, as the
    anchor parameter bound to 1..12, or 1 without the parameter; the
    anchor read is therefore in 1..12, [applyLabelAnchor] has an
    alignment for it, and in no state of an import does
    [importPointGeometry] meet an unreachable branch. *)
Theorem packed_anchor_in_range tool label_string feature geometry st (t : Alignment) :
  importing st ->
  QString_toInt (QStringRef (label_description tool label_string) 1 2)
  = Some (match OGRSTLabelAnchor tool with None => 1 | Some a => qBound 1 a 12 end)
  /\ 1 <= match OGRSTLabelAnchor tool with None => 1 | Some a => qBound 1 a 12 end <= 12
  /\ is_Some (applyLabelAnchor
                (match OGRSTLabelAnchor tool with None => 1 | Some a => qBound 1 a 12 end) t)
  /\ is_unreachable (importPointGeometry feature geometry st).1 = false.
Proof.
  intros Hst. fold (label_anchor tool).
  split; [apply label_description_anchor |].
  split; [apply label_anchor_range |].
  split; [apply applyLabelAnchor_Some, label_anchor_range |].
  by apply importPointGeometry_reachable, importing_wf.
Qed.

(** ** Paths from line strings and polygons *)

Lemma set_parts_set_parts ps qs o : set_parts ps (set_parts qs o) = set_parts ps o.
Proof. done. Qed.

Lemma add_to_last_part_app c ps p :
  add_to_last_part c (ps ++ [p]) = ps ++ [mkPathPart (part_coords p ++ [c]) (part_closed p)].
Proof.
  induction ps as [| q ps IH]; [done |].
  simpl. rewrite IH. by destruct (ps ++ [p]) eqn:E; [destruct ps |].
Qed.

(** Adding to a path that has a part extends the last part. *)
Lemma add_coordinates_last coords o ps p :
  obj_parts o = ps ++ [p] ->
  add_coordinates coords false o
  = set_parts (ps ++ [mkPathPart (part_coords p ++ coords) (part_closed p)]) o.
Proof.
  revert o p. induction coords as [| c coords IH]; intros o p Hp; simpl.
  - rewrite app_nil_r. destruct o, p. simpl in *. by subst.
  - assert (E : addCoordinate c false o
                = set_parts (ps ++ [mkPathPart (part_coords p ++ [c]) (part_closed p)]) o).
    { unfold addCoordinate. rewrite Hp, <- add_to_last_part_app.
      by destruct (ps ++ [p]) eqn:E; [destruct ps |]. }
    rewrite E. erewrite IH by reflexivity. simpl. by rewrite <- app_assoc.
Qed.

(** Adding with [start_new_part] appends one part with the coordinates. *)
Lemma add_coordinates_new c coords o :
  add_coordinates (c :: coords) true o
  = set_parts (obj_parts o ++ [mkPathPart (c :: coords) false]) o.
Proof.
  simpl.
  assert (E : addCoordinate c true o = set_parts (obj_parts o ++ [mkPathPart [c] false]) o)
    by (unfold addCoordinate; by destruct (obj_parts o)).
  rewrite E. erewrite add_coordinates_last by reflexivity. done.
Qed.

(** The first coordinates of a path make its first part. *)
Lemma add_coordinates_first c coords o :
  obj_parts o = [] ->
  add_coordinates (c :: coords) false o = set_parts [mkPathPart (c :: coords) false] o.
Proof.
  intros Hp. simpl.
  assert (E : addCoordinate c false o = set_parts ([] ++ [mkPathPart [c] false]) o)
    by (unfold addCoordinate; by rewrite Hp).
  rewrite E. erewrite add_coordinates_last by reflexivity. done.
Qed.

(** The rings that have points. *)
Definition has_points (g : OGRGeometry) : bool :=
  match OGR_G_points g with [] => false | _ => true end.

Lemma add_holes_parts st holes o :
  add_holes st holes o
  = set_parts (obj_parts o
               ++ List.map (fun hole => mkPathPart (map_coords st hole) false)
                    (List.filter has_points holes)) o.
Proof.
  revert o. induction holes as [| hole holes IH]; intros o; simpl.
  - rewrite app_nil_r. by destruct o.
  - rewrite IH. unfold has_points, map_coords.
    destruct (OGR_G_points hole) as [| pt pts] eqn:Ep; simpl; [done |].
    assert (E : addCoordinate (toMapCoord st pt.1 pt.2) true o
                = set_parts (obj_parts o ++ [mkPathPart [toMapCoord st pt.1 pt.2] false]) o)
      by (unfold addCoordinate; by destruct (obj_parts o)).
    rewrite E. erewrite add_coordinates_last by reflexivity. simpl.
    rewrite !set_parts_set_parts, <- app_assoc, Ep. done.
Qed.

(** The object and the state [importLineStringGeometry] returns. *)
Lemma importLineStringGeometry_object feature geometry st :
  if decide (length (OGR_G_points (as_line_string geometry)) < 2)%nat
  then importLineStringGeometry feature geometry st = (None, count_too_few_coordinates st)
       /\ too_few_coordinates (importLineStringGeometry feature geometry st).2
          = too_few_coordinates st + 1
  else importLineStringGeometry feature geometry st
       = (Some (set_parts [mkPathPart (map_coords st (as_line_string geometry)) false]
                  (new_Object Object.Path
                     (getSymbol Symbol.Line (OGR_F_GetStyleString feature) st).1)),
          (getSymbol Symbol.Line (OGR_F_GetStyleString feature) st).2)
       /\ too_few_coordinates (importLineStringGeometry feature geometry st).2
          = too_few_coordinates st.
Proof.
  unfold importLineStringGeometry. cbv zeta. case_decide as Hn; [done |].
  pose proof (getSymbol_context Symbol.Line (OGR_F_GetStyleString feature) st) as Hctx.
  destruct (getSymbol Symbol.Line (OGR_F_GetStyleString feature) st) as [symbol st1].
  simpl in Hctx. split; [| apply Hctx]. simpl. f_equal. f_equal.
  assert (Hc : map_coords st1 (as_line_string geometry) = map_coords st (as_line_string geometry)).
  { unfold map_coords. apply map_ext. intros p. by apply toMapCoord_kept. }
  rewrite Hc. unfold map_coords in *.
  destruct (OGR_G_points (as_line_string geometry)) as [| pt pts]; [simpl in Hn; lia |].
  simpl List.map. by rewrite add_coordinates_first.
Qed.

(** C4.  A line string that, reduced to a simple line, has fewer than
    2 points gives no object and counts once as "too few coordinates".
    Otherwise the result is a path object with the symbol of the line
    lookup, the state is the one that lookup leaves and the counter
    stays; the parts of the object ([obj_parts]) are one part, not
    closed, whose coordinates are the map coordinates of all points of
    the line in order.  For 2 points the one part has both
    coordinates. *)
Theorem importLineStringGeometry_parts feature geometry st :
  if decide (length (OGR_G_points (as_line_string geometry)) < 2)%nat
  then importLineStringGeometry feature geometry st = (None, count_too_few_coordinates st)
       /\ too_few_coordinates (importLineStringGeometry feature geometry st).2
          = too_few_coordinates st + 1
  else importLineStringGeometry feature geometry st
       = (Some (set_parts [mkPathPart (map_coords st (as_line_string geometry)) false]
                  (new_Object Object.Path
                     (getSymbol Symbol.Line (OGR_F_GetStyleString feature) st).1)),
          (getSymbol Symbol.Line (OGR_F_GetStyleString feature) st).2)
       /\ too_few_coordinates (importLineStringGeometry feature geometry st).2
          = too_few_coordinates st
       /\ exists object,
            (importLineStringGeometry feature geometry st).1 = Some object
            /\ obj_type object = Object.Path
            /\ obj_symbol object = (getSymbol Symbol.Line (OGR_F_GetStyleString feature) st).1
            /\ obj_parts object
               = [mkPathPart
                    (List.map (fun p => toMapCoord st p.1 p.2)
                       (OGR_G_points (as_line_string geometry)))
                    false]
            /\ (forall p q,
                  OGR_G_points (as_line_string geometry) = [p; q] ->
                  obj_parts object
                  = [mkPathPart [toMapCoord st p.1 p.2; toMapCoord st q.1 q.2] false]).
Proof.
  pose proof (importLineStringGeometry_object feature geometry st) as H.
  case_decide as Hn; [exact H |]. destruct H as [H Hc].
  split; [exact H |]. split; [exact Hc |]. rewrite H.
  eexists. split; [reflexivity |]. cbn [obj_type obj_symbol obj_parts set_parts new_Object].
  repeat split. intros p q E. unfold map_coords. by rewrite E.
Qed.

(** The object and the state [importPolygonGeometry] returns. *)
Lemma importPolygonGeometry_object feature geometry st :
  match OGR_G_geometries geometry with
  | [] =>
      importPolygonGeometry feature geometry st = (None, count_too_few_coordinates st)
      /\ too_few_coordinates (importPolygonGeometry feature geometry st).2
         = too_few_coordinates st + 1
  | outline :: holes =>
      if decide (length (OGR_G_points (as_line_string outline)) < 3)%nat
      then importPolygonGeometry feature geometry st = (None, count_too_few_coordinates st)
           /\ too_few_coordinates (importPolygonGeometry feature geometry st).2
              = too_few_coordinates st + 1
      else importPolygonGeometry feature geometry st
           = (Some (set_parts
                      (List.map (fun ring => mkPathPart (map_coords st ring) true)
                         (as_line_string outline :: List.filter has_points holes))
                      (new_Object Object.Path
                         (getSymbol Symbol.Area (OGR_F_GetStyleString feature) st).1)),
              (getSymbol Symbol.Area (OGR_F_GetStyleString feature) st).2)
           /\ too_few_coordinates (importPolygonGeometry feature geometry st).2
              = too_few_coordinates st
  end.
Proof.
  unfold importPolygonGeometry. destruct (OGR_G_geometries geometry) as [| outline holes]; [done |].
  cbv zeta. case_decide as Hn; [done |].
  pose proof (getSymbol_context Symbol.Area (OGR_F_GetStyleString feature) st) as Hctx.
  destruct (getSymbol Symbol.Area (OGR_F_GetStyleString feature) st) as [symbol st1].
  simpl in Hctx. split; [| apply Hctx]. simpl fst. simpl snd. f_equal. f_equal.
  assert (Hc : forall g, map_coords st1 g = map_coords st g).
  { intros g. unfold map_coords. apply map_ext. intros p. by apply toMapCoord_kept. }
  rewrite add_holes_parts.
  rewrite (List.map_ext (fun hole => mkPathPart (map_coords st1 hole) false)
             (fun hole => mkPathPart (map_coords st hole) false))
    by (intros g; by rewrite Hc).
  rewrite Hc.
  destruct (map_coords st (as_line_string outline)) as [| c cs] eqn:Ep.
  { unfold map_coords in Ep. destruct (OGR_G_points (as_line_string outline)); [simpl in Hn; lia | done]. }
  rewrite add_coordinates_first by done.
  unfold closeAllParts. simpl. by rewrite Ep, List.map_map.
Qed.

(** C5.  A polygon without rings, or whose outer ring reduced to a
    simple line has fewer than 3 points, gives no object and counts
    once as "too few coordinates".  Otherwise the result is one path
    object with the symbol of the area lookup, the state is the one
    that lookup leaves and the counter stays; the parts of the object
    ([obj_parts]) are, in order, a part with the map coordinates of the
    outer ring and, for every hole ring that has points, a part of its
    own with the map coordinates of that ring, and every part is closed
    ([part_closed]).  With one hole ring that has points these are 2
    closed parts. *)
Theorem importPolygonGeometry_parts feature geometry st :
  match OGR_G_geometries geometry with
  | [] =>
      importPolygonGeometry feature geometry st = (None, count_too_few_coordinates st)
      /\ too_few_coordinates (importPolygonGeometry feature geometry st).2
         = too_few_coordinates st + 1
  | outline :: holes =>
      if decide (length (OGR_G_points (as_line_string outline)) < 3)%nat
      then importPolygonGeometry feature geometry st = (None, count_too_few_coordinates st)
           /\ too_few_coordinates (importPolygonGeometry feature geometry st).2
              = too_few_coordinates st + 1
      else importPolygonGeometry feature geometry st
           = (Some (set_parts
                      (List.map (fun ring => mkPathPart (map_coords st ring) true)
                         (as_line_string outline :: List.filter has_points holes))
                      (new_Object Object.Path
                         (getSymbol Symbol.Area (OGR_F_GetStyleString feature) st).1)),
              (getSymbol Symbol.Area (OGR_F_GetStyleString feature) st).2)
           /\ too_few_coordinates (importPolygonGeometry feature geometry st).2
              = too_few_coordinates st
           /\ exists object,
                (importPolygonGeometry feature geometry st).1 = Some object
                /\ obj_type object = Object.Path
                /\ obj_symbol object = (getSymbol Symbol.Area (OGR_F_GetStyleString feature) st).1
                /\ List.map part_coords (obj_parts object)
                   = List.map (fun p => toMapCoord st p.1 p.2) (OGR_G_points (as_line_string outline))
                     :: List.map
                          (fun hole => List.map (fun p => toMapCoord st p.1 p.2) (OGR_G_points hole))
                          (List.filter has_points holes)
                /\ Forall (fun part => part_closed part = true) (obj_parts object)
                /\ length (obj_parts object) = S (length (List.filter has_points holes))
                /\ (forall hole,
                      holes = [hole] -> has_points hole = true ->
                      obj_parts object
                      = [mkPathPart
                           (List.map (fun p => toMapCoord st p.1 p.2)
                              (OGR_G_points (as_line_string outline)))
                           true;
                         mkPathPart
                           (List.map (fun p => toMapCoord st p.1 p.2) (OGR_G_points hole)) true])
  end.
Proof.
  pose proof (importPolygonGeometry_object feature geometry st) as H.
  destruct (OGR_G_geometries geometry) as [| outline holes]; [exact H |].
  case_decide as Hn; [exact H |]. destruct H as [H Hc].
  split; [exact H |]. split; [exact Hc |]. rewrite H.
  eexists. split; [reflexivity |]. cbn [obj_type obj_symbol obj_parts set_parts new_Object].
  split; [done |]. split; [done |]. split; [| split; [| split]].
  - cbn [List.map part_coords]. f_equal. rewrite List.map_map. done.
  - apply List.Forall_forall. intros part Hin. apply in_map_iff in Hin as (ring & <- & _). done.
  - by rewrite length_map.
  - intros hole -> Hh. cbn [List.filter]. rewrite Hh. done.
Qed.

(** ** The choice of the spatial reference *)

(** The spatial references of the layers of a data source, in order. *)
Definition layer_references (data_source : OGRDataSource) : list SRS :=
  omap (fun layer => layer ≫= OGR_L_GetSpatialRef) data_source.

(** A non-local reference that transforms to the orthographic reference. *)
Definition reachable (srs : SRS) : bool :=
  negb (OSRIsLocal srs) && bool_decide (is_Some (OCTNewCoordinateTransformation srs orthographic)).

(** A reachable projected reference whose PROJ.4 export succeeds. *)
Definition projected_reachable (srs : SRS) : bool :=
  reachable srs && OSRIsProjected srs && bool_decide (is_Some (OSRExportToProj4 srs)).

(** The vertices [handleGeometry] visits, in order. *)
Fixpoint vertices (geometry : OGRGeometry) : list (Q * Q) :=
  match geometry with
  | Geometry type points geometries =>
      match wkbFlatten type with
      | wkbPoint | wkbLineString => points
      | wkbPolygon | wkbMultiPoint | wkbMultiLineString | wkbMultiPolygon | wkbGeometryCollection =>
          flat_map vertices geometries
      | _ => []
      end
  end.

(** The vertices of a feature after the transformation: none for a
    missing or empty geometry and for a failed transformation. *)
Definition feature_vertices (transformation : Transformation) (feature : OGRFeature) : list (Q * Q) :=
  match OGR_F_GetGeometryRef feature with
  | None => []
  | Some geometry =>
      if OGR_G_IsEmpty geometry then []
      else match transformation geometry with
           | None => []
           | Some geometry => vertices geometry
           end
  end.

(** The vertices of all features that can be transformed into [srs]. *)
Definition transformable_vertices (data_source : OGRDataSource) (srs : SRS) : list (Q * Q) :=
  flat_map
    (fun layer =>
       match layer ≫= (fun l => option_map (fun r => (l, r)) (OGR_L_GetSpatialRef l)) with
       | Some (l, spatial_reference) =>
           match OCTNewCoordinateTransformation spatial_reference srs with
           | Some transformation => flat_map (feature_vertices transformation) (OGR_L_features l)
           | None => []
           end
       | None => []
       end)
    data_source.

(** The centroid of a list of vertices as the arithmetic on [double]
    gives it: on each axis the coordinates are added one by one to a
    sum that starts at zero, every sum being rounded, and the total is
    divided by the number of vertices; the origin for no vertex. *)
Definition centroid (vs : list (Q * Q)) : Q * Q :=
  match vs with
  | [] => (0, 0)%Q
  | _ =>
      (double_div (fold_left double_add (List.map fst vs) 0%Q) (inject_Z (Z.of_nat (length vs))),
       double_div (fold_left double_add (List.map snd vs) 0%Q) (inject_Z (Z.of_nat (length vs))))
  end.

(** Coordinates of a magnitude of at most 2^990: the sums of fewer
    than 2^32 such coordinates, their mean and the thousandfold of the
    mean are finite doubles, as the embedding of the arithmetic takes
    them to be. *)
Definition bounded (vs : list (Q * Q)) : bool :=
  forallb (fun v => Qle_bool (Qabs v.1) (pow2 990) && Qle_bool (Qabs v.2) (pow2 990)) vs.

Lemma handleGeometry_vertices geometry :
  forall a, handleGeometry geometry a = fold_left add_point (vertices geometry) a.
Proof.
  induction geometry as [type points geometries IH] using OGRGeometry_rect'.
  intros a. simpl. destruct (wkbFlatten type); try done;
    (revert a; induction IH as [| g gs Hg _ IHgs]; intros a; simpl; [done |];
     by rewrite fold_left_app, <- Hg, IHgs).
Qed.

Lemma handleFeature_vertices transformation a feature :
  handleFeature transformation a feature
  = fold_left add_point (feature_vertices transformation feature) a.
Proof.
  unfold handleFeature, feature_vertices.
  destruct (OGR_F_GetGeometryRef feature) as [g |]; [| done].
  destruct (OGR_G_IsEmpty g); [done |].
  destruct (transformation g); [apply handleGeometry_vertices | done].
Qed.

Lemma fold_left_flat_map {A B C} (f : C -> B -> C) (g : A -> list B) (h : C -> A -> C) l :
  (forall c a, h c a = fold_left f (g a) c) ->
  forall c, fold_left h l c = fold_left f (flat_map g l) c.
Proof.
  intros H. induction l as [| a l IH]; intros c; simpl; [done |].
  by rewrite fold_left_app, <- H, IH.
Qed.

Lemma handleLayer_vertices srs data_source a :
  fold_left (handleLayer srs) data_source a
  = fold_left add_point (transformable_vertices data_source srs) a.
Proof.
  unfold transformable_vertices. apply fold_left_flat_map. clear. intros a layer.
  unfold handleLayer. destruct layer as [l |]; simpl; [| done].
  destruct (OGR_L_GetSpatialRef l) as [r |]; simpl; [| done].
  destruct (OCTNewCoordinateTransformation r srs) as [t |]; [| done].
  apply fold_left_flat_map. intros. apply handleFeature_vertices.
Qed.

Lemma fold_add_point vs a :
  avg_x (fold_left add_point vs a) = fold_left double_add (List.map fst vs) (avg_x a)
  /\ avg_y (fold_left add_point vs a) = fold_left double_add (List.map snd vs) (avg_y a)
  /\ (0 <= num_coords a ->
      num_coords a + Z.of_nat (length vs) < unsigned_max ->
      num_coords (fold_left add_point vs a) = num_coords a + Z.of_nat (length vs)).
Proof.
  revert a. induction vs as [| v vs IH]; intros a.
  - simpl. repeat split. lia.
  - destruct (IH (add_point a v)) as (Hx & Hy & Hn). simpl fold_left.
    rewrite Hx, Hy. repeat split. intros H0 Hlt.
    assert (E : num_coords (add_point a v) = num_coords a + 1).
    { simpl. apply Z.mod_small. simpl length in Hlt. lia. }
    rewrite Hn; rewrite E; simpl length in *; lia.
Qed.

(** With fewer than 2^32 vertices, [calcAverageCoords] is the centroid
    of the vertices that can be transformed. *)
Lemma calcAverageCoords_centroid data_source srs :
  Z.of_nat (length (transformable_vertices data_source srs)) < unsigned_max ->
  calcAverageCoords data_source srs = centroid (transformable_vertices data_source srs).
Proof.
  intros Hlt. unfold calcAverageCoords. rewrite handleLayer_vertices.
  destruct (fold_add_point (transformable_vertices data_source srs) (mkAverageCoords 0 0 0))
    as (Hx & Hy & Hn).
  simpl in Hx, Hy, Hn. rewrite Hx, Hy, Hn by lia.
  unfold centroid. destruct (transformable_vertices data_source srs) as [| v vs]; [done |].
  rewrite decide_False by (simpl; lia). done.
Qed.

Definition or_else {A} (a b : option A) : option A :=
  match a with Some _ => a | None => b end.

Lemma layer_references_cons layer data_source :
  layer_references (layer :: data_source)
  = match layer ≫= OGR_L_GetSpatialRef with
    | Some r => r :: layer_references data_source
    | None => layer_references data_source
    end.
Proof. done. Qed.

Lemma projected_reachable_reachable srs : projected_reachable srs = true -> reachable srs = true.
Proof. unfold projected_reachable. by intros [[? _]%andb_true_iff _]%andb_true_iff. Qed.

(** One round of the loop over the layers, for a layer with a reference. *)
Lemma scan_layers_step layer r data_source v :
  OGR_L_GetSpatialRef layer = Some r ->
  scan_layers (Some layer :: data_source) v
  = if OSRIsLocal r then
      scan_layers data_source
        (mkSrsScan false (or_else (local_srs v) (Some r)) (suitable_srs v) (projected_srs_spec v))
    else if reachable r then
      if projected_reachable r
      then mkSrsScan false (local_srs v) (Some r) (OSRExportToProj4 r)
      else scan_layers data_source
             (mkSrsScan false (local_srs v) (or_else (suitable_srs v) (Some r))
                (projected_srs_spec v))
    else scan_layers data_source
           (mkSrsScan false (local_srs v) (suitable_srs v) (projected_srs_spec v)).
Proof.
  intros Er. simpl scan_layers. rewrite Er. cbv zeta.
  unfold projected_reachable, reachable. simpl local_srs. simpl suitable_srs.
  simpl projected_srs_spec. simpl no_srs.
  destruct (OSRIsLocal r); simpl.
  - by destruct (local_srs v).
  - destruct (OCTNewCoordinateTransformation r orthographic) as [t |].
    + rewrite bool_decide_eq_true_2 by eauto. simpl.
      destruct (OSRIsProjected r); simpl.
      * destruct (OSRExportToProj4 r) as [spec |].
        -- by rewrite bool_decide_eq_true_2 by eauto.
        -- rewrite bool_decide_eq_false_2 by (by intros [? ?]). by destruct (suitable_srs v).
      * by destruct (suitable_srs v).
    + rewrite bool_decide_eq_false_2 by (by intros [? ?]). done.
Qed.

Lemma or_else_assoc {A} (a : option A) b c : or_else (or_else a b) c = or_else a (or_else b c).
Proof. by destruct a. Qed.

(** The scan of the layers finds the first reachable projected
    reference with a PROJ.4 export, and without one the first reachable
    reference, the first local reference and whether any layer has a
    reference at all. *)
Lemma scan_layers_spec data_source v :
  projected_srs_spec v = None ->
  match List.find projected_reachable (layer_references data_source) with
  | Some srs =>
      projected_srs_spec (scan_layers data_source v) = OSRExportToProj4 srs
      /\ suitable_srs (scan_layers data_source v) = Some srs
      /\ is_Some (OSRExportToProj4 srs)
  | None =>
      projected_srs_spec (scan_layers data_source v) = None
      /\ suitable_srs (scan_layers data_source v)
         = or_else (suitable_srs v) (List.find reachable (layer_references data_source))
      /\ local_srs (scan_layers data_source v)
         = or_else (local_srs v) (List.find OSRIsLocal (layer_references data_source))
      /\ no_srs (scan_layers data_source v)
         = no_srs v && bool_decide (layer_references data_source = [])
  end.
Proof.
  revert v. induction data_source as [| [layer |] data_source IH]; intros v Hv.
  - simpl. destruct (suitable_srs v), (local_srs v), (no_srs v); done.
  - rewrite layer_references_cons. simpl mbind. simpl option_bind.
    destruct (OGR_L_GetSpatialRef layer) as [r |] eqn:Er.
    2: { simpl scan_layers. rewrite Er. by apply IH. }
    rewrite (scan_layers_step _ _ _ _ Er). cbn [List.find].
    assert (Hnil : bool_decide (r :: layer_references data_source = []) = false)
      by (by apply bool_decide_eq_false_2).
    rewrite Hnil, andb_false_r.
    destruct (OSRIsLocal r) eqn:El.
    + assert (Hr : reachable r = false) by (unfold reachable; by rewrite El).
      assert (Hp : projected_reachable r = false) by (unfold projected_reachable; by rewrite Hr).
      rewrite Hr, Hp.
      specialize (IH (mkSrsScan false (or_else (local_srs v) (Some r)) (suitable_srs v)
                        (projected_srs_spec v)) Hv).
      destruct (List.find projected_reachable (layer_references data_source)); [done |].
      destruct IH as (H1 & H2 & H3 & H4). simpl in H2, H3, H4.
      rewrite H1, H2, H3, H4, or_else_assoc. done.
    + destruct (reachable r) eqn:Hr.
      * destruct (projected_reachable r) eqn:Hp.
        -- simpl. unfold projected_reachable in Hp.
           apply andb_true_iff in Hp as [_ He%bool_decide_eq_true]. done.
        -- specialize (IH (mkSrsScan false (local_srs v) (or_else (suitable_srs v) (Some r))
                             (projected_srs_spec v)) Hv).
           destruct (List.find projected_reachable (layer_references data_source)); [done |].
           destruct IH as (H1 & H2 & H3 & H4). simpl in H2, H3, H4.
           rewrite H1, H2, H3, H4, or_else_assoc. done.
      * assert (Hp : projected_reachable r = false) by (unfold projected_reachable; by rewrite Hr).
        rewrite Hp.
        specialize (IH (mkSrsScan false (local_srs v) (suitable_srs v) (projected_srs_spec v)) Hv).
        destruct (List.find projected_reachable (layer_references data_source)); [done |].
        destruct IH as (H1 & H2 & H3 & H4). simpl in H2, H3, H4.
        rewrite H1, H2, H3, H4. done.
  - rewrite layer_references_cons. simpl mbind. simpl option_bind. apply IH, Hv.
Qed.

(** The georeferencing [importGeoreferencing] sets when no reference
    of the layers can be used: a new one, local, with the scale
    denominator and the declination of the map. *)
Definition local_georeferencing (m : Map) : Georeferencing :=
  setDeclination (declination (getGeoreferencing m))
    (setScaleDenominator (scale_denominator (getGeoreferencing m)) Georeferencing_new).

(** The georeferencing [importGeoreferencing] sets for a reference
    that can be used but is not projected: a local orthographic
    projection about the average latitude and longitude, each rounded
    to a thousandth of a degree. *)
Definition orthographic_georeferencing (data_source : OGRDataSource) (m : Map) : Georeferencing :=
  let center := calcAverageLatLon data_source in
  let latitude :=
    double_mul (round_double (1 # 1000)) (inject_Z (qRound (double_mul 1000 (fst center)))) in
  let longitude :=
    double_mul (round_double (1 # 1000)) (inject_Z (qRound (double_mul 1000 (snd center)))) in
  setDeclination (declination (getGeoreferencing m))
    (setCombinedScaleFactor 1
       (setProjectedRefPoint (0, 0)%Q
          (setProjectedCRS "" (ortho_spec latitude longitude)
             (setScaleDenominator (scale_denominator (getGeoreferencing m)) Georeferencing_new)))).

(** C1 (as amended).  The resolver prefers the first layer reference
    that is not local, transforms to the orthographic probe, is
    projected and exports to PROJ.4: it is returned as the reference
    of the map, its PROJ.4 string becomes the projected CRS of the
    document, and, the vertices being fewer than 2^32 and their
    coordinates bounded so that the sums stay finite, the projected
    reference point is the centroid, in [double] arithmetic, of all
    vertices of the features that can be transformed into it, each
    axis rounded by [std_round].  The import fails with the exception
    exactly when some layer has a reference, no layer has a local
    reference and no non-local reference transforms to the probe.
    When no non-local reference transforms to the probe and some layer
    has a local reference, the import falls back to the first local
    reference: it is returned, and the map gets a new local
    georeferencing with its scale denominator and declination.  A
    non-local reference that transforms to the probe is preferred to
    the local ones: when none of them is projected with a PROJ.4
    export, the map gets the local orthographic projection about the
    average latitude and longitude (of bounded coordinates, as before)
    and the reference made from it is returned.  Without any layer
    reference the map gets the new local georeferencing and the
    reference made from it is returned. *)
Theorem importGeoreferencing_choice data_source m :
  (forall srs,
     List.find projected_reachable (layer_references data_source) = Some srs ->
     Z.of_nat (length (transformable_vertices data_source srs)) < unsigned_max ->
     bounded (transformable_vertices data_source srs) = true ->
     exists spec,
       OSRExportToProj4 srs = Some spec
       /\ importGeoreferencing data_source m
          = (Return srs,
             setGeoreferencing
               (setProjectedRefPoint
                  (inject_Z (std_round (centroid (transformable_vertices data_source srs)).1),
                   inject_Z (std_round (centroid (transformable_vertices data_source srs)).2))
                  (setProjectedCRS "PROJ.4" spec (getGeoreferencing m))) m))
  /\ ((importGeoreferencing data_source m).1
      = Throw "The geospatial data has no suitable spatial reference."
      <-> layer_references data_source <> []
          /\ List.find OSRIsLocal (layer_references data_source) = None
          /\ List.find reachable (layer_references data_source) = None)
  /\ (forall local,
       List.find reachable (layer_references data_source) = None ->
       List.find OSRIsLocal (layer_references data_source) = Some local ->
       importGeoreferencing data_source m
       = (Return local, setGeoreferencing (local_georeferencing m) m))
  /\ (is_Some (List.find reachable (layer_references data_source)) ->
      List.find projected_reachable (layer_references data_source) = None ->
      bounded (transformable_vertices data_source geo_srs) = true ->
      importGeoreferencing data_source m
      = (Return (srsFromMap (orthographic_georeferencing data_source m)),
         setGeoreferencing (orthographic_georeferencing data_source m) m))
  /\ (layer_references data_source = [] ->
      importGeoreferencing data_source m
      = (Return (srsFromMap (local_georeferencing m)),
         setGeoreferencing (local_georeferencing m) m)).
Proof.
  pose proof (scan_layers_spec data_source (mkSrsScan true None None None) eq_refl) as Hscan.
  split; [| split; [| split; [| split]]].
  - intros srs Hfind Hlt _. rewrite Hfind in Hscan. destruct Hscan as (Hspec & Hsuit & [spec Hex]).
    exists spec. split; [done |]. unfold importGeoreferencing. cbv zeta.
    rewrite Hspec, Hsuit, Hex. by rewrite calcAverageCoords_centroid.
  - unfold importGeoreferencing. cbv zeta.
    destruct (List.find projected_reachable (layer_references data_source)) as [srs |] eqn:Hfind.
    + destruct Hscan as (Hspec & Hsuit & [spec Hex]). rewrite Hspec, Hsuit, Hex. simpl.
      split; [done |]. intros (_ & _ & Hr).
      apply find_some in Hfind as [Hin Hp]. unfold projected_reachable in Hp.
      apply andb_true_iff in Hp as [[Hp _]%andb_true_iff _].
      pose proof (find_none _ _ Hr _ Hin). congruence.
    + destruct Hscan as (Hspec & Hsuit & Hloc & Hno). rewrite Hspec, Hsuit, Hloc, Hno. simpl.
      destruct (List.find reachable (layer_references data_source)) as [s |]; simpl.
      { split; [done |]. by intros (_ & _ & ?). }
      destruct (List.find OSRIsLocal (layer_references data_source)) as [l |]; simpl.
      { split; [done |]. by intros (_ & ? & _). }
      case_bool_decide as Hrefs; simpl.
      * split; [done |]. by intros (? & _).
      * split; [done |]. done.
  - intros local Hr Hl. unfold importGeoreferencing. cbv zeta.
    destruct (List.find projected_reachable (layer_references data_source)) as [srs |] eqn:Hfind.
    { apply find_some in Hfind as [Hin Hp]. apply projected_reachable_reachable in Hp.
      pose proof (find_none _ _ Hr _ Hin). congruence. }
    destruct Hscan as (Hspec & Hsuit & Hloc & Hno). rewrite Hspec, Hsuit, Hloc, Hr, Hl. done.
  - intros [srs Hr] Hfind _. unfold importGeoreferencing. cbv zeta.
    rewrite Hfind in Hscan. destruct Hscan as (Hspec & Hsuit & _). rewrite Hspec, Hsuit, Hr. done.
  - intros Hnil. unfold importGeoreferencing. cbv zeta. rewrite Hnil in Hscan.
    destruct Hscan as (Hspec & Hsuit & Hloc & Hno). rewrite Hspec, Hsuit, Hloc, Hno. done.
Qed.

(** ** The tags of the imported objects *)

Lemma find_app_tag key (tags : list (string * string)) tag :
  KeyValueContainer.find key (tags ++ [tag])
  = match KeyValueContainer.find key tags with
    | Some v => Some v
    | None => if String.eqb (fst tag) key then Some (snd tag) else None
    end.
Proof.
  unfold KeyValueContainer.find. induction tags as [| [k v] tags IH]; simpl.
  - by destruct (String.eqb (fst tag) key).
  - destruct (String.eqb k key); [done | exact IH].
Qed.

(** [insert] never changes the value of a key that is present. *)
Lemma insert_keeps key value tag tags :
  KeyValueContainer.find key tags = Some value ->
  KeyValueContainer.find key (KeyValueContainer.insert tag tags) = Some value.
Proof.
  intros Hfind. unfold KeyValueContainer.insert.
  destruct (KeyValueContainer.contains (fst tag) tags); [done |].
  by rewrite find_app_tag, Hfind.
Qed.

Lemma insert_all_keeps key value (more tags : list (string * string)) :
  KeyValueContainer.find key tags = Some value ->
  KeyValueContainer.find key
    (fold_left (fun tags tag => KeyValueContainer.insert tag tags) more tags) = Some value.
Proof.
  revert tags. induction more as [| tag more IH]; intros tags Hfind; simpl; [done |].
  by apply IH, insert_keeps.
Qed.

(** The value of a field is the value of its tag on every object of the
    feature, whatever the object had under that key. *)
Lemma add_objects_field key value objects tags :
  KeyValueContainer.find key tags = Some value ->
  Forall (fun object => KeyValueContainer.find key (obj_tags object) = Some value)
    (add_objects objects tags).
Proof.
  revert tags. induction objects as [| object objects IH]; intros tags Hfind; simpl.
  - constructor.
  - assert (Hnext : KeyValueContainer.find key
              (if decide (0 < length (obj_tags object))%nat
               then fold_left (fun tags tag => KeyValueContainer.insert tag tags)
                      (obj_tags object) tags
               else tags) = Some value).
    { case_decide; [by apply insert_all_keeps | done]. }
    constructor; [exact Hnext | by apply IH].
Qed.

(** ** The class of the symbol a lookup returns *)

Lemma cached_as_type t st cached p : cached_as t st cached = Some p -> getType st p = Some t.
Proof.
  unfold cached_as. destruct cached as [q |]; [| done].
  destruct (getType st q) as [t' |] eqn:E; [| done]. case_decide; [| done].
  intros [= <-]. by subst.
Qed.

Lemma getLineSymbol_class K st p :
  wf st -> (getLineSymbol K st).1 = Some p ->
  getType (getLineSymbol K st).2 p = Some Symbol.Line.
Proof.
  intros Hwf. unfold getLineSymbol.
  destruct (first_symbol (line_part K) (style_parts K) st) as [[q |] st1] eqn:E; [| done].
  intros [= ->]. simpl.
  destruct (first_symbol_Some _ _ _ _ _ (line_part_quiet K) E) as (pre & tool & post & _ & _ & Hf).
  unfold line_part in Hf. destruct (OGR_ST_GetType tool); try done.
  destruct (cached_as Symbol.Line st (line_symbols st !! OGR_ST_GetStyleString tool)) as [q |] eqn:Ec.
  - rewrite (getSymbolForPen_hit _ _ _ _ Ec) in Hf. simplify_eq. by eapply cached_as_type.
  - destruct (getSymbolForPen_miss tool K st Ec) as (s & st2 & Hr & Hs & Ht & _).
    rewrite Hr in Hf. simplify_eq.
    rewrite (getType_new _ _ _ Hs), Ht, duplicate_type; [done | apply Hwf].
Qed.

Lemma getAreaSymbol_class K st p :
  wf st -> (getAreaSymbol K st).1 = Some p ->
  getType (getAreaSymbol K st).2 p = Some Symbol.Area.
Proof.
  intros Hwf. unfold getAreaSymbol.
  destruct (first_symbol (area_part K) (style_parts K) st) as [[q |] st1] eqn:E; [| done].
  intros [= ->]. simpl.
  destruct (first_symbol_Some _ _ _ _ _ (area_part_quiet K) E) as (pre & tool & post & _ & _ & Hf).
  unfold area_part in Hf. destruct (OGR_ST_GetType tool); try done.
  destruct (cached_as Symbol.Area st (area_symbols st !! OGR_ST_GetStyleString tool)) as [q |] eqn:Ec.
  - rewrite (getSymbolForBrush_hit _ _ _ _ Ec) in Hf. simplify_eq. by eapply cached_as_type.
  - destruct (getSymbolForBrush_miss tool K st Ec) as (s & st2 & Hr & Hs & Ht & _).
    rewrite Hr in Hf. simplify_eq.
    rewrite (getType_new _ _ _ Hs), Ht, duplicate_type; [done | apply Hwf].
Qed.

Lemma getSymbolForPointGeometry_class K st p :
  wf st -> (getSymbolForPointGeometry K st).1 = Some p ->
  getType (getSymbolForPointGeometry K st).2 p = Some Symbol.Point
  \/ getType (getSymbolForPointGeometry K st).2 p = Some Symbol.Text.
Proof.
  intros Hwf. unfold getSymbolForPointGeometry.
  destruct (first_symbol (point_geometry_part K) (style_parts K) st) as [[q |] st1] eqn:E; [| done].
  intros [= ->]. simpl.
  destruct (first_symbol_Some _ _ _ _ _ (point_geometry_part_quiet K) E)
    as (pre & tool & post & _ & _ & Hf).
  assert (Hogr : getSymbolForOgrSymbol tool K st = (Some p, st1) ->
    getType st1 p = Some Symbol.Point).
  { intros Hg.
    destruct (cached_as Symbol.Point st (point_symbols st !! OGR_ST_GetStyleString tool))
      as [q |] eqn:Ec.
    - rewrite (getSymbolForOgrSymbol_hit _ _ _ _ Ec) in Hg. simplify_eq. by eapply cached_as_type.
    - destruct (ogr_symbol_color_cases tool) as [H | [H | [c H]]].
      + rewrite getSymbolForOgrSymbol_none in Hg by auto. done.
      + rewrite getSymbolForOgrSymbol_none in Hg by auto. done.
      + destruct (getSymbolForOgrSymbol_miss tool K st c Ec H) as (s & st2 & Hr & Hs & Ht & _).
        rewrite Hr in Hg. simplify_eq.
        rewrite (getType_new _ _ _ Hs), Ht, duplicate_type; [done | apply Hwf]. }
  unfold point_geometry_part in Hf.
  destruct (OGR_ST_GetType tool); try done; try (left; by apply Hogr).
  right.
  destruct (OGRSTLabelTextString tool) as [label_string |] eqn:El;
    [| by rewrite getSymbolForLabel_none in Hf].
  destruct (text_symbols st !! label_key tool) as [q |] eqn:Ek.
  - destruct (getSymbolForLabel_hit tool st label_string q El Ek) as (st2 & Hr & Hs & _).
    rewrite Hr in Hf. simplify_eq.
    rewrite (getType_alter _ _ _ _ _ Hs). by apply (wf_text _ Hwf _ _ Ek).
  - destruct (getSymbolForLabel_miss tool st label_string El Ek) as (s & st2 & Hr & Hs & Ht & _).
    rewrite Hr in Hf. simplify_eq.
    rewrite (getType_new _ _ _ Hs), Ht, duplicate_type; [done | apply Hwf].
Qed.

(** The class a lookup for [type] promises: a line symbol for lines
    and combined symbols, an area symbol for areas, a point or a text
    symbol for points and texts. *)
Definition fits (type : Symbol.Type_) (found : Symbol.Type_) : Prop :=
  match type with
  | Symbol.Point | Symbol.Text => found = Symbol.Point \/ found = Symbol.Text
  | Symbol.Combined | Symbol.Line => found = Symbol.Line
  | Symbol.Area => found = Symbol.Area
  end.

Lemma getSymbol_fits type K st :
  wf st ->
  exists found, getType (getSymbol type K st).2 (getSymbol type K st).1 = Some found
                /\ fits type found.
Proof.
  intros Hwf. pose proof (getSymbol_sound type K st Hwf) as (Hwf' & _).
  unfold getSymbol in *. destruct type.
  - destruct (point_symbols st !! K) as [p |] eqn:E.
    { eexists. split; [apply (wf_point _ Hwf _ _ E) | by left]. }
    pose proof (getSymbolForPointGeometry_class K st) as Hc.
    destruct (getSymbolForPointGeometry K st) as [[p |] st1]; simpl in *.
    + destruct (Hc p Hwf eq_refl) as [H | H]; eexists; (split; [exact H |]); [by left | by right].
    + eexists. split; [apply (wf_default_point _ Hwf') | by left].
  - destruct (line_symbols st !! K) as [p |] eqn:E.
    { eexists. split; [apply (wf_line _ Hwf _ _ E) | done]. }
    pose proof (getLineSymbol_class K st) as Hc.
    destruct (getLineSymbol K st) as [[p |] st1]; simpl in *.
    + eexists. split; [exact (Hc p Hwf eq_refl) | done].
    + eexists. split; [apply (wf_default_line _ Hwf') | done].
  - destruct (area_symbols st !! K) as [p |] eqn:E.
    { eexists. split; [apply (wf_area _ Hwf _ _ E) | done]. }
    pose proof (getAreaSymbol_class K st) as Hc.
    destruct (getAreaSymbol K st) as [[p |] st1]; simpl in *.
    + eexists. split; [exact (Hc p Hwf eq_refl) | done].
    + eexists. split; [apply (wf_default_area _ Hwf') | done].
  - destruct (point_symbols st !! K) as [p |] eqn:E.
    { eexists. split; [apply (wf_point _ Hwf _ _ E) | by left]. }
    pose proof (getSymbolForPointGeometry_class K st) as Hc.
    destruct (getSymbolForPointGeometry K st) as [[p |] st1]; simpl in *.
    + destruct (Hc p Hwf eq_refl) as [H | H]; eexists; (split; [exact H |]); [by left | by right].
    + eexists. split; [apply (wf_default_point _ Hwf') | by left].
  - destruct (line_symbols st !! K) as [p |] eqn:E.
    { eexists. split; [apply (wf_line _ Hwf _ _ E) | done]. }
    pose proof (getLineSymbol_class K st) as Hc.
    destruct (getLineSymbol K st) as [[p |] st1]; simpl in *.
    + eexists. split; [exact (Hc p Hwf eq_refl) | done].
    + eexists. split; [apply (wf_default_line _ Hwf') | done].
Qed.

(** X1.  In every well-formed state of the importer, which the state
    the constructor makes is and which every operation of the importer
    keeps ([OgrFileImport_new_wf], [runs_from_wf]), [getSymbol] returns
    a pointer to a symbol of the map, never a null or dangling one (the
    assertion at its end holds), and the symbol has the class asked
    for: a line symbol for lines and combined symbols, an area symbol
    for areas, a point or a text symbol for points and texts. *)
Theorem getSymbol_class type K st :
  wf st ->
  exists s,
    map_symbols (map (getSymbol type K st).2) !! (getSymbol type K st).1 = Some s
    /\ fits type (sym_type s).
Proof.
  intros Hwf.
  destruct (getSymbol_fits type K st Hwf) as (found & (s & Hl & <-)%getType_Some & Hfit). eauto.
Qed.

(** ** Features always import *)

Lemma indexOf_lt c s i : indexOf c s = Some i -> (i < String.length s)%nat.
Proof.
  revert i. induction s as [| a s IH]; intros i; simpl; [done |].
  destruct (Ascii.eqb a c); [intros [= <-]; lia |].
  destruct (indexOf c s) as [j |]; [| done]. intros [= <-]. specialize (IH j eq_refl). lia.
Qed.

Lemma indexOf_cons c a s :
  indexOf c (String a s) = if Ascii.eqb a c then Some O else S <$> indexOf c s.
Proof. simpl. destruct (Ascii.eqb a c); [done |]. by destruct (indexOf c s). Qed.

Lemma indexOf_app c (a s : string) i :
  indexOf c s = Some i -> exists j, indexOf c (a +:+ s) = Some j.
Proof.
  intros Hs. induction a as [| x a [j IH]]; [eauto |].
  change (String x a +:+ s) with (String x (a +:+ s)). simpl.
  destruct (Ascii.eqb x c); [eauto |]. rewrite IH. eauto.
Qed.

(** A packed description has its first space behind the first
    character and inside the string: the two assertions of
    [importPointGeometry] on [split]. *)
Lemma label_description_split tool label_string :
  exists split,
    indexOf " " (label_description tool label_string) = Some split
    /\ split <> O
    /\ (split < String.length (label_description tool label_string))%nat.
Proof.
  unfold label_description.
  assert (Ea : match OGRSTLabelAnchor tool with
               | Some _ => qBound 1 (default 0 (OGRSTLabelAnchor tool)) 12
               | None => 1
               end = label_anchor tool)
    by (unfold label_anchor; by destruct (OGRSTLabelAnchor tool)).
  cbv zeta. rewrite Ea.
  destruct (anchor_numeral _ (label_anchor_range tool)) as (c1 & c2 & -> & _).
  set (rest := QString_number _ "g" 1 +:+ " " +:+ label_string).
  assert (Hrest : exists j, indexOf " " rest = Some j).
  { unfold rest. apply (indexOf_app _ _ (" " +:+ label_string) O). done. }
  destruct Hrest as [j Hj].
  destruct (indexOf_app " " (String c1 (String c2 EmptyString)) rest j Hj) as [k Hk].
  change (String "1" (String c1 (String c2 EmptyString)) +:+ rest)
    with (String "1" (String c1 (String c2 EmptyString) +:+ rest)).
  exists (S k). split; [| split].
  - rewrite indexOf_cons, Hk. done.
  - done.
  - apply indexOf_lt in Hk. cbn [String.length]. lia.
Qed.

Lemma importPointGeometry_returns feature geometry st :
  wf st -> exists object, (importPointGeometry feature geometry st).1 = Return object.
Proof.
  intros Hwf.
  pose proof (importPointGeometry_reachable feature geometry st Hwf) as Hreach.
  assert (Hthrow : forall what, (importPointGeometry feature geometry st).1 <> Throw what).
  { intros what. unfold importPointGeometry.
    destruct (getSymbol Symbol.Point (OGR_F_GetStyleString feature) st) as [symbol st1] eqn:Eg.
    destruct (getType st1 symbol) as [[] |] eqn:Ety; try done.
    - cbv zeta. by destruct (QString_toDouble _).
    - destruct (getSymbol_Point_description _ _ _ _ Hwf Eg Ety) as (tool & label_string & Hd).
      cbv zeta. rewrite Hd.
      destruct (label_description_split tool label_string) as (split & -> & Hn0 & Hlt).
      rewrite decide_False by done. rewrite decide_False by lia.
      generalize (label_description tool label_string). intros description.
      repeat case_match; done. }
  destruct (importPointGeometry feature geometry st).1 as [object | what |]; [eauto | | done].
  by destruct (Hthrow what).
Qed.

(** [object_fits st o]: the symbol of [o] is a symbol of the map, of a
    class that goes with the class of the object. *)
Definition object_fits (st : OgrFileImport) (o : Object) : Prop :=
  exists found,
    getType st (obj_symbol o) = Some found
    /\ match obj_type o with
       | Object.Point => found = Symbol.Point
       | Object.Text => found = Symbol.Text
       | Object.Path => found = Symbol.Line \/ found = Symbol.Area
       end.

Lemma frame_getType st st' p t : frame st st' -> getType st p = Some t -> getType st' p = Some t.
Proof.
  intros Hf (s & Hs & <-)%getType_Some. destruct (Hf p s Hs) as (s' & Hs' & E & _).
  apply getType_Some. exists s'. split; [done |]. by rewrite E.
Qed.

Lemma object_fits_frame st st' o : frame st st' -> object_fits st o -> object_fits st' o.
Proof. intros Hf (found & Ht & Hc). exists found. split; [by eapply frame_getType | done]. Qed.

Lemma add_coordinates_symbol coords b o :
  obj_symbol (add_coordinates coords b o) = obj_symbol o
  /\ obj_type (add_coordinates coords b o) = obj_type o.
Proof.
  revert b o. induction coords as [| c coords IH]; intros b o; simpl; [done |].
  destruct (IH false (addCoordinate c b o)) as [-> ->]. unfold addCoordinate.
  destruct (obj_parts o); [done |]. by destruct b.
Qed.

Lemma add_holes_symbol st holes o :
  obj_symbol (add_holes st holes o) = obj_symbol o /\ obj_type (add_holes st holes o) = obj_type o.
Proof.
  revert o. induction holes as [| hole holes IH]; intros o; simpl; [done |].
  destruct (IH (add_coordinates (map_coords st hole) true o)) as [-> ->].
  apply add_coordinates_symbol.
Qed.

Lemma importPointGeometry_fits feature geometry st object :
  (importPointGeometry feature geometry st).1 = Return (Some object) ->
  object_fits (importPointGeometry feature geometry st).2 object.
Proof.
  unfold importPointGeometry.
  destruct (getSymbol Symbol.Point (OGR_F_GetStyleString feature) st) as [symbol st1].
  destruct (getType st1 symbol) as [[] |] eqn:Ety; try done; cbv zeta.
  - destruct (QString_toDouble _); intros [= <-]; by exists Symbol.Point.
  - unfold applyLabelAnchor_object. repeat case_match; try done; intros [= <-]; simpl;
      simplify_eq; by exists Symbol.Text.
Qed.

Lemma importLineStringGeometry_fits feature geometry st object :
  wf st ->
  (importLineStringGeometry feature geometry st).1 = Some object ->
  object_fits (importLineStringGeometry feature geometry st).2 object.
Proof.
  intros Hwf. unfold importLineStringGeometry. cbv zeta. case_decide; [done |].
  destruct (getSymbol_fits Symbol.Line (OGR_F_GetStyleString feature) st Hwf) as (found & Ht & ->).
  destruct (getSymbol Symbol.Line (OGR_F_GetStyleString feature) st) as [symbol st1].
  intros [= <-]. unfold object_fits.
  destruct (add_coordinates_symbol (map_coords st1 (as_line_string geometry)) false
              (new_Object Object.Path symbol)) as [-> ->].
  exists Symbol.Line. split; [exact Ht | by left].
Qed.

Lemma importPolygonGeometry_fits feature geometry st object :
  wf st ->
  (importPolygonGeometry feature geometry st).1 = Some object ->
  object_fits (importPolygonGeometry feature geometry st).2 object.
Proof.
  intros Hwf. unfold importPolygonGeometry.
  destruct (OGR_G_geometries geometry) as [| outline holes]; [done |].
  cbv zeta. case_decide; [done |].
  destruct (getSymbol_fits Symbol.Area (OGR_F_GetStyleString feature) st Hwf) as (found & Ht & ->).
  destruct (getSymbol Symbol.Area (OGR_F_GetStyleString feature) st) as [symbol st1].
  intros [= <-]. unfold object_fits, closeAllParts. cbn [obj_symbol obj_type set_parts].
  destruct (add_holes_symbol st1 holes
              (add_coordinates (map_coords st1 (as_line_string outline)) false
                 (new_Object Object.Path symbol))) as [-> ->].
  destruct (add_coordinates_symbol (map_coords st1 (as_line_string outline)) false
              (new_Object Object.Path symbol)) as [-> ->].
  exists Symbol.Area. split; [exact Ht | by right].
Qed.

(** The import of a geometry returns, and its objects fit their symbols. *)
Lemma importGeometry_returns feature geometry :
  forall st, wf st ->
    exists objects,
      (importGeometry feature geometry st).1 = Return objects
      /\ Forall (object_fits (importGeometry feature geometry st).2) objects.
Proof.
  induction geometry as [type points geometries IH] using OGRGeometry_rect'.
  intros st Hwf. simpl.
  assert (Hcoll : forall st, wf st ->
    exists objects,
      (importGeometryCollection_with (importGeometry feature) geometries st).1 = Return objects
      /\ Forall (object_fits
                   (importGeometryCollection_with (importGeometry feature) geometries st).2)
           objects).
  { clear st Hwf. induction IH as [| g geometries Hg Hall IHl]; intros st Hwf; simpl.
    - eauto.
    - destruct (Hg st Hwf) as (tmp & Etmp & Htmp).
      destruct (importGeometry_sound feature g st Hwf) as (Hwf1 & _).
      destruct (importGeometry feature g st) as [r1 st1]. simpl in *. subst r1.
      destruct (IHl st1 Hwf1) as (result & Eres & Hres).
      pose proof (importGeometry_sound feature
                    (Geometry (mkGeometryType wkbGeometryCollection false) [] geometries)
                    st1 Hwf1) as (_ & Hframe & _).
      simpl in Hframe.
      destruct (importGeometryCollection_with (importGeometry feature) geometries st1)
        as [r2 st2]. simpl in *. subst r2.
      eexists. split; [reflexivity |]. apply Forall_app. split; [| done].
      eapply Forall_impl; [exact Htmp |]. intros o. by apply object_fits_frame. }
  destruct (wkbFlatten type); try (by apply Hcoll); try (by eexists; split; [reflexivity |]).
  - destruct (importPointGeometry_returns feature (Geometry type points geometries) st Hwf)
      as [object Eo].
    pose proof (importPointGeometry_fits feature (Geometry type points geometries) st) as Hfit.
    destruct (importPointGeometry feature _ st) as [r st1]. simpl in *. subst r.
    eexists. split; [reflexivity |]. destruct object as [o |]; simpl; [| done].
    constructor; [by apply Hfit | done].
  - pose proof (importLineStringGeometry_fits feature (Geometry type points geometries) st) as Hfit.
    destruct (importLineStringGeometry feature _ st) as [object st1]. simpl in *.
    eexists. split; [reflexivity |]. destruct object as [o |]; simpl; [| done].
    constructor; [by apply Hfit | done].
  - pose proof (importPolygonGeometry_fits feature (Geometry type points geometries) st) as Hfit.
    destruct (importPolygonGeometry feature _ st) as [object st1]. simpl in *.
    eexists. split; [reflexivity |]. destruct object as [o |]; simpl; [| done].
    constructor; [by apply Hfit | done].
Qed.

Lemma add_objects_fits st objects tags :
  Forall (object_fits st) objects -> Forall (object_fits st) (add_objects objects tags).
Proof.
  intros H. revert tags. induction H as [| o objects Ho _ IH]; intros tags; simpl; [done |].
  constructor; [exact Ho | apply IH].
Qed.

Lemma handleKmlOverlayIcon_fits st objects tags :
  Forall (object_fits st) objects -> Forall (object_fits st) (handleKmlOverlayIcon objects tags).
Proof. intros H. unfold handleKmlOverlayIcon. repeat case_match; done. Qed.

(** X2.  In every well-formed state of the importer, which the state
    the constructor makes is and which every operation of the importer
    keeps, the import of a feature returns a list of objects: the
    assertions of [importPointGeometry] on the packed description hold
    and no unreachable branch is met, whatever the feature, its
    geometry and the clipping are. *)
Theorem importFeature_returns feature geometry clipping st :
  wf st ->
  exists objects, (importFeature feature geometry clipping st).1 = Return objects.
Proof.
  intros Hwf. unfold importFeature.
  destruct (setSRS_sound (OGR_G_GetSpatialReference feature) st Hwf) as (Hwf1 & _).
  destruct (setSRS _ st) as [[|] st1]; simpl in Hwf1; [| eauto].
  cbv zeta.
  match goal with |- context [match ?t with Some _ => _ | None => _ end] =>
    destruct t as [g |] end; [| eauto].
  destruct (importGeometry_returns feature g st1 Hwf1) as (objects & E & _).
  destruct (importGeometry feature g st1) as [r st2]. simpl in E. subst r. eauto.
Qed.

(** X3.  In every well-formed state of the importer and without
    clipping, every object the import of a feature adds to the map has
    a symbol of the map that goes with its class: a point object a
    point symbol, a text object a text symbol, a path object a line or
    an area symbol. *)
Theorem importFeature_objects_fit feature geometry st :
  wf st ->
  exists objects,
    (importFeature feature geometry None st).1 = Return objects
    /\ Forall (object_fits (importFeature feature geometry None st).2) objects.
Proof.
  intros Hwf. unfold importFeature.
  destruct (setSRS_sound (OGR_G_GetSpatialReference feature) st Hwf) as (Hwf1 & _).
  destruct (setSRS _ st) as [[|] st1]; simpl in Hwf1; [| eauto].
  cbv zeta.
  match goal with |- context [match ?t with Some _ => _ | None => _ end] =>
    destruct t as [g |] end; [| eauto].
  destruct (importGeometry_returns feature g st1 Hwf1) as (objects & E & Hfit).
  destruct (importGeometry feature g st1) as [r st2]. simpl in E, Hfit. subst r.
  eexists. split; [reflexivity |]. simpl. apply add_objects_fits.
  case_decide; [by apply handleKmlOverlayIcon_fits | done].
Qed.

(** ** What an import never changes *)

Section Settings.

(** A reading [setting] of the importer that the writes of a lookup
    (to the map, the color cache and the symbol caches) leave alone. *)
Context {A : Type} (setting : OgrFileImport -> A).

Hypothesis setting_map : forall x st, setting (set_map x st) = setting st.
Hypothesis setting_colors : forall x st, setting (set_colors x st) = setting st.
Hypothesis setting_point_symbols : forall x st, setting (set_point_symbols x st) = setting st.
Hypothesis setting_text_symbols : forall x st, setting (set_text_symbols x st) = setting st.
Hypothesis setting_line_symbols : forall x st, setting (set_line_symbols x st) = setting st.
Hypothesis setting_area_symbols : forall x st, setting (set_area_symbols x st) = setting st.

Ltac solve_setting :=
  repeat first
    [ rewrite setting_map | rewrite setting_colors | rewrite setting_point_symbols
    | rewrite setting_text_symbols | rewrite setting_line_symbols
    | rewrite setting_area_symbols ];
  try reflexivity.

Lemma makeColor_setting color_string st : setting (makeColor color_string st).2 = setting st.
Proof using setting_map setting_colors.
  unfold makeColor. destruct (colors_value st color_string); [done |].
  destruct (OGR_ST_GetRGBFromString color_string) as [[[[r g] b] a] |]; [| cbn [fst snd]; solve_setting].
  destruct (0 <? a); cbn [fst snd]; solve_setting.
Qed.

Lemma getSymbolForPen_setting tool K st : setting (getSymbolForPen tool K st).2 = setting st.
Proof using setting_map setting_colors setting_line_symbols.
  unfold getSymbolForPen. destruct (cached_as Symbol.Line st _); [done |].
  unfold applyPenColor. destruct (OGRSTPenColor tool) as [c |].
  - pose proof (makeColor_setting c st) as H. destruct (makeColor c st) as [color st1].
    simpl in H. rewrite <- H. case_decide; cbn [fst snd]; solve_setting.
  - case_decide; cbn [fst snd]; solve_setting.
Qed.

Lemma getSymbolForBrush_setting tool K st : setting (getSymbolForBrush tool K st).2 = setting st.
Proof using setting_map setting_colors setting_area_symbols.
  unfold getSymbolForBrush. destruct (cached_as Symbol.Area st _); [done |].
  unfold applyBrushColor. destruct (OGRSTBrushFColor tool) as [c |].
  - pose proof (makeColor_setting c st) as H. destruct (makeColor c st) as [color st1].
    simpl in H. rewrite <- H. case_decide; cbn [fst snd]; solve_setting.
  - case_decide; cbn [fst snd]; solve_setting.
Qed.

Lemma getSymbolForOgrSymbol_setting tool K st :
  setting (getSymbolForOgrSymbol tool K st).2 = setting st.
Proof using setting_map setting_colors setting_point_symbols.
  unfold getSymbolForOgrSymbol. destruct (cached_as Symbol.Point st _); [done |].
  destruct (ogr_symbol_color tool) as [[c |] |]; [| done | done].
  pose proof (makeColor_setting c st) as H. destruct (makeColor c st) as [color st1].
  simpl in H. rewrite <- H.
  destruct (decide (K = OGR_ST_GetStyleString tool));
    destruct (decide (OGR_ST_GetType tool = OGRSTCSymbol));
    try destruct (OGRSTSymbolAngle tool); cbn [fst snd]; solve_setting.
Qed.

Lemma getSymbolForLabel_setting tool st : setting (getSymbolForLabel tool st).2 = setting st.
Proof using setting_map setting_colors setting_text_symbols.
  unfold getSymbolForLabel. destruct (OGRSTLabelTextString tool); [| done].
  cbv zeta. destruct (text_symbols st !! _); [cbn [fst snd]; solve_setting |].
  pose proof (makeColor_setting (c_str (OGRSTLabelFColor tool)) st) as H.
  destruct (makeColor (c_str (OGRSTLabelFColor tool)) st) as [color st1].
  simpl in H. rewrite <- H. cbn [fst snd]. solve_setting.
Qed.

Lemma first_symbol_setting f parts st :
  (forall tool st, setting (f tool st).2 = setting st) ->
  setting (first_symbol f parts st).2 = setting st.
Proof using Type.
  intros Hf. revert st. induction parts as [| [tool |] parts IH]; intros st; simpl.
  - done.
  - pose proof (Hf tool st) as H. destruct (f tool st) as [[symbol |] st1]; simpl in *.
    + exact H.
    + by rewrite IH.
  - apply IH.
Qed.

Lemma getSymbol_setting type K st : setting (getSymbol type K st).2 = setting st.
Proof using setting_map setting_colors setting_point_symbols setting_text_symbols
  setting_line_symbols setting_area_symbols.
  assert (Hpoint : forall tool st, setting (point_geometry_part K tool st).2 = setting st).
  { intros tool st0. unfold point_geometry_part.
    destruct (OGR_ST_GetType tool);
      auto using getSymbolForOgrSymbol_setting, getSymbolForLabel_setting. }
  assert (Hline : forall tool st, setting (line_part K tool st).2 = setting st).
  { intros tool st0. unfold line_part. destruct (OGR_ST_GetType tool); try done.
    pose proof (getSymbolForPen_setting tool K st0). by destruct (getSymbolForPen tool K st0). }
  assert (Harea : forall tool st, setting (area_part K tool st).2 = setting st).
  { intros tool st0. unfold area_part. destruct (OGR_ST_GetType tool); try done.
    pose proof (getSymbolForBrush_setting tool K st0). by destruct (getSymbolForBrush tool K st0). }
  pose proof (first_symbol_setting _ (style_parts K) st Hpoint) as H1.
  pose proof (first_symbol_setting _ (style_parts K) st Hline) as H2.
  pose proof (first_symbol_setting _ (style_parts K) st Harea) as H3.
  unfold getSymbol, getSymbolForPointGeometry, getLineSymbol, getAreaSymbol.
  destruct type.
  - destruct (point_symbols st !! K); [done |].
    by destruct (first_symbol (point_geometry_part K) _ st) as [[s |] st1].
  - destruct (line_symbols st !! K); [done |].
    by destruct (first_symbol (line_part K) _ st) as [[s |] st1].
  - destruct (area_symbols st !! K); [done |].
    by destruct (first_symbol (area_part K) _ st) as [[s |] st1].
  - destruct (point_symbols st !! K); [done |].
    by destruct (first_symbol (point_geometry_part K) _ st) as [[s |] st1].
  - destruct (line_symbols st !! K); [done |].
    by destruct (first_symbol (line_part K) _ st) as [[s |] st1].
Qed.

End Settings.

(** [steady st st']: from [st] to [st'] the georeferencing of the map,
    the reference of the map, the unit type and the driver name are
    the same, no empty geometry was counted, and no counter went down. *)
Definition steady (st st' : OgrFileImport) : Prop :=
  getGeoreferencing (map st') = getGeoreferencing (map st)
  /\ map_srs st' = map_srs st /\ unit_type st' = unit_type st /\ driver_name st' = driver_name st
  /\ empty_geometries st' = empty_geometries st
  /\ no_transformation st <= no_transformation st'
  /\ failed_transformation st <= failed_transformation st'
  /\ unsupported_geometry_type st <= unsupported_geometry_type st'
  /\ too_few_coordinates st <= too_few_coordinates st'.

Lemma steady_refl st : steady st st.
Proof. unfold steady. repeat split; lia. Qed.

Lemma steady_trans st1 st2 st3 : steady st1 st2 -> steady st2 st3 -> steady st1 st3.
Proof.
  unfold steady. intros (-> & -> & -> & -> & -> & ? & ? & ? & ?) (-> & -> & -> & -> & -> & ? & ? & ? & ?).
  repeat split; lia.
Qed.

Lemma getSymbol_steady type K st : steady st (getSymbol type K st).2.
Proof.
  destruct (getSymbol_context type K st) as (He & Hn & Hf & Hu & Ht & _ & Hg).
  unfold steady. rewrite He, Hn, Hf, Hu, Ht, Hg.
  rewrite (getSymbol_setting map_srs), (getSymbol_setting unit_type),
    (getSymbol_setting driver_name) by done.
  repeat split; lia.
Qed.

Ltac solve_steady := unfold steady; simpl_state; repeat split; lia.

Lemma setSRS_steady srs st : steady st (setSRS srs st).2.
Proof.
  unfold setSRS. destruct srs as [s |]; cbv zeta.
  - case_decide; [solve_steady |].
    destruct (OCTNewCoordinateTransformation s _); solve_steady.
  - case_decide; solve_steady.
Qed.

Lemma importGeometry_steady feature geometry :
  forall st, steady st (importGeometry feature geometry st).2.
Proof.
  induction geometry as [type points geometries IH] using OGRGeometry_rect'.
  intros st. simpl.
  assert (Hcoll : forall st,
    steady st (importGeometryCollection_with (importGeometry feature) geometries st).2).
  { clear st. induction IH as [| g geometries Hg _ IHl]; intros st; simpl.
    - apply steady_refl.
    - pose proof (Hg st) as H1.
      destruct (importGeometry feature g st) as [[tmp | what |] st1]; simpl in *; try exact H1.
      pose proof (IHl st1) as H2.
      destruct (importGeometryCollection_with (importGeometry feature) geometries st1)
        as [[result | what |] st2]; simpl in *; by eapply steady_trans. }
  destruct (wkbFlatten type); try apply Hcoll.
  - solve_steady.
  - pose proof (importPointGeometry_state feature (Geometry type points geometries) st) as E.
    destruct (importPointGeometry feature _ st) as [[object | what |] st1];
      cbn [fst snd] in *; rewrite E; apply getSymbol_steady.
  - destruct (importLineStringGeometry_state feature (Geometry type points geometries) st) as [E | E];
      destruct (importLineStringGeometry feature _ st) as [object st1]; cbn [fst snd] in *;
      rewrite E; [solve_steady | apply getSymbol_steady].
  - destruct (importPolygonGeometry_state feature (Geometry type points geometries) st) as [E | E];
      destruct (importPolygonGeometry feature _ st) as [object st1]; cbn [fst snd] in *;
      rewrite E; [solve_steady | apply getSymbol_steady].
  - solve_steady.
Qed.

Lemma importFeature_steady feature geometry clipping st :
  steady st (importFeature feature geometry clipping st).2.
Proof.
  unfold importFeature. pose proof (setSRS_steady (OGR_G_GetSpatialReference feature) st) as H1.
  destruct (setSRS _ st) as [[|] st1]; simpl in H1; [| exact H1].
  cbv zeta.
  match goal with |- context [match ?t with Some _ => _ | None => _ end] =>
    destruct t as [g |] end.
  - pose proof (importGeometry_steady feature g st1) as H2.
    destruct (importGeometry feature g st1) as [[objects | what |] st2]; simpl in *;
      by eapply steady_trans.
  - eapply steady_trans; [exact H1 | solve_steady].
Qed.

(** X4.  Whatever symbol lookups and feature imports an import runs
    through, the georeferencing of the map, the reference of the map,
    the unit type and the driver name stay as they were, the counter
    of empty geometries is not touched, and none of the other four
    counters of skipped objects ever goes down. *)
Theorem imports_from_steady st st' :
  imports_from st st' ->
  getGeoreferencing (map st') = getGeoreferencing (map st)
  /\ map_srs st' = map_srs st /\ unit_type st' = unit_type st /\ driver_name st' = driver_name st
  /\ empty_geometries st' = empty_geometries st
  /\ no_transformation st <= no_transformation st'
  /\ failed_transformation st <= failed_transformation st'
  /\ unsupported_geometry_type st <= unsupported_geometry_type st'
  /\ too_few_coordinates st <= too_few_coordinates st'.
Proof.
  induction 1 as [st | st1 st2 st3 Hstep _ IH].
  - apply steady_refl.
  - eapply steady_trans; [| exact IH].
    destruct Hstep; [apply getSymbol_steady | apply importFeature_steady].
Qed.

(** ** Importing a layer *)

(** [OGR_L_GetExtent(layer, &envelope, false)]: [None] unless the
    result is [OGRERR_NONE], else MinX, MaxX, MinY, MaxY. *)
Variable OGR_L_GetExtent : OGRLayer -> option (Q * Q * Q * Q).

(** [OGR_L_TestCapability(layer, OLCFastGetExtent)]. *)
Variable OGR_L_TestCapability_FastGetExtent : OGRLayer -> bool.

(** [ClippingImplementation(boundary)] and its [process(objects)]. *)
Variable ClippingImplementation : list MapCoord -> list Object -> list Object.

Definition wkbLinearRing : OGRwkbGeometryType := mkGeometryType (wkbOther 101) false.

(** The ring [getLayerClipping] builds from the envelope. *)
Definition envelope_ring (envelope : Q * Q * Q * Q) : OGRGeometry :=
  let '(MinX, MaxX, MinY, MaxY) := envelope in
  Geometry wkbLinearRing
    [(MinX, MinY); (MaxX, MinY); (MaxX, MaxY); (MinX, MaxY); (MinX, MinY)] [].

(** [OgrFileImport::getLayerClipping]: the clipping for the extent of
    the layer, if any.  The boundary has the five corners in map
    coordinates, the last being the close point. *)
Definition getLayerClipping (layer : OGRLayer) (st : OgrFileImport)
  : option (list Object -> list Object) * OgrFileImport :=
  match OGR_L_GetExtent layer with
  | Some envelope =>
      let outline := envelope_ring envelope in
      let layer_srs := OGR_L_GetSpatialRef layer in
      let '(ok, st) := setSRS layer_srs st in
      let transformed :=
        if ok then
          match layer_srs with
          | Some _ =>
              match data_transform st with
              | Some transformation => transformation outline
              | None => None
              end
          | None => Some outline
          end
        else Some outline in
      match transformed with
      | None => (None, count_failed_transformation st)
      | Some outline =>
          let coords := List.map (point_at st outline) (seq 0 5) in
          (Some (ClippingImplementation coords), st)
      end
  | None => (None, st)
  end.

(** The [while] loop of [importLayer] over the features: a feature
    without geometry or with an empty one is counted, the others are
    imported, their objects entering the map part in order. *)
Fixpoint importLayer_features (features : list OGRFeature)
    (clipping : option (list Object -> list Object)) (st : OgrFileImport)
  : Outcome (list Object) * OgrFileImport :=
  match features with
  | [] => (Return [], st)
  | feature :: features =>
      match OGR_F_GetGeometryRef feature with
      | None => importLayer_features features clipping (count_empty_geometries st)
      | Some geometry =>
          if OGR_G_IsEmpty geometry
          then importLayer_features features clipping (count_empty_geometries st)
          else
            match importFeature feature geometry clipping st with
            | (Return objects, st) =>
                match importLayer_features features clipping st with
                | (Return more, st) => (Return (objects ++ more), st)
                | failure => failure
                end
            | failure => failure
            end
      end
  end.

(** [OgrFileImport::importLayer], [clip_layers] being the option of
    that name; the result lists the objects added to the map part. *)
Definition importLayer (clip_layers : bool) (layer : OGRLayer) (st : OgrFileImport)
  : Outcome (list Object) * OgrFileImport :=
  let '(clipping, st) :=
    if clip_layers && OGR_L_TestCapability_FastGetExtent layer
    then getLayerClipping layer st
    else (None, st) in
  importLayer_features (OGR_L_features layer) clipping st.

(** A feature [importLayer] counts as an empty geometry. *)
Definition empty_geometry (feature : OGRFeature) : bool :=
  match OGR_F_GetGeometryRef feature with
  | None => true
  | Some geometry => OGR_G_IsEmpty geometry
  end.

Lemma importFeature_returns_wf feature geometry clipping st :
  wf st ->
  exists objects, (importFeature feature geometry clipping st).1 = Return objects.
Proof.
  intros Hwf. unfold importFeature.
  destruct (setSRS_sound (OGR_G_GetSpatialReference feature) st Hwf) as (Hwf1 & _).
  destruct (setSRS _ st) as [[|] st1]; simpl in Hwf1; [| eauto].
  cbv zeta.
  match goal with |- context [match ?t with Some _ => _ | None => _ end] =>
    destruct t as [g |] end; [| eauto].
  destruct (importGeometry_returns feature g st1 Hwf1) as (objects & E & _).
  destruct (importGeometry feature g st1) as [r st2]. simpl in E. subst r. eauto.
Qed.

Lemma count_empty_geometries_sound st : sound_step st (count_empty_geometries st).
Proof. solve_same. Qed.

Lemma importLayer_features_counts features clipping :
  forall st, wf st ->
    exists objects,
      (importLayer_features features clipping st).1 = Return objects
      /\ empty_geometries (importLayer_features features clipping st).2
         = empty_geometries st + Z.of_nat (length (List.filter empty_geometry features)).
Proof.
  induction features as [| feature features IH]; intros st Hwf.
  - simpl. eexists. split; [done | lia].
  - cbn [importLayer_features List.filter].
    assert (Hcount : empty_geometry feature = true ->
      exists objects,
        (importLayer_features features clipping (count_empty_geometries st)).1 = Return objects
        /\ empty_geometries (importLayer_features features clipping (count_empty_geometries st)).2
           = empty_geometries st
             + Z.of_nat (length (if empty_geometry feature
                                 then feature :: List.filter empty_geometry features
                                 else List.filter empty_geometry features))).
    { intros ->. destruct (IH (count_empty_geometries st)) as (objects & E & Hc).
      - by apply count_empty_geometries_sound.
      - exists objects. split; [done |]. rewrite Hc. simpl. lia. }
    destruct (OGR_F_GetGeometryRef feature) as [geometry |] eqn:Eg;
      [| apply Hcount; unfold empty_geometry; by rewrite Eg].
    destruct (OGR_G_IsEmpty geometry) eqn:Ee;
      [apply Hcount; unfold empty_geometry; by rewrite Eg |].
    assert (Hne : empty_geometry feature = false) by (unfold empty_geometry; by rewrite Eg).
    rewrite Hne.
    destruct (importFeature_returns_wf feature geometry clipping st Hwf) as (objects & E).
    destruct (importFeature_sound feature geometry clipping st Hwf) as (Hwf1 & _).
    destruct (importFeature_steady feature geometry clipping st) as (_ & _ & _ & _ & He & _).
    destruct (importFeature feature geometry clipping st) as [r st1].
    cbn [fst snd] in *. subst r.
    destruct (IH st1 Hwf1) as (more & Em & Hc).
    destruct (importLayer_features features clipping st1) as [r st2].
    cbn [fst snd] in *. subst r.
    eexists. split; [done |]. cbn [fst snd]. rewrite Hc, He. done.
Qed.

Lemma getLayerClipping_sound layer st : sound_step st (getLayerClipping layer st).2.
Proof.
  unfold getLayerClipping. destruct (OGR_L_GetExtent layer) as [envelope |];
    [| apply sound_step_refl].
  cbv zeta. pose proof (setSRS_sound (OGR_L_GetSpatialRef layer) st) as H1.
  destruct (setSRS _ st) as [ok st1]. simpl in H1.
  match goal with |- context [match ?t with Some _ => _ | None => _ end] =>
    destruct t as [g |] end; [exact H1 |].
  eapply sound_step_trans; [exact H1 | apply count_failed_transformation_sound].
Qed.

Lemma getLayerClipping_empty layer st :
  empty_geometries (getLayerClipping layer st).2 = empty_geometries st.
Proof.
  unfold getLayerClipping. destruct (OGR_L_GetExtent layer) as [envelope |]; [| done].
  cbv zeta. destruct (setSRS_steady (OGR_L_GetSpatialRef layer) st) as (_ & _ & _ & _ & He & _).
  destruct (setSRS _ st) as [ok st1]. simpl in He.
  match goal with |- context [match ?t with Some _ => _ | None => _ end] =>
    destruct t as [g |] end; simpl; exact He.
Qed.

(** X5.  In every well-formed state of the importer, which the state
    the constructor makes is and which every operation of the importer
    keeps, the import of a layer included, the import of a layer returns
    the objects of its features, and it counts exactly the features of
    the layer that have no geometry or an empty one as empty
    geometries, with or without clipping. *)
Theorem importLayer_counts clip_layers layer st :
  wf st ->
  exists objects,
    (importLayer clip_layers layer st).1 = Return objects
    /\ empty_geometries (importLayer clip_layers layer st).2
       = empty_geometries st
         + Z.of_nat (length (List.filter empty_geometry (OGR_L_features layer))).
Proof.
  intros Hwf. unfold importLayer.
  destruct (clip_layers && OGR_L_TestCapability_FastGetExtent layer).
  - destruct (getLayerClipping_sound layer st Hwf) as (Hwf1 & _).
    pose proof (getLayerClipping_empty layer st) as He.
    destruct (getLayerClipping layer st) as [clipping st1]. simpl in *.
    rewrite <- He. by apply importLayer_features_counts.
  - by apply importLayer_features_counts.
Qed.

(** ** The tags made from fields *)

Lemma find_insert_or_assign key k value tags :
  KeyValueContainer.find key (KeyValueContainer.insert_or_assign k value tags)
  = if String.eqb k key then Some value else KeyValueContainer.find key tags.
Proof.
  unfold KeyValueContainer.find. induction tags as [| [k0 v0] tags IH]; simpl.
  - by destruct (String.eqb k key).
  - destruct (String.eqb k0 k) eqn:E0; simpl.
    + apply String.eqb_eq in E0 as ->. by destruct (String.eqb k key).
    + destruct (String.eqb k0 key) eqn:E1; simpl.
      * apply String.eqb_eq in E1 as ->. by rewrite String.eqb_sym, E0.
      * exact IH.
Qed.

Lemma elem_of_keys_insert_or_assign x k value tags :
  x ∈ (KeyValueContainer.insert_or_assign k value tags).*1 <-> x = k \/ x ∈ tags.*1.
Proof.
  induction tags as [| [k0 v0] tags IH]; simpl.
  - clear_unused. set_solver.
  - destruct (String.eqb_spec k0 k); simpl; clear_unused; set_solver.
Qed.

Lemma keys_insert_or_assign k value tags :
  NoDup tags.*1 -> NoDup (KeyValueContainer.insert_or_assign k value tags).*1.
Proof.
  induction tags as [| [k0 v0] tags IH]; simpl; intros H.
  - apply NoDup_singleton.
  - apply NoDup_cons in H as [Hk0 Hnd]. destruct (String.eqb_spec k0 k) as [-> | Hne]; simpl.
    + by apply NoDup_cons.
    + apply NoDup_cons. split; [| by apply IH].
      rewrite elem_of_keys_insert_or_assign. by intros [-> | ?].
Qed.

(** The value [importFields] gives the tag [key]: that of the last
    field of this name with a value that is not empty. *)
Definition last_value (key : string) (fields : list (string * string)) : option string :=
  fold_left
    (fun found field =>
       if String.eqb (fst field) key && negb (String.eqb (snd field) "")
       then Some (snd field) else found)
    fields None.

Lemma importFields_from_spec fields :
  forall tags key,
    NoDup tags.*1 ->
    NoDup (importFields_from fields tags).*1
    /\ KeyValueContainer.find key (importFields_from fields tags)
       = fold_left
           (fun found field =>
              if String.eqb (fst field) key && negb (String.eqb (snd field) "")
              then Some (snd field) else found)
           fields (KeyValueContainer.find key tags).
Proof.
  induction fields as [| [name value] fields IH]; intros tags key Hnd; simpl; [done |].
  case_decide as Hv.
  - subst value. simpl. rewrite andb_false_r. by apply IH.
  - assert (Hne : String.eqb value "" = false) by (by apply String.eqb_neq).
    rewrite Hne, andb_true_r.
    destruct (IH (KeyValueContainer.insert_or_assign name value tags) key) as [H1 H2].
    { by apply keys_insert_or_assign. }
    split; [exact H1 |]. rewrite H2, find_insert_or_assign. done.
Qed.

(** X6.  The tags made from the fields of a feature have no key
    twice; a field name is a key exactly when some field of that name
    has a value that is not empty, and its tag then has the value of
    the last such field.  Fields with an empty value leave no trace. *)
Theorem importFields_tags feature key :
  NoDup (importFields feature).*1
  /\ KeyValueContainer.find key (importFields feature) = last_value key (OGR_F_fields feature)
  /\ (KeyValueContainer.contains key (importFields feature) = true
      <-> exists value, value <> "" /\ (key, value) ∈ OGR_F_fields feature).
Proof.
  unfold importFields, last_value.
  destruct (importFields_from_spec (OGR_F_fields feature) [] key) as [H1 H2];
    [apply NoDup_nil_2 |].
  assert (Hnil : KeyValueContainer.find key (@nil (string * string)) = None) by done.
  rewrite Hnil in H2.
  split; [exact H1 |]. split; [exact H2 |].
  unfold KeyValueContainer.contains. rewrite H2.
  generalize (OGR_F_fields feature). intros fields.
  assert (Hgen : forall fields found,
    is_Some (fold_left
      (fun found field =>
         if String.eqb (fst field) key && negb (String.eqb (snd field) "")
         then Some (snd field) else found) fields found)
    <-> is_Some found \/ exists value, value <> "" /\ (key, value) ∈ fields).
  { clear. induction fields as [| [name value] fields IH]; intros found; simpl.
    - split; [by left |]. intros [? | (v & _ & Hin)]; [done |]. by apply elem_of_nil in Hin.
    - rewrite IH. destruct (String.eqb_spec name key) as [-> | Hne]; simpl.
      + destruct (String.eqb_spec value "") as [-> | Hv]; simpl.
        * split.
          -- intros [? | (v & Hv & Hin)]; [by left |]. right. exists v. split; [done |]. by right.
          -- intros [? | (v & Hv & Hin)]; [by left |]. right. exists v. split; [done |].
             apply elem_of_cons in Hin as [[= ?] | Hin]; [congruence | done].
        * split.
          -- intros _. right. exists value. split; [done |]. by left.
          -- intros _. left. done.
      + split.
        * intros [? | (v & Hv & Hin)]; [by left |]. right. exists v. split; [done |]. by right.
        * intros [? | (v & Hv & Hin)]; [by left |]. right. exists v. split; [done |].
          apply elem_of_cons in Hin as [[= ? ?] | Hin]; [congruence | done]. }
  specialize (Hgen fields None).
  destruct (fold_left _ fields None) as [v |].
  - split; [| done]. intros _. destruct (proj1 Hgen) as [[? [=]] | H]; [by eexists | exact H].
  - split; [done |]. intros H. destruct (proj2 Hgen (or_intror H)) as [? [=]].
Qed.

(** ** The line symbols made for pens *)

Lemma applyColor_line_width color s : sym_line_width (applyColor color s) = sym_line_width s.
Proof. by destruct color. Qed.

(** The literals [0.01] and [0.1] as doubles: the nearest doubles are
    a little above the decimal fractions. *)
Lemma double_0_01 : (1 # 100 < round_double (1 # 100))%Q.
Proof. vm_compute. reflexivity. Qed.

Lemma double_0_1 : (round_double (1 # 100) < round_double (1 # 10))%Q.
Proof. vm_compute. reflexivity. Qed.

(** The width [applyPenWidth] sets. *)
Definition pen_width (tool : OGRStyleTool) (width : Q) : Q :=
  match OGRSTPenWidth tool with
  | Some w => if Qle_bool w (round_double (1 # 100)) then round_double (1 # 10) else w
  | None => width
  end.

Lemma applyPenWidth_width tool s :
  sym_line_width (applyPenWidth tool s) = pen_width tool (sym_line_width s).
Proof. unfold applyPenWidth, pen_width. by destruct (OGRSTPenWidth tool). Qed.

Lemma pen_width_bound tool width :
  (round_double (1 # 100) < width)%Q -> (round_double (1 # 100) < pen_width tool width)%Q.
Proof.
  intros Hs. unfold pen_width. destruct (OGRSTPenWidth tool) as [w |]; [| done].
  destruct (Qle_bool w (round_double (1 # 100))) eqn:E; [apply double_0_1 |].
  apply Qnot_le_lt. intros Hle. apply Qle_bool_iff in Hle. congruence.
Qed.

Lemma applyPenCap_line_width tool s : sym_line_width (applyPenCap tool s) = sym_line_width s.
Proof. unfold applyPenCap. repeat case_match; done. Qed.

Lemma applyPenJoin_line_width tool s : sym_line_width (applyPenJoin tool s) = sym_line_width s.
Proof. unfold applyPenJoin. repeat case_match; done. Qed.

Lemma applyPenPattern_line_width tool s :
  sym_line_width (applyPenPattern tool s) = sym_line_width s.
Proof. unfold applyPenPattern. repeat case_match; done. Qed.

(** The dash pattern of a pen, when it has one that matches. *)
Definition pen_pattern (tool : OGRStyleTool) : option (Q * Q) :=
  OGRSTPenPattern tool ≫= match_dash_pattern.

Lemma applyPenPattern_pattern tool s length_0 length_1 :
  pen_pattern tool = Some (length_0, length_1) ->
  sym_dashed (applyPenPattern tool s) = true
  /\ sym_dash_length (applyPenPattern tool s) = Z.max 100 (qRound (double_mul length_0 1000))
  /\ sym_break_length (applyPenPattern tool s) = Z.max 100 (qRound (double_mul length_1 1000)).
Proof.
  unfold pen_pattern, applyPenPattern. destruct (OGRSTPenPattern tool) as [raw |]; simpl; [| done].
  by intros ->.
Qed.

(** [qRound] stays in the range of [int]. *)
Lemma int_of_double_range d : INT_MIN <= int_of_double d <= INT_MAX.
Proof.
  unfold int_of_double. cbv zeta.
  destruct (INT_MIN <=? _) eqn:E1; simpl; [| unfold INT_MIN, INT_MAX; lia].
  destruct (_ <=? INT_MAX) eqn:E2; [| unfold INT_MIN, INT_MAX; lia].
  apply Z.leb_le in E1, E2. lia.
Qed.

Lemma qRound_range d : INT_MIN <= qRound d <= INT_MAX.
Proof.
  unfold qRound. destruct (Qle_bool 0 d); [apply int_of_double_range |].
  cbv zeta. unfold int_add.
  pose proof (Z.mod_pos_bound
                (int_of_double (double_add (double_sub d (inject_Z (int_of_double (double_sub d 1))))
                                  (1 # 2))
                 + int_of_double (double_sub d 1) - INT_MIN) (2 ^ 32) eq_refl) as H.
  unfold INT_MIN, INT_MAX in *. lia.
Qed.


(** A double that, a half added, is 2^31 or more is beyond [int]. *)
Lemma qRound_beyond d :
  (0 <= d)%Q -> (inject_Z (2 ^ 31) <= double_add d (1 # 2))%Q -> qRound d = INT_MIN.
Proof.
  intros Hpos Hbig. unfold qRound.
  assert (E : Qle_bool 0 d = true) by (by apply Qle_bool_iff).
  rewrite E. unfold int_of_double. cbv zeta.
  set (r := double_add d (1 # 2)) in *.
  assert (Ht : 2 ^ 31 <= Z.quot (Qnum r) (Zpos (Qden r))).
  { unfold Qle in Hbig. simpl in Hbig. rewrite Z.mul_1_r in Hbig.
    assert (Hn : 0 <= Qnum r) by nia.
    rewrite Z.quot_div_nonneg by lia.
    apply Z.div_le_lower_bound; lia. }
  destruct (INT_MIN <=? _); simpl; [| done].
  destruct (_ <=? INT_MAX) eqn:E2; [| done].
  apply Z.leb_le in E2. unfold INT_MAX in E2. lia.
Qed.

(** ** What the choice of the reference keeps *)

(** X8.  However the reference of the map is chosen (a projected
    reference, an orthographic projection, a local reference, or the
    exception), the colors and symbols of the map, its scale
    denominator and its declination are what they were; with the
    exception the map is untouched. *)
Theorem importGeoreferencing_keeps data_source m :
  map_colors (importGeoreferencing data_source m).2 = map_colors m
  /\ map_symbols (importGeoreferencing data_source m).2 = map_symbols m
  /\ scale_denominator (getGeoreferencing (importGeoreferencing data_source m).2)
     = scale_denominator (getGeoreferencing m)
  /\ declination (getGeoreferencing (importGeoreferencing data_source m).2)
     = declination (getGeoreferencing m)
  /\ (forall what, (importGeoreferencing data_source m).1 = Throw what ->
      (importGeoreferencing data_source m).2 = m).
Proof.
  unfold importGeoreferencing. cbv zeta.
  destruct (projected_srs_spec (scan_layers data_source _)) as [spec |];
    destruct (suitable_srs (scan_layers data_source _)) as [suitable |];
    try destruct (local_srs (scan_layers data_source _)) as [local |];
    try destruct (no_srs (scan_layers data_source _));
    repeat split; try done.
Qed.

(** ** Checking a georeferencing against a data source *)

(** The reference [checkGeoreferencing] sets up from the projected CRS
    specification of the georeferencing: [OSRSetProjCS],
    [OSRSetWellKnownGeogCS] and [OSRImportFromProj4], whose result the
    code does not test. *)
Variable OSRImportFromProj4 : string -> SRS.

(** The loop over the layers in [checkGeoreferencing]: the first
    reference without a transformation ends it with [false]. *)
Fixpoint check_layers (map_srs : SRS) (layers : OGRDataSource) (suitable_srs_found : bool) : bool :=
  match layers with
  | [] => suitable_srs_found
  | None :: layers => check_layers map_srs layers suitable_srs_found
  | Some layer :: layers =>
      match OGR_L_GetSpatialRef layer with
      | None => check_layers map_srs layers suitable_srs_found
      | Some spatial_reference =>
          match OCTNewCoordinateTransformation spatial_reference map_srs with
          | None => false
          | Some _ => check_layers map_srs layers true
          end
      end
  end.

(** [OgrFileImport::checkGeoreferencing(data_source, georef)]. *)
Definition checkGeoreferencing (data_source : OGRDataSource) (georef : Georeferencing) : bool :=
  check_layers (OSRImportFromProj4 (projected_crs_spec georef)) data_source false.

(** [OgrFileImport::checkGeoreferencing(path, georef)], [data_source]
    being what [OGROpen] gives for the path, [error] the last error
    message. *)
Definition checkGeoreferencing_path (data_source : option OGRDataSource) (error : string)
    (georef : Georeferencing) : Outcome bool :=
  match georef_state georef with
  | Georeferencing.Geospatial =>
      match data_source with
      | None => Throw error
      | Some data_source => Return (checkGeoreferencing data_source georef)
      end
  | _ => Return false
  end.

Lemma check_layers_spec map_srs layers found :
  check_layers map_srs layers found = true
  <-> (found = true \/ layer_references layers <> [])
      /\ Forall (fun r => is_Some (OCTNewCoordinateTransformation r map_srs))
           (layer_references layers).
Proof.
  revert found. induction layers as [| [layer |] layers IH]; intros found.
  - simpl. split; [intros ->; split; [by left | constructor] | by intros [[-> | ?] _]].
  - rewrite layer_references_cons. simpl mbind. simpl option_bind. simpl check_layers.
    destruct (OGR_L_GetSpatialRef layer) as [r |]; [| apply IH].
    destruct (OCTNewCoordinateTransformation r map_srs) as [t |] eqn:Et.
    + rewrite IH. split.
      * intros [_ Hall]. split; [by right |]. constructor; [by rewrite Et | done].
      * intros [_ Hall]. apply Forall_cons in Hall as [_ Hall]. split; [by left | done].
    + split; [done |]. intros [_ Hall]. apply Forall_cons in Hall as [Hr _].
      rewrite Et in Hr. by destruct Hr.
  - rewrite layer_references_cons. apply IH.
Qed.

(** X9.  A georeferencing passes the check against a data source
    exactly when some layer has a spatial reference and every
    reference of a layer can be transformed to the reference made from
    the projected CRS specification.  Checked by path, a
    georeferencing that is not geospatial fails without the file being
    looked at, and a file that cannot be opened raises the exception
    only for a geospatial one. *)
Theorem checkGeoreferencing_spec data_source georef :
  (checkGeoreferencing data_source georef = true
   <-> layer_references data_source <> []
       /\ Forall (fun r => is_Some (OCTNewCoordinateTransformation r
                                      (OSRImportFromProj4 (projected_crs_spec georef))))
            (layer_references data_source))
  /\ (forall opened error,
        georef_state georef = Georeferencing.Local ->
        checkGeoreferencing_path opened error georef = Return false)
  /\ (forall error,
        georef_state georef = Georeferencing.Geospatial ->
        checkGeoreferencing_path None error georef = Throw error).
Proof.
  split.
  - unfold checkGeoreferencing. rewrite check_layers_spec. split.
    + intros [[? | ?] ?]; done.
    + intros [? ?]. split; [by right | done].
  - split.
    + intros opened error Hs. unfold checkGeoreferencing_path. by rewrite Hs.
    + intros error Hs. unfold checkGeoreferencing_path. by rewrite Hs.
Qed.

(** ** Accounting for the parts of a geometry *)

(** The objects the warnings of [importImplementation] report as not
    loaded after the geometry was read. *)
Definition counted (st : OgrFileImport) : Z :=
  no_transformation st + failed_transformation st
  + unsupported_geometry_type st + too_few_coordinates st.

(** The simple geometries in a geometry, collections followed into
    their members: the points when [point] is set, else all others. *)
Fixpoint count_parts (point : bool) (geometry : OGRGeometry) : nat :=
  match geometry with
  | Geometry type _ geometries =>
      match wkbFlatten type with
      | wkbPoint => if point then 1%nat else 0%nat
      | wkbGeometryCollection | wkbMultiLineString | wkbMultiPoint | wkbMultiPolygon =>
          list_sum (List.map (count_parts point) geometries)
      | _ => if point then 0%nat else 1%nat
      end
  end.

Definition is_path (object : Object) : bool :=
  match obj_type object with
  | Object.Path => true
  | _ => false
  end.

Lemma getSymbol_counted type K st : counted (getSymbol type K st).2 = counted st.
Proof. by apply (getSymbol_setting counted). Qed.

Lemma importPointGeometry_accounts feature geometry st :
  counted (importPointGeometry feature geometry st).2 = counted st
  /\ forall object,
       (importPointGeometry feature geometry st).1 = Return (Some object) ->
       is_path object = false.
Proof.
  split; [rewrite importPointGeometry_state; apply getSymbol_counted |].
  intros object. unfold importPointGeometry.
  destruct (getSymbol Symbol.Point (OGR_F_GetStyleString feature) st) as [symbol st1].
  cbv zeta. cbn [fst].
  repeat case_match; cbn [fst]; try done; intros [= <-]; try done.
  all: match goal with H : _ = Some ?o |- context [?o] =>
    unfold applyLabelAnchor_object in H; repeat case_match; try done;
    injection H as H; rewrite <- H; reflexivity end.
Qed.

Lemma importLineStringGeometry_accounts feature geometry st :
  (exists object,
     (importLineStringGeometry feature geometry st).1 = Some object
     /\ is_path object = true
     /\ counted (importLineStringGeometry feature geometry st).2 = counted st)
  \/ ((importLineStringGeometry feature geometry st).1 = None
      /\ counted (importLineStringGeometry feature geometry st).2 = counted st + 1).
Proof.
  unfold importLineStringGeometry. cbv zeta. case_decide.
  - right. split; [done |]. unfold counted. cbn. lia.
  - left. pose proof (getSymbol_counted Symbol.Line (OGR_F_GetStyleString feature) st) as Hc.
    destruct (getSymbol Symbol.Line (OGR_F_GetStyleString feature) st) as [symbol st1].
    eexists. split; [done |]. split; [| done].
    unfold is_path. by destruct (add_coordinates_symbol
      (map_coords st1 (as_line_string geometry)) false (new_Object Object.Path symbol)) as [_ ->].
Qed.

Lemma importPolygonGeometry_accounts feature geometry st :
  (exists object,
     (importPolygonGeometry feature geometry st).1 = Some object
     /\ is_path object = true
     /\ counted (importPolygonGeometry feature geometry st).2 = counted st)
  \/ ((importPolygonGeometry feature geometry st).1 = None
      /\ counted (importPolygonGeometry feature geometry st).2 = counted st + 1).
Proof.
  unfold importPolygonGeometry.
  destruct (OGR_G_geometries geometry) as [| outline holes].
  { right. split; [done |]. unfold counted. cbn. lia. }
  cbv zeta. case_decide.
  - right. split; [done |]. unfold counted. cbn. lia.
  - left. pose proof (getSymbol_counted Symbol.Area (OGR_F_GetStyleString feature) st) as Hc.
    destruct (getSymbol Symbol.Area (OGR_F_GetStyleString feature) st) as [symbol st1].
    eexists. split; [done |]. split; [| done].
    unfold is_path, closeAllParts, set_parts. cbn [obj_type].
    destruct (add_holes_symbol st1 holes
      (add_coordinates (map_coords st1 (as_line_string outline)) false
         (new_Object Object.Path symbol))) as [_ ->].
    by destruct (add_coordinates_symbol
      (map_coords st1 (as_line_string outline)) false (new_Object Object.Path symbol)) as [_ ->].
Qed.

(** What the import of a geometry accounts for: the path objects and
    the counts together are the parts that are no points, and the
    other objects are at most the points. *)
Definition accounts (geometry_parts point_parts : nat) (objects : list Object)
    (st st' : OgrFileImport) : Prop :=
  Z.of_nat (length (List.filter is_path objects)) + (counted st' - counted st)
  = Z.of_nat geometry_parts
  /\ (length (List.filter (fun object => negb (is_path object)) objects) <= point_parts)%nat.

Lemma importGeometry_accounts_wf feature geometry :
  forall st, wf st ->
    exists objects,
      (importGeometry feature geometry st).1 = Return objects
      /\ accounts (count_parts false geometry) (count_parts true geometry) objects
           st (importGeometry feature geometry st).2.
Proof.
  induction geometry as [type points geometries IH] using OGRGeometry_rect'.
  intros st Hwf. cbn [importGeometry count_parts].
  assert (Hcoll : forall st, wf st ->
    exists objects,
      (importGeometryCollection_with (importGeometry feature) geometries st).1 = Return objects
      /\ accounts (list_sum (List.map (count_parts false) geometries))
           (list_sum (List.map (count_parts true) geometries)) objects
           st (importGeometryCollection_with (importGeometry feature) geometries st).2).
  { clear st Hwf. induction IH as [| g geometries Hg _ IHl]; intros st Hwf.
    - exists []. split; [done |]. unfold accounts. simpl. split; lia.
    - cbn [importGeometryCollection_with List.map list_sum].
      destruct (Hg st Hwf) as (tmp & E1 & Ha1 & Hb1).
      destruct (importGeometry_sound feature g st Hwf) as (Hwf1 & _).
      destruct (importGeometry feature g st) as [r1 st1]. cbn [fst snd] in *. subst r1.
      destruct (IHl st1 Hwf1) as (result & E2 & Ha2 & Hb2).
      destruct (importGeometryCollection_with (importGeometry feature) geometries st1)
        as [r2 st2]. cbn [fst snd] in *. subst r2.
      exists (tmp ++ result). split; [done |]. unfold accounts.
      rewrite !List.filter_app, !length_app. cbn [snd]. simpl (list_sum (_ :: _)). split; lia. }
  assert (Hother : exists objects,
    (Return (@nil Object), count_unsupported_geometry_type st).1 = Return objects
    /\ accounts 1 0 objects st (Return (@nil Object), count_unsupported_geometry_type st).2).
  { exists []. split; [done |]. unfold accounts, counted. cbn. split; lia. }
  destruct (wkbFlatten type); try exact Hother; try (by apply Hcoll).
  - destruct (importPointGeometry_returns feature (Geometry type points geometries) st Hwf)
      as (object & E).
    destruct (importPointGeometry_accounts feature (Geometry type points geometries) st)
      as [Hc Hp].
    destruct (importPointGeometry feature _ st) as [r st1]. cbn [fst snd] in *. subst r.
    eexists. split; [done |]. unfold accounts. cbn [fst snd]. rewrite Hc.
    destruct object as [object |]; cbn [object_list List.filter]; [| simpl; split; lia].
    rewrite (Hp object eq_refl). simpl. split; lia.
  - destruct (importLineStringGeometry_accounts feature (Geometry type points geometries) st)
      as [(object & E & Hp & Hc) | [E Hc]];
      destruct (importLineStringGeometry feature _ st) as [r st1]; cbn [fst snd] in *; subst r;
      eexists; (split; [done |]); unfold accounts; cbn [fst snd]; rewrite Hc;
      cbn [object_list List.filter]; rewrite ?Hp; simpl; split; lia.
  - destruct (importPolygonGeometry_accounts feature (Geometry type points geometries) st)
      as [(object & E & Hp & Hc) | [E Hc]];
      destruct (importPolygonGeometry feature _ st) as [r st1]; cbn [fst snd] in *; subst r;
      eexists; (split; [done |]); unfold accounts; cbn [fst snd]; rewrite Hc;
      cbn [object_list List.filter]; rewrite ?Hp; simpl; split; lia.
Qed.

(** X10.  In every well-formed state of the importer, which the
    state the constructor makes is and which every operation of the
    importer keeps, the import of a geometry returns its objects, and
    every part of the geometry that is no point is
    accounted for exactly once: the number of path objects made plus
    the increase of the counters of skipped objects is the number of
    simple geometries other than points in the geometry, collections
    followed into their members.  Points are never counted: the
    objects that are no paths are at most as many as the points. *)
Theorem importGeometry_accounts feature geometry st :
  wf st ->
  exists objects,
    (importGeometry feature geometry st).1 = Return objects
    /\ Z.of_nat (length (List.filter is_path objects))
       + (counted (importGeometry feature geometry st).2 - counted st)
       = Z.of_nat (count_parts false geometry)
    /\ (length (List.filter (fun object => negb (is_path object)) objects)
        <= count_parts true geometry)%nat.
Proof.
  apply importGeometry_accounts_wf.
Qed.
(** ** The operations of the importer *)

(** [styles_kept st st']: from [st] to [st'] the symbols of the map,
    the colors of the map, the color cache, the four symbol caches and
    the default pointers are the same.  The counters, the spatial
    references, the transformation, the coordinate conversion, the
    driver name and the georeferencing of the map are free. *)
Definition styles_kept (st st' : OgrFileImport) : Prop :=
  symbols_kept st st' /\ colors st' = colors st /\ map_colors (map st') = map_colors (map st).

(** One operation on the importer after its construction.  The
    member functions that change the importer are there by name; what
    they do to the state is built from symbol lookups and from
    assignments that keep the styles: [setSRS], the five counters
    ([importLayer] counts the empty geometries, [getLayerClipping] the
    failed transformations, the geometry imports the other ones), and
    the assignments of [importImplementation] (the driver name, the
    counters set to zero, the reference of the map) and of
    [importGeoreferencing] (the georeferencing of the map), which
    [op_assign] stands for. *)
Inductive operation (st : OgrFileImport) : OgrFileImport -> Prop :=
| op_getSymbol type style_string :
    operation st (getSymbol type style_string st).2
| op_importGeometry feature geometry :
    operation st (importGeometry feature geometry st).2
| op_importFeature feature geometry clipping :
    operation st (importFeature feature geometry clipping st).2
| op_setSRS srs :
    operation st (setSRS srs st).2
| op_getLayerClipping layer :
    operation st (getLayerClipping layer st).2
| op_importLayer clip_layers layer :
    operation st (importLayer clip_layers layer st).2
| op_assign st' :
    styles_kept st st' -> operation st st'.

(** The states the importer gets to from [st], by any operations in
    any order. *)
Definition runs_from (st st' : OgrFileImport) : Prop := rtc operation st st'.

Lemma styles_kept_refl st : styles_kept st st.
Proof. unfold styles_kept, symbols_kept. tauto_here. Qed.

Ltac solve_kept := unfold styles_kept, symbols_kept; simpl_state; tauto_here.

Lemma setSRS_kept srs st : styles_kept st (setSRS srs st).2.
Proof.
  unfold setSRS. destruct srs as [s |]; cbv zeta.
  - case_decide; [solve_kept |].
    destruct (OCTNewCoordinateTransformation s _); solve_kept.
  - case_decide; solve_kept.
Qed.

(** A relation between states that holds of a symbol lookup and of the
    assignments that keep the styles, and that is reflexive and
    transitive, holds of every operation. *)
Section Lifting.

Variable R : OgrFileImport -> OgrFileImport -> Prop.

Hypothesis R_refl : forall st, R st st.
Hypothesis R_trans : forall st1 st2 st3, R st1 st2 -> R st2 st3 -> R st1 st3.
Hypothesis R_getSymbol : forall type K st, R st (getSymbol type K st).2.
Hypothesis R_kept : forall st st', styles_kept st st' -> R st st'.

Lemma importGeometry_lifts feature geometry :
  forall st, R st (importGeometry feature geometry st).2.
Proof using R_refl R_trans R_getSymbol R_kept.
  induction geometry as [type points geometries IH] using OGRGeometry_rect'.
  intros st. simpl.
  assert (Hcoll : forall st,
    R st (importGeometryCollection_with (importGeometry feature) geometries st).2).
  { clear st. induction IH as [| g geometries Hg _ IHl]; intros st; simpl.
    - apply R_refl.
    - pose proof (Hg st) as H1.
      destruct (importGeometry feature g st) as [[tmp | what |] st1]; simpl in *; try exact H1.
      pose proof (IHl st1) as H2.
      destruct (importGeometryCollection_with (importGeometry feature) geometries st1)
        as [[result | what |] st2]; simpl in *; by eapply R_trans. }
  destruct (wkbFlatten type); try apply Hcoll.
  - apply R_kept. solve_kept.
  - pose proof (importPointGeometry_state feature (Geometry type points geometries) st) as E.
    destruct (importPointGeometry feature _ st) as [[object | what |] st1];
      cbn [fst snd] in *; rewrite E; apply R_getSymbol.
  - destruct (importLineStringGeometry_state feature (Geometry type points geometries) st) as [E | E];
      destruct (importLineStringGeometry feature _ st) as [object st1]; cbn [fst snd] in *;
      rewrite E; [apply R_kept; solve_kept | apply R_getSymbol].
  - destruct (importPolygonGeometry_state feature (Geometry type points geometries) st) as [E | E];
      destruct (importPolygonGeometry feature _ st) as [object st1]; cbn [fst snd] in *;
      rewrite E; [apply R_kept; solve_kept | apply R_getSymbol].
  - apply R_kept. solve_kept.
Qed.

Lemma importFeature_lifts feature geometry clipping st :
  R st (importFeature feature geometry clipping st).2.
Proof using R_refl R_trans R_getSymbol R_kept.
  unfold importFeature.
  pose proof (R_kept _ _ (setSRS_kept (OGR_G_GetSpatialReference feature) st)) as H1.
  destruct (setSRS _ st) as [[|] st1]; simpl in H1; [| exact H1].
  cbv zeta.
  match goal with |- context [match ?t with Some _ => _ | None => _ end] =>
    destruct t as [g |] end.
  - pose proof (importGeometry_lifts feature g st1) as H2.
    destruct (importGeometry feature g st1) as [[objects | what |] st2]; simpl in *;
      by eapply R_trans.
  - eapply R_trans; [exact H1 | apply R_kept; solve_kept].
Qed.

Lemma getLayerClipping_lifts layer st : R st (getLayerClipping layer st).2.
Proof using R_refl R_trans R_kept.
  unfold getLayerClipping. destruct (OGR_L_GetExtent layer) as [envelope |]; [| apply R_refl].
  cbv zeta. pose proof (R_kept _ _ (setSRS_kept (OGR_L_GetSpatialRef layer) st)) as H1.
  destruct (setSRS _ st) as [ok st1]. simpl in H1.
  match goal with |- context [match ?t with Some _ => _ | None => _ end] =>
    destruct t as [g |] end; [exact H1 |].
  eapply R_trans; [exact H1 | apply R_kept; solve_kept].
Qed.

Lemma importLayer_features_lifts features clipping :
  forall st, R st (importLayer_features features clipping st).2.
Proof using R_refl R_trans R_getSymbol R_kept.
  induction features as [| feature features IH]; intros st; [apply R_refl |].
  cbn [importLayer_features].
  assert (Hcount : R st (importLayer_features features clipping (count_empty_geometries st)).2).
  { eapply R_trans; [| apply IH]. apply R_kept. solve_kept. }
  destruct (OGR_F_GetGeometryRef feature) as [geometry |]; [| exact Hcount].
  destruct (OGR_G_IsEmpty geometry); [exact Hcount |].
  pose proof (importFeature_lifts feature geometry clipping st) as H1.
  destruct (importFeature feature geometry clipping st) as [[objects | what |] st1];
    cbn [fst snd] in *; try exact H1.
  pose proof (IH st1) as H2.
  destruct (importLayer_features features clipping st1) as [[more | what |] st2];
    cbn [fst snd] in *; by eapply R_trans.
Qed.

Lemma importLayer_lifts clip_layers layer st : R st (importLayer clip_layers layer st).2.
Proof using R_refl R_trans R_getSymbol R_kept.
  unfold importLayer.
  destruct (clip_layers && OGR_L_TestCapability_FastGetExtent layer).
  - pose proof (getLayerClipping_lifts layer st) as H1.
    destruct (getLayerClipping layer st) as [clipping st1]. simpl in H1.
    eapply R_trans; [exact H1 | apply importLayer_features_lifts].
  - apply importLayer_features_lifts.
Qed.

Lemma operation_lifts st st' : operation st st' -> R st st'.
Proof using R_refl R_trans R_getSymbol R_kept.
  destruct 1.
  - apply R_getSymbol.
  - apply importGeometry_lifts.
  - apply importFeature_lifts.
  - apply R_kept, setSRS_kept.
  - apply getLayerClipping_lifts.
  - apply importLayer_lifts.
  - by apply R_kept.
Qed.

Lemma runs_from_lifts st st' : runs_from st st' -> R st st'.
Proof using R_refl R_trans R_getSymbol R_kept.
  induction 1 as [st | st1 st2 st3 Hstep _ IH]; [apply R_refl |].
  eapply R_trans; [by apply operation_lifts | exact IH].
Qed.

End Lifting.

(** Every run of operations is a sound step: it keeps a well-formed
    state well-formed, frames the symbols, keeps the default pointers
    and the invariant of the color cache. *)
Lemma runs_from_sound st st' : runs_from st st' -> sound_step st st'.
Proof.
  apply runs_from_lifts.
  - apply sound_step_refl.
  - apply sound_step_trans.
  - apply getSymbol_sound.
  - intros st1 st2 (Hk & Hc & Hm). by apply sound_step_same.
Qed.

Lemma runs_from_wf st st' : wf st -> runs_from st st' -> wf st'.
Proof. intros Hwf Hrun. by destruct (runs_from_sound _ _ Hrun Hwf). Qed.

Lemma runs_from_colors n0 st st' : wf st -> colors_inv n0 st -> runs_from st st' -> colors_inv n0 st'.
Proof. intros Hwf Hc Hrun. destruct (runs_from_sound _ _ Hrun Hwf) as (_ & _ & _ & H). by apply H. Qed.

(** The states of an import in the sense of [import_step] are among them. *)
Lemma imports_from_runs st st' : imports_from st st' -> runs_from st st'.
Proof.
  induction 1 as [st | st1 st2 st3 Hstep _ IH]; [apply rtc_refl |].
  eapply rtc_l; [| exact IH]. destruct Hstep; [apply op_getSymbol | apply op_importFeature].
Qed.

(** ** The caches only grow *)










(** ** Which entity a lookup returns *)





















(** ** Symbols once created *)

(** C6 (as amended).  From a well-formed state of the importer on,
    whatever operations follow (symbol lookups, imports of geometries,
    features and layers with their counting, changes of the spatial
    reference, assignments that keep the styles), a symbol of the map
    keeps all its attributes with the exception of the description of
    text symbols: the symbol found later under the same pointer is the
    earlier one with, at most, another description, and it is the very
    same symbol unless it is a text symbol.  The exception is real: a
    label lookup that finds its color and font size cached with a text
    symbol returns that symbol and writes the description packed from
    the anchor, the angle and the text of this label into it, all other
    symbols staying as they are. *)
Theorem symbols_keep_attributes st st' p s :
  wf st ->
  runs_from st st' ->
  map_symbols (map st) !! p = Some s ->
  (exists s',
     map_symbols (map st') !! p = Some s'
     /\ s' = setDescription (sym_description s') s
     /\ (sym_type s <> Symbol.Text -> s' = s))
  /\ (forall tool label_string,
        OGRSTLabelTextString tool = Some label_string ->
        text_symbols st !! label_key tool = Some p ->
        (getSymbolForLabel tool st).1 = Some p
        /\ map_symbols (map (getSymbolForLabel tool st).2) !! p
           = Some (setDescription (label_description tool label_string) s)
        /\ forall q, q <> p ->
             map_symbols (map (getSymbolForLabel tool st).2) !! q = map_symbols (map st) !! q).
Proof.
  intros Hwf Hsteps Hp. split.
  - destruct (runs_from_sound _ _ Hsteps Hwf) as (_ & Hframe & _). exact (Hframe p s Hp).
  - intros tool label_string Hl Hk.
    destruct (getSymbolForLabel_hit tool st label_string p Hl Hk) as (st1 & Hr & Hs & _).
    rewrite Hr. cbn [fst snd]. rewrite Hs. split; [done |]. split.
    + by rewrite list_lookup_alter_eq, Hp.
    + intros q Hq. by rewrite list_lookup_alter_ne.
Qed.

(** ** Looking styles up *)


(** ** The line symbols made for pens, from the constructor on *)

(** The default line symbol of an importer is the one the constructor
    made: 0.1 mm wide. *)
Lemma default_line_width new_Symbol m u d srs st :
  runs_from (OgrFileImport_new new_Symbol m u d srs) st ->
  sym_line_width (duplicate Symbol.Line st (default_line_symbol st)) = round_double (1 # 10).
Proof.
  intros Hst.
  destruct (runs_from_sound _ _ Hst (OgrFileImport_new_wf _ _ _ _ _))
    as (_ & Hframe & (_ & _ & Hd & _) & _).
  assert (Hone : default_line_symbol st = 1%nat) by (by rewrite Hd).
  unfold duplicate. rewrite Hone.
  edestruct (Hframe 1%nat) as (s' & Hs' & _ & Hsame); [reflexivity |].
  rewrite Hs'. simpl. by rewrite Hsame.
Qed.

(** X7.  In every state the importer gets to from its construction,
    by whatever operations (lookups, imports of features and of layers
    with their counting of empty geometries, changes of the spatial
    reference), a line symbol made for a pen tool (the tool
    [getSymbolForPen] asserts, in the millimetres its callers set) has
    the width of the pen, the double 0.1 when the pen has no width or
    one of at most the double 0.01, and so is wider than 0.01 mm.
    When the pen has a dash pattern that matches, the symbol is dashed,
    and its dash and break lengths are the lengths in thousandths,
    rounded by [qRound] into the range of [int], but at least 100
    (0.1 mm) each: a length whose thousandfold and a half is 2^31 or
    more, too large for [int], gives 100. *)
Theorem getSymbolForPen_bounds new_Symbol m u d srs st tool K :
  runs_from (OgrFileImport_new new_Symbol m u d srs) st ->
  OGR_ST_GetType tool = OGRSTCPen ->
  cached_as Symbol.Line st (line_symbols st !! OGR_ST_GetStyleString tool) = None ->
  exists s,
    map_symbols (map (getSymbolForPen tool K st).2) !! (getSymbolForPen tool K st).1 = Some s
    /\ sym_line_width s
       = match OGRSTPenWidth tool with
         | Some w => if Qle_bool w (round_double (1 # 100)) then round_double (1 # 10) else w
         | None => round_double (1 # 10)
         end
    /\ (1 # 100 < sym_line_width s)%Q
    /\ (forall length_0 length_1,
          pen_pattern tool = Some (length_0, length_1) ->
          sym_dashed s = true
          /\ sym_dash_length s = Z.max 100 (qRound (double_mul length_0 1000))
          /\ sym_break_length s = Z.max 100 (qRound (double_mul length_1 1000))
          /\ 100 <= sym_dash_length s <= INT_MAX
          /\ 100 <= sym_break_length s <= INT_MAX
          /\ ((0 <= double_mul length_0 1000)%Q ->
              (inject_Z (2 ^ 31) <= double_add (double_mul length_0 1000) (1 # 2))%Q ->
              sym_dash_length s = 100)
          /\ ((0 <= double_mul length_1 1000)%Q ->
              (inject_Z (2 ^ 31) <= double_add (double_mul length_1 1000) (1 # 2))%Q ->
              sym_break_length s = 100)).
Proof.
  intros Hst _ Hmiss. pose proof (default_line_width _ _ _ _ _ _ Hst) as Hw.
  unfold getSymbolForPen. rewrite Hmiss.
  pose proof (applyPenColor_spec tool (duplicate Symbol.Line st (default_line_symbol st)) st)
    as [Hk _].
  assert (Hc : sym_line_width
                 (applyPenColor tool (duplicate Symbol.Line st (default_line_symbol st)) st).1
               = round_double (1 # 10)).
  { unfold applyPenColor. destruct (OGRSTPenColor tool) as [c |]; [| exact Hw].
    destruct (makeColor c st) as [color st1]. simpl. by rewrite applyColor_line_width. }
  destruct (applyPenColor tool _ st) as [s1 st1]. simpl in Hk, Hc.
  assert (Hwidth : sym_line_width
                     (applyPenPattern tool (applyPenJoin tool (applyPenCap tool (applyPenWidth tool s1))))
                   = pen_width tool (round_double (1 # 10))).
  { by rewrite applyPenPattern_line_width, applyPenJoin_line_width, applyPenCap_line_width,
      applyPenWidth_width, Hc. }
  eexists. split; [| split; [| split]].
  - unfold getNumSymbols. case_decide; simpl_state; by apply list_lookup_middle.
  - exact Hwidth.
  - rewrite Hwidth. eapply Qlt_trans; [apply double_0_01 |].
    apply pen_width_bound, double_0_1.
  - intros length_0 length_1 Hpat.
    destruct (applyPenPattern_pattern tool
                (applyPenJoin tool (applyPenCap tool (applyPenWidth tool s1)))
                length_0 length_1 Hpat) as (Hd & H0 & H1).
    split; [done |]. split; [done |]. split; [done |]. rewrite H0, H1.
    pose proof (qRound_range (double_mul length_0 1000)).
    pose proof (qRound_range (double_mul length_1 1000)).
    split; [unfold INT_MIN, INT_MAX in *; lia |].
    split; [unfold INT_MIN, INT_MAX in *; lia |].
    split; intros Hpos Hbig; rewrite (qRound_beyond _ Hpos Hbig); reflexivity.
Qed.

End Importer.

(** * Exporting text objects *)


Lemma append_nil_l (s : string) : "" +:+ s = s.
Proof. done. Qed.

Lemma append_cons c (s t : string) : String c s +:+ t = String c (s +:+ t).
Proof. done. Qed.







Lemma append_assoc (s t u : string) : (s +:+ t) +:+ u = s +:+ (t +:+ u).
Proof. induction s as [| c s IH]; [done | by rewrite !append_cons, IH]. Qed.


(** * A small data source

    Concrete services and data on which the definitions run: a style
    manager that knows a handful of style strings, the decoder of
    [#RRGGBB] and [#RRGGBBAA], number printing and reading on whole
    numbers, identity transformations between the references that
    have one, and a map that is empty before the import. *)

Module Fixture.

Import TextObject.

Definition pen (style : string) (color : option string) : OGRStyleTool :=
  mkTool OGRSTCPen style color None None None None None None None None None None None None None.

Definition brush (style : string) (color : option string) : OGRStyleTool :=
  mkTool OGRSTCBrush style None None None None None color None None None None None None None None.

Definition symbol (style : string) (color : option string) (angle : option Q) : OGRStyleTool :=
  mkTool OGRSTCSymbol style None None None None None None color angle None None None None None None.

Definition label (style text color : string) (anchor : option Z) : OGRStyleTool :=
  mkTool OGRSTCLabel style None None None None None None None None
    (Some text) (Some color) (Some "4mm") (Some 4%Q) anchor None.

(** The styles the style manager of the fixture takes apart. *)
Definition OGR_SM_parts (style : string) : option (list (option OGRStyleTool)) :=
  if decide (style = "PEN(c:bogus)") then
    Some [Some (pen "PEN(c:bogus)" (Some "bogus"))]
  else if decide (style = "PEN(c:#FF0000)") then
    Some [Some (pen "PEN(c:#FF0000)" (Some "#FF0000"))]
  else if decide (style = "PEN(c:#FF0000);BRUSH(fc:#00FF00)") then
    Some [Some (pen "PEN(c:#FF0000)" (Some "#FF0000"));
          Some (brush "BRUSH(fc:#00FF00)" (Some "#00FF00"))]
  else if decide (style = "SYMBOL(c:#FF0000,a:45)") then
    Some [Some (symbol "SYMBOL(c:#FF0000,a:45)" (Some "#FF0000") (Some 45%Q))]
  else if decide (style = "LABEL(c:#000000,s:4mm,t:A)") then
    Some [Some (label "LABEL(c:#000000,s:4mm,t:A)" "A" "#000000" None)]
  else if decide (style = "LABEL(c:#000000,s:4mm,t:B)") then
    Some [Some (label "LABEL(c:#000000,s:4mm,t:B)" "B" "#000000" None)]
  else if decide (style = "LABEL(c:#000000,s:4mm,t:A,p:99)") then
    Some [Some (label "LABEL(c:#000000,s:4mm,t:A,p:99)" "A" "#000000" (Some 99))]
  else None.

Definition hex_digit (c : ascii) : option Z :=
  let n := Z.of_nat (nat_of_ascii c) in
  if (48 <=? n) && (n <=? 57) then Some (n - 48)
  else if (65 <=? n) && (n <=? 70) then Some (n - 55)
  else if (97 <=? n) && (n <=? 102) then Some (n - 87)
  else None.

Definition hex_byte (h l : ascii) : option Z :=
  match hex_digit h, hex_digit l with
  | Some h, Some l => Some (16 * h + l)
  | _, _ => None
  end.

(** [#RRGGBB], with an alpha of 255, and [#RRGGBBAA]. *)
Definition OGR_ST_GetRGBFromString (s : string) : option (Z * Z * Z * Z) :=
  match s with
  | String "#" (String r1 (String r2 (String g1 (String g2 (String b1 (String b2 rest)))))) =>
      match hex_byte r1 r2, hex_byte g1 g2, hex_byte b1 b2 with
      | Some r, Some g, Some b =>
          match rest with
          | EmptyString => Some (r, g, b, 255)
          | String a1 (String a2 EmptyString) =>
              match hex_byte a1 a2 with
              | Some a => Some (r, g, b, a)
              | None => None
              end
          | _ => None
          end
      | _, _, _ => None
      end
  | _ => None
  end.

Definition match_dash_pattern (pattern : string) : option (Q * Q) := None.

Fixpoint zeros (n : nat) : string :=
  match n with
  | O => ""
  | S n => String "0" (zeros n)
  end.

(** Printing a whole number: the numeral, and in the [f] format the
    decimal point and the zeros behind it. *)
Definition QString_number (d : Q) (format : ascii) (precision : nat) : string :=
  let whole := QString_number_int (Qfloor d) in
  if Ascii.eqb format "f" && negb (Nat.eqb precision 0) then whole +:+ "." +:+ zeros precision
  else whole.

Fixpoint all_zeros (s : string) : bool :=
  match s with
  | EmptyString => true
  | String c rest => Ascii.eqb c "0" && all_zeros rest
  end.

(** Reading a whole number, with or without zeros behind a decimal point. *)
Definition QString_toDouble (s : string) : option Q :=
  match indexOf "." s with
  | Some i =>
      if all_zeros (String.substring (S i) (String.length s - S i) s)
      then inject_Z <$> QString_toInt (String.substring 0 i s)
      else None
  | None => inject_Z <$> QString_toInt s
  end.

Definition MapCoord_load (x y : Q) : Z * Z :=
  (qRound (double_mul x 1000), qRound (double_mul y 1000)).

Definition toMapCoordF (georef : Georeferencing) (p : Q * Q) : Q * Q := p.

Definition OGR_G_ForceToLineString (geometry : OGRGeometry) : OGRGeometry :=
  Geometry wkbLineString_ (OGR_G_points geometry) [].

Definition remove_formatting (s : string) : string := s.

Definition TextObject_alignment : Alignment := mkAlignment AlignLeft AlignBaseline.

Definition icon_file_exists (name : string) : bool := false.

(** Layers without an extent, and no clipping. *)
Definition OGR_L_GetExtent (layer : OGRLayer) : option (Q * Q * Q * Q) := None.

Definition OGR_L_TestCapability_FastGetExtent (layer : OGRLayer) : bool := false.

Definition ClippingImplementation (boundary : list (Z * Z)) (objects : list Object)
  : list Object := objects.

(** The references of the fixture: a local one, a projected one, one
    that no transformation leaves, and the targets. *)
Definition local_srs : SRS := mkSRS 1 true false None.

Definition utm : SRS := mkSRS 2 false true (Some "+proj=utm +zone=32 +datum=WGS84").

Definition stray : SRS := mkSRS 3 false true (Some "+proj=tmerc").

Definition orthographic : SRS := mkSRS 100 false true (Some "+proj=ortho").

Definition geo_srs : SRS := mkSRS 101 false false (Some "+proj=longlat").

Definition OCTNewCoordinateTransformation (source target : SRS) : option Transformation :=
  if OSRIsLocal source || Nat.eqb (srs_id source) 3 then None else Some (fun g => Some g).

Definition srsFromMap (georef : Georeferencing) : SRS :=
  mkSRS 200
    match georef_state georef with Georeferencing.Local => true | _ => false end
    true (Some (projected_crs_spec georef)).

Definition new_Symbol (type : Symbol.Type_) : Symbol :=
  mkSymbol type "" 0 false "" None 0 0 LineSymbol.FlatCap LineSymbol.MiterJoin false 0 0 4.

Definition empty_map : Map := mkMap [] [] Georeferencing_new.

(** The importer as constructed for the empty map. *)
Definition st0 : OgrFileImport := OgrFileImport_new new_Symbol empty_map UnitOnGround "DXF" utm.

Definition lookup (type : Symbol.Type_) (style : string) (st : OgrFileImport)
  : nat * OgrFileImport :=
  getSymbol OGR_SM_parts OGR_ST_GetRGBFromString match_dash_pattern QString_number type style st.

(** What a symbol pointer shows of the symbol behind it. *)
Definition shown (r : nat * OgrFileImport)
  : nat * option (bool * option nat * string) :=
  (r.1, (fun s => (sym_hidden s, sym_color s, sym_description s)) <$> map_symbols (map r.2) !! r.1).

(** ** The states of the fixture *)

(** The runs of the importer with the services of the fixture. *)
Definition runs (st st' : OgrFileImport) : Prop :=
  runs_from OGR_SM_parts OGR_ST_GetRGBFromString match_dash_pattern QString_number
    QString_toDouble MapCoord_load toMapCoordF OGR_G_ForceToLineString remove_formatting
    TextObject_alignment OCTNewCoordinateTransformation icon_file_exists OGR_L_GetExtent
    OGR_L_TestCapability_FastGetExtent ClippingImplementation st st'.

Lemma st0_wf : wf st0.
Proof. apply OgrFileImport_new_wf. Qed.

(** The importer starts with the two default colors. *)
Lemma st0_colors : colors_inv OGR_ST_GetRGBFromString 2 st0.
Proof.
  exact (OgrFileImport_new_colors OGR_ST_GetRGBFromString new_Symbol empty_map UnitOnGround
           "DXF" utm).
Qed.

Lemma st0_importing :
  importing OGR_SM_parts OGR_ST_GetRGBFromString match_dash_pattern QString_number
    QString_toDouble MapCoord_load toMapCoordF OGR_G_ForceToLineString remove_formatting
    TextObject_alignment OCTNewCoordinateTransformation icon_file_exists st0.
Proof. exists new_Symbol, empty_map, UnitOnGround, "DXF", utm. apply rtc_refl. Qed.

(** ** Pens and their colors *)

Definition bogus_pen : OGRStyleTool := pen "PEN(c:bogus)" (Some "bogus").

(** The copy of the default line symbol a pen is applied to. *)
Definition line0 : Symbol := duplicate Symbol.Line st0 (default_line_symbol st0).

(** A pen whose color does not decode leaves the line symbol visible,
    in the default pen color. *)
Lemma color_decoding_witness :
  sym_color (applyPenColor OGR_ST_GetRGBFromString bogus_pen line0 st0).1
  = Some (default_pen_color st0)
  /\ sym_hidden (applyPenColor OGR_ST_GetRGBFromString bogus_pen line0 st0).1 = sym_hidden line0.
Proof.
  exact (proj1 (color_decoding OGR_ST_GetRGBFromString QString_number 2%nat "bogus" st0
                  st0_colors)
           bogus_pen line0 eq_refl).
Defined.

(** The line symbol made for a pen with the color [bogus], which the
    decoder rejects, is not hidden: it is symbol 4, visible, in color 0
    (the default pen color). *)
Lemma malformed_color_not_hidden :
  OGR_ST_GetRGBFromString "bogus" = None
  /\ shown (lookup Symbol.Line "PEN(c:bogus)" st0) = (4%nat, Some (false, Some 0%nat, "")).
Proof. split; vm_compute; reflexivity. Qed.

(** ** The symbol caches *)

Definition red_line : string := "PEN(c:#FF0000)".




(** ** Labels *)

Definition label_A : string := "LABEL(c:#000000,s:4mm,t:A)".

Definition label_B : string := "LABEL(c:#000000,s:4mm,t:B)".

Definition st1 : OgrFileImport := (lookup Symbol.Point label_A st0).2.

Definition st2 : OgrFileImport := (lookup Symbol.Point label_B st1).2.

(** The text symbol of the first label, as the first lookup leaves it. *)
Definition labelled : Symbol := default (null_symbol Symbol.Text) (map_symbols (map st1) !! 4%nat).

Lemma st1_wf : wf st1.
Proof.
  apply (getSymbol_sound OGR_SM_parts OGR_ST_GetRGBFromString match_dash_pattern QString_number
           Symbol.Point label_A st0 st0_wf).
Qed.

Lemma st1_st2_runs : runs st1 st2.
Proof.
  apply rtc_once,
    (op_getSymbol OGR_SM_parts OGR_ST_GetRGBFromString match_dash_pattern QString_number
       QString_toDouble MapCoord_load toMapCoordF OGR_G_ForceToLineString remove_formatting
       TextObject_alignment OCTNewCoordinateTransformation icon_file_exists OGR_L_GetExtent
       OGR_L_TestCapability_FastGetExtent ClippingImplementation st1 Symbol.Point label_B).
Qed.

(** The label tool of the second label. *)
Definition label_B_tool : OGRStyleTool := label label_B "B" "#000000" None.

Lemma st1_st2 :
  imports_from OGR_SM_parts OGR_ST_GetRGBFromString match_dash_pattern QString_number
    QString_toDouble MapCoord_load toMapCoordF OGR_G_ForceToLineString remove_formatting
    TextObject_alignment OCTNewCoordinateTransformation icon_file_exists st1 st2.
Proof. apply rtc_once, (step_getSymbol _ _ _ _ _ _ _ _ _ _ _ _ _ Symbol.Point label_B). Qed.

(** The text symbol of the first label after the lookup of the second:
    the same but for its description, which the label tool of the
    second label has written. *)
Lemma symbols_keep_attributes_witness :
  (exists s',
     map_symbols (map st2) !! 4%nat = Some s'
     /\ s' = setDescription (sym_description s') labelled
     /\ (sym_type labelled <> Symbol.Text -> s' = labelled))
  /\ (getSymbolForLabel OGR_ST_GetRGBFromString QString_number label_B_tool st1).1 = Some 4%nat
  /\ map_symbols (map (getSymbolForLabel OGR_ST_GetRGBFromString QString_number label_B_tool st1).2)
       !! 4%nat
     = Some (setDescription (label_description QString_number label_B_tool "B") labelled).
Proof.
  destruct (symbols_keep_attributes OGR_SM_parts OGR_ST_GetRGBFromString match_dash_pattern
              QString_number QString_toDouble MapCoord_load toMapCoordF OGR_G_ForceToLineString
              remove_formatting TextObject_alignment OCTNewCoordinateTransformation
              icon_file_exists OGR_L_GetExtent OGR_L_TestCapability_FastGetExtent
              ClippingImplementation st1 st2 4%nat labelled st1_wf st1_st2_runs eq_refl)
    as [Hkept Hlabel].
  split; [exact Hkept |].
  destruct (Hlabel label_B_tool "B" eq_refl) as (Hp & Hs & _); [vm_compute; reflexivity |].
  split; [exact Hp | exact Hs].
Defined.

(** The lookup for a second label of the same color and size returns
    the text symbol of the first and writes its description anew. *)
Lemma label_lookup_rewrites_description :
  shown (lookup Symbol.Point label_A st0) = (4%nat, Some (false, Some 2%nat, "1010 A"))
  /\ shown (lookup Symbol.Point label_B st1) = (4%nat, Some (false, Some 2%nat, "1010 B"))
  /\ sym_description <$> map_symbols (map st1) !! 4%nat = Some "1010 A"
  /\ sym_description <$> map_symbols (map st2) !! 4%nat = Some "1010 B".
Proof. repeat split; vm_compute; reflexivity. Qed.

(** ** Anchors *)

Definition point_geometry (x y : Q) : OGRGeometry :=
  Geometry (mkGeometryType wkbPoint false) [(x, y)] [].

Definition far_anchor : OGRStyleTool :=
  label "LABEL(c:#000000,s:4mm,t:A,p:99)" "A" "#000000" (Some 99).

Definition far_anchor_feature : OGRFeature :=
  mkFeature (Some (point_geometry 1 2)) None [] "LABEL(c:#000000,s:4mm,t:A,p:99)".

(** An anchor of 99 is packed as 12, is read back as 12, has an
    alignment, and the import of the point meets no unreachable branch. *)
Lemma packed_anchor_in_range_witness :
  QString_toInt (QStringRef (label_description QString_number far_anchor "A") 1 2) = Some 12
  /\ 1 <= 12 <= 12
  /\ is_Some (applyLabelAnchor 12 TextObject_alignment)
  /\ is_unreachable
       (importPointGeometry OGR_SM_parts OGR_ST_GetRGBFromString match_dash_pattern
          QString_number QString_toDouble MapCoord_load toMapCoordF remove_formatting
          TextObject_alignment far_anchor_feature (point_geometry 1 2) st0).1 = false.
Proof.
  exact (packed_anchor_in_range OGR_SM_parts OGR_ST_GetRGBFromString match_dash_pattern
           QString_number QString_toDouble MapCoord_load toMapCoordF OGR_G_ForceToLineString
           remove_formatting TextObject_alignment OCTNewCoordinateTransformation
           icon_file_exists far_anchor "A" far_anchor_feature (point_geometry 1 2) st0
           TextObject_alignment st0_importing).
Defined.

(** ** Spatial references *)

Definition point_feature (x y : Q) (srs : option SRS) : OGRFeature :=
  mkFeature (Some (point_geometry x y)) srs [] "".

(** Layers without a reference, with a local one and with a projected one. *)
Definition three_layers : list (option OGRLayer) :=
  [Some (mkLayer "plain" None [point_feature 100 100 None]);
   Some (mkLayer "sketch" (Some local_srs) [point_feature 5 5 (Some local_srs)]);
   Some (mkLayer "survey" (Some utm)
           [point_feature (inject_Z (2 ^ 53)) 20 (Some utm); point_feature 1 21 (Some utm)])].

(** A layer with a local reference and a layer whose reference no
    transformation leaves. *)
Definition two_layers : list (option OGRLayer) :=
  [Some (mkLayer "sketch" (Some local_srs) [point_feature 5 5 (Some local_srs)]);
   Some (mkLayer "stray" (Some stray) [point_feature 7 7 (Some stray)])].

(** Of the three layers the projected reference is chosen, and the
    reference point is the rounded centroid of the two points of its
    layer as doubles give it: the eastings 2^53 and 1 add up to 2^53,
    the sum 2^53 + 1 being no double, and their mean is 2^52; the mean
    20.5 of the northings is rounded to 21.  Of the two layers the
    local reference is returned, with a new local georeferencing. *)
Lemma importGeoreferencing_choice_witness :
  (importGeoreferencing QString_number OCTNewCoordinateTransformation srsFromMap orthographic
     geo_srs three_layers empty_map).1 = Return utm
  /\ projected_ref_point
       (getGeoreferencing
          (importGeoreferencing QString_number OCTNewCoordinateTransformation srsFromMap
             orthographic geo_srs three_layers empty_map).2) = (inject_Z (2 ^ 52), 21)%Q
  /\ projected_crs_spec
       (getGeoreferencing
          (importGeoreferencing QString_number OCTNewCoordinateTransformation srsFromMap
             orthographic geo_srs three_layers empty_map).2) = "+proj=utm +zone=32 +datum=WGS84"
  /\ importGeoreferencing QString_number OCTNewCoordinateTransformation srsFromMap orthographic
       geo_srs two_layers empty_map
     = (Return local_srs, setGeoreferencing (local_georeferencing empty_map) empty_map).
Proof.
  destruct (proj1 (importGeoreferencing_choice QString_number OCTNewCoordinateTransformation
                     srsFromMap orthographic geo_srs three_layers empty_map)
              utm eq_refl eq_refl eq_refl) as (spec & Hspec & Hresult).
  rewrite Hresult. injection Hspec as <-.
  split; [reflexivity |]. split; [vm_compute; reflexivity |]. split; [reflexivity |].
  exact (proj1 (proj2 (proj2 (importGeoreferencing_choice QString_number
                                OCTNewCoordinateTransformation srsFromMap orthographic geo_srs
                                two_layers empty_map)))
           local_srs eq_refl eq_refl).
Defined.

(** The average is taken in doubles: 10.4 is no double, and the mean
    of the doubles next to 10.4 and 11 is the double next to 10.7,
    which is a little below 10.7. *)
Example calcAverageCoords_rounds :
  calcAverageCoords OCTNewCoordinateTransformation
    [Some (mkLayer "near" (Some utm)
             [point_feature (round_double (104 # 10)) 0 (Some utm);
              point_feature 11 0 (Some utm)])]
    utm
  = (3011782250804019 # 281474976710656, 0)%Q
  /\ (3011782250804019 # 281474976710656 < 107 # 10)%Q.
Proof. repeat split; vm_compute; reflexivity. Qed.

(** With a local reference among the layers the import does not fail,
    although a layer has a reference that is not local and no such
    reference can be transformed: the local reference is returned. *)
Lemma local_reference_rescues :
  existsb (fun srs => negb (OSRIsLocal srs)) (layer_references two_layers) = true
  /\ forallb (fun srs => negb (bool_decide (is_Some (OCTNewCoordinateTransformation srs orthographic))))
       (layer_references two_layers) = true
  /\ (importGeoreferencing QString_number OCTNewCoordinateTransformation srsFromMap orthographic
        geo_srs two_layers empty_map).1 = Return local_srs.
Proof. repeat split; vm_compute; reflexivity. Qed.

(** ** Lines and polygons *)

Definition line_string (points : list (Q * Q)) : OGRGeometry := Geometry wkbLineString_ points [].

Definition polygon (rings : list OGRGeometry) : OGRGeometry :=
  Geometry (mkGeometryType wkbPolygon false) [] rings.

Definition plain_feature (geometry : OGRGeometry) : OGRFeature :=
  mkFeature (Some geometry) None [] "".

(** The parts of the object an import gives. *)
Definition parts_of (r : option Object * OgrFileImport) : option (list PathPart) :=
  obj_parts <$> r.1.

(** A line string of one point gives no object and is counted; one of
    two points gives a path of one part with both coordinates. *)
Example importLineStringGeometry_one_and_two_points :
  (importLineStringGeometry OGR_SM_parts OGR_ST_GetRGBFromString match_dash_pattern
     QString_number MapCoord_load toMapCoordF OGR_G_ForceToLineString
     (plain_feature (line_string [(1, 2)%Q])) (line_string [(1, 2)%Q]) st0).1 = None
  /\ too_few_coordinates
       (importLineStringGeometry OGR_SM_parts OGR_ST_GetRGBFromString match_dash_pattern
          QString_number MapCoord_load toMapCoordF OGR_G_ForceToLineString
          (plain_feature (line_string [(1, 2)%Q])) (line_string [(1, 2)%Q]) st0).2 = 1
  /\ parts_of
       (importLineStringGeometry OGR_SM_parts OGR_ST_GetRGBFromString match_dash_pattern
          QString_number MapCoord_load toMapCoordF OGR_G_ForceToLineString
          (plain_feature (line_string [(1, 2); (3, 4)]%Q)) (line_string [(1, 2); (3, 4)]%Q) st0)
     = Some [mkPathPart [(1000, 2000); (3000, 4000)] false].
Proof. repeat split; vm_compute; reflexivity. Qed.

Definition triangle : OGRGeometry := line_string [(0, 0); (9, 0); (0, 9)]%Q.

Definition hole : OGRGeometry := line_string [(1, 1); (2, 1); (1, 2)]%Q.

(** A polygon with an outer ring of two points gives no object and is
    counted; one with an outer ring of three points and a hole gives a
    path of two parts, both closed. *)
Example importPolygonGeometry_two_points_and_hole :
  (importPolygonGeometry OGR_SM_parts OGR_ST_GetRGBFromString match_dash_pattern
     QString_number MapCoord_load toMapCoordF OGR_G_ForceToLineString
     (plain_feature (polygon [line_string [(0, 0); (9, 0)]%Q]))
     (polygon [line_string [(0, 0); (9, 0)]%Q]) st0).1 = None
  /\ too_few_coordinates
       (importPolygonGeometry OGR_SM_parts OGR_ST_GetRGBFromString match_dash_pattern
          QString_number MapCoord_load toMapCoordF OGR_G_ForceToLineString
          (plain_feature (polygon [line_string [(0, 0); (9, 0)]%Q]))
          (polygon [line_string [(0, 0); (9, 0)]%Q]) st0).2 = 1
  /\ parts_of
       (importPolygonGeometry OGR_SM_parts OGR_ST_GetRGBFromString match_dash_pattern
          QString_number MapCoord_load toMapCoordF OGR_G_ForceToLineString
          (plain_feature (polygon [triangle; hole])) (polygon [triangle; hole]) st0)
     = Some [mkPathPart [(0, 0); (9000, 0); (0, 9000)] true;
             mkPathPart [(1000, 1000); (2000, 1000); (1000, 2000)] true].
Proof. repeat split; vm_compute; reflexivity. Qed.

(** ** Tags *)

(** A point with a rotated symbol and a field named like the tag the
    import gives the object. *)
Definition rotated_feature : OGRFeature :=
  mkFeature (Some (point_geometry 1 2)) None [("Rotation", "north")] "SYMBOL(c:#FF0000,a:45)".

(** The tags of the objects a feature import adds to the map. *)
Definition tags_of (r : Outcome (list Object) * OgrFileImport) : list (list (string * string)) :=
  match r.1 with
  | Return objects => List.map obj_tags objects
  | _ => []
  end.

(** C9, at the failing input.  The import of the point gives the
    object the tag [Rotation] with the value 45; the feature has a field
    [Rotation] with the value [north]; the object the feature import
    adds to the map has the single tag [Rotation] with the value
    [north]: the value the object had is gone. *)
Theorem field_replaces_object_tag :
  (obj_tags <$>
     (match (importPointGeometry OGR_SM_parts OGR_ST_GetRGBFromString match_dash_pattern
               QString_number QString_toDouble MapCoord_load toMapCoordF remove_formatting
               TextObject_alignment rotated_feature (point_geometry 1 2) st0).1 with
      | Return object => object
      | _ => None
      end)) = Some [("Rotation", "45")]
  /\ tags_of
       (importFeature OGR_SM_parts OGR_ST_GetRGBFromString match_dash_pattern QString_number
          QString_toDouble MapCoord_load toMapCoordF OGR_G_ForceToLineString remove_formatting
          TextObject_alignment OCTNewCoordinateTransformation icon_file_exists
          rotated_feature (point_geometry 1 2) None st0)
     = [[("Rotation", "north")]].
Proof. split; vm_compute; reflexivity. Qed.

(** ** Exported labels *)





End Fixture.

(** * The exporter *)

(** ** Export formats and their identifiers *)

(** A GDAL driver as [OgrFileExportFormat::makeAll] reads it: names
    and the metadata items, [None] for an item that is not set. *)
Record GDALDriver := mkDriver {
  GDALGetDriverShortName : string;
  GDALGetDriverLongName : string;
  GDAL_DCAP_VECTOR : option string;
  GDAL_DCAP_CREATE : option string;
  GDAL_DMD_EXTENSIONS : option string
}.

(** [qstrcmp(item, "YES") == 0], a null item comparing unequal. *)
Definition is_YES (item : option string) : bool :=
  match item with
  | Some s => String.eqb s "YES"
  | None => false
  end.

(** [qstrlen], zero for null. *)
Definition qstrlen (s : option string) : nat :=
  match s with
  | Some s => String.length s
  | None => O
  end.

(** [QString::split(QChar::Space)]: the pieces between spaces, empty ones included. *)
Fixpoint split_space (s : string) : list string :=
  match s with
  | EmptyString => [EmptyString]
  | String c rest =>
      if Ascii.eqb c " " then EmptyString :: split_space rest
      else match split_space rest with
           | piece :: pieces => String c piece :: pieces
           | [] => [String c EmptyString]
           end
  end.

(** [OgrFileExportFormat::OgrFileExportFormat(id, name, extensions)]. *)
Record OgrFileExportFormat := mkFormat {
  format_id : string;
  format_description : string;
  format_extensions : list string
}.

Definition OgrFileExportFormat_new (id : string) (name extensions : option string)
  : OgrFileExportFormat :=
  mkFormat id
    (if decide (0 < qstrlen name)%nat then c_str name else id)
    (split_space (c_str extensions)).

(** The drivers [makeAll] makes a format for. *)
Definition exports_vectors (driver_data : GDALDriver) : bool :=
  is_YES (GDAL_DCAP_VECTOR driver_data) && is_YES (GDAL_DCAP_CREATE driver_data)
  && negb (Nat.eqb (qstrlen (GDAL_DMD_EXTENSIONS driver_data)) 0).

Definition format_for (driver_data : GDALDriver) : OgrFileExportFormat :=
  OgrFileExportFormat_new ("OGR-export-" +:+ GDALGetDriverShortName driver_data)
    (Some (GDALGetDriverLongName driver_data)) (GDAL_DMD_EXTENSIONS driver_data).

(** [OgrFileExportFormat::makeAll], [drivers] being [GDALGetDriver(i)] for every index. *)
Definition makeAll (drivers : list GDALDriver) : list OgrFileExportFormat :=
  fold_left
    (fun result driver_data =>
       if negb (is_YES (GDAL_DCAP_VECTOR driver_data))
          || negb (is_YES (GDAL_DCAP_CREATE driver_data))
          || Nat.eqb (qstrlen (GDAL_DMD_EXTENSIONS driver_data)) 0
       then result
       else result ++ [format_for driver_data])
    drivers [].

(** The member [id] after the constructor of [OgrFileExport]: the
    identifier without the prefix of eleven characters; null when the
    identifier given is empty. *)
Definition OgrFileExport_id (id : string) : option string :=
  let this_id :=
    if String.prefix "OGR-export-" id
    then String.substring 11 (String.length id - 11) id
    else id in
  if decide (String.length id = 0)%nat then None else Some this_id.

Lemma substring_all (s : string) : String.substring 0 (String.length s) s = s.
Proof. induction s as [| c s IH]; simpl; [done | by rewrite IH]. Qed.

Lemma makeAll_from drivers result :
  fold_left
    (fun result driver_data =>
       if negb (is_YES (GDAL_DCAP_VECTOR driver_data))
          || negb (is_YES (GDAL_DCAP_CREATE driver_data))
          || Nat.eqb (qstrlen (GDAL_DMD_EXTENSIONS driver_data)) 0
       then result
       else result ++ [format_for driver_data])
    drivers result
  = result ++ List.map format_for (List.filter exports_vectors drivers).
Proof.
  revert result. induction drivers as [| d drivers IH]; intros result; simpl.
  - by rewrite app_nil_r.
  - rewrite IH. unfold exports_vectors.
    destruct (is_YES (GDAL_DCAP_VECTOR d)), (is_YES (GDAL_DCAP_CREATE d)),
      (Nat.eqb (qstrlen (GDAL_DMD_EXTENSIONS d)) 0); simpl; try done;
      by rewrite <- app_assoc.
Qed.

(** X11.  [makeAll] makes one format for every driver that can create
    vector data and names extensions, in the order of the drivers, and
    the exporter made for such a format gets the short name of the
    driver back from the identifier of the format. *)
Theorem export_id_round_trip drivers :
  makeAll drivers = List.map format_for (List.filter exports_vectors drivers)
  /\ forall driver_data,
       OgrFileExport_id (format_id (format_for driver_data))
       = Some (GDALGetDriverShortName driver_data).
Proof.
  split; [apply (makeAll_from drivers []) |].
  intros d. unfold OgrFileExport_id, format_for. cbn [format_id OgrFileExportFormat_new].
  generalize (GDALGetDriverShortName d). intros name.
  change ("OGR-export-" +:+ name)
    with (String "O" (String "G" (String "R" (String "-" (String "e" (String "x" (String "p"
           (String "o" (String "r" (String "t" (String "-" name))))))))))).
  cbn [String.length]. rewrite decide_False by lia.
  replace (String.prefix "OGR-export-" _) with true by (by destruct name).
  cbv zeta. f_equal.
  replace (S (S (S (S (S (S (S (S (S (S (S (String.length name))))))))))) - 11)%nat
    with (String.length name) by lia.
  cbn [String.substring]. apply substring_all.
Qed.

(** ** Driver quirks *)

Record OgrQuirks := mkQuirks {
  GeorefOptional : bool;
  NeedsWgs84 : bool;
  SingleLayer : bool;
  UseLayerField : bool
}.

(** [OgrQuirks()] and [operator|]. *)
Definition no_quirks : OgrQuirks := mkQuirks false false false false.

Definition quirks_or (a b : OgrQuirks) : OgrQuirks :=
  mkQuirks (GeorefOptional a || GeorefOptional b) (NeedsWgs84 a || NeedsWgs84 b)
    (SingleLayer a || SingleLayer b) (UseLayerField a || UseLayerField b).

Definition georef_optional : OgrQuirks := mkQuirks true false false false.

Definition needs_wgs84 : OgrQuirks := mkQuirks false true false false.

(** The table in [setupQuirks]. *)
Definition driver_quirks : list (string * OgrQuirks) :=
  [ ("ARCGEN", georef_optional);
    ("BNA", georef_optional);
    ("CSV", georef_optional);
    ("DGN", georef_optional);
    ("DGNv8", georef_optional);
    ("DWG", georef_optional);
    ("DXF", mkQuirks true false true true);
    ("Geomedia", georef_optional);
    ("GPX", needs_wgs84);
    ("INGRES", georef_optional);
    ("LIBKML", needs_wgs84);
    ("ODS", georef_optional);
    ("OpenJUMP .jml", georef_optional);
    ("REC", georef_optional);
    ("SEGY", georef_optional);
    ("XLS", georef_optional);
    ("XLSX", georef_optional) ].

(** [OgrFileExport::setupQuirks], on the short name of the driver. *)
Definition setupQuirks (driver_name : string) (quirks : OgrQuirks) : OgrQuirks :=
  match List.find (fun entry => String.eqb driver_name (fst entry)) driver_quirks with
  | Some driver_info => quirks_or quirks (snd driver_info)
  | None => quirks
  end.

Section Georeferencing.

(** [OSRImportFromProj4(map_srs, spec) == OGRERR_NONE]. *)
Variable OSRImportFromProj4_ok : string -> bool.

(** [local_only] in [setupGeoreferencing], with the warnings added. *)
Definition local_only (georef : Georeferencing) : bool * list string :=
  match georef_state georef with
  | Georeferencing.Local =>
      (true, ["The map is not georeferenced. Local georeferencing only."])
  | Georeferencing.Geospatial =>
      if OSRImportFromProj4_ok (projected_crs_spec georef) then (false, [])
      else (true, ["Failed to properly export the georeferencing info. Local georeferencing only."])
  end.

(** [OgrFileExport::setupGeoreferencing]: the warnings and whether a
    transformation to WGS84 is set up, or the exception. *)
Definition setupGeoreferencing (driver_name : string) (quirks : OgrQuirks) (georef : Georeferencing)
  : Outcome (list string * bool) :=
  let '(local_only, warnings) := local_only georef in
  if local_only && negb (GeorefOptional quirks)
  then Throw ("The " +:+ driver_name +:+ " driver requires valid georefencing info.")
  else Return (warnings, NeedsWgs84 quirks).

(** The drivers that work without georeferencing. *)
Definition local_drivers : list string :=
  ["ARCGEN"; "BNA"; "CSV"; "DGN"; "DGNv8"; "DWG"; "DXF"; "Geomedia"; "INGRES"; "ODS";
   "OpenJUMP .jml"; "REC"; "SEGY"; "XLS"; "XLSX"].

Ltac each_driver name :=
  repeat match goal with
         | |- context [String.eqb name ?s] =>
             destruct (String.eqb_spec name s); [subst; reflexivity |]
         end;
  reflexivity.

Lemma setupQuirks_GeorefOptional name :
  GeorefOptional (setupQuirks name no_quirks) = existsb (String.eqb name) local_drivers.
Proof. unfold setupQuirks, driver_quirks, local_drivers. cbn [List.find existsb fst]. each_driver name. Qed.

Lemma setupQuirks_NeedsWgs84 name :
  NeedsWgs84 (setupQuirks name no_quirks) = existsb (String.eqb name) ["GPX"; "LIBKML"].
Proof. unfold setupQuirks, driver_quirks. cbn [List.find existsb fst]. each_driver name. Qed.

Lemma setupQuirks_SingleLayer name :
  SingleLayer (setupQuirks name no_quirks) = String.eqb name "DXF"
  /\ UseLayerField (setupQuirks name no_quirks) = String.eqb name "DXF".
Proof.
  unfold setupQuirks, driver_quirks. cbn [List.find fst].
  split; each_driver name.
Qed.

(** X12.  With the quirks of the driver set up, the georeferencing
    setup of an export raises the exception exactly when the map is
    local, or its projected CRS specification cannot be imported, and
    the driver is not one of the fifteen drivers that work without
    georeferencing; a transformation to WGS84 is set up exactly for
    GPX and LIBKML, and DXF alone writes a single layer with the
    symbol name in the layer field. *)
Theorem setupGeoreferencing_throws name georef :
  ((exists what, setupGeoreferencing name (setupQuirks name no_quirks) georef = Throw what)
   <-> (local_only georef).1 = true /\ existsb (String.eqb name) local_drivers = false)
  /\ (forall warnings wgs84,
        setupGeoreferencing name (setupQuirks name no_quirks) georef = Return (warnings, wgs84) ->
        wgs84 = existsb (String.eqb name) ["GPX"; "LIBKML"])
  /\ SingleLayer (setupQuirks name no_quirks) = String.eqb name "DXF"
  /\ UseLayerField (setupQuirks name no_quirks) = String.eqb name "DXF".
Proof.
  split; [| split; [| apply setupQuirks_SingleLayer]].
  - unfold setupGeoreferencing. rewrite setupQuirks_GeorefOptional.
    generalize (existsb (String.eqb name) local_drivers). intros optional.
    destruct (local_only georef) as [[|] warnings], optional; cbn [fst snd andb negb].
    + split; [by intros [? ?] | by intros [_ ?]].
    + split; [done | eauto].
    + split; [by intros [? ?] | by intros [? _]].
    + split; [by intros [? ?] | by intros [? _]].
  - intros warnings wgs84. unfold setupGeoreferencing. rewrite <- setupQuirks_NeedsWgs84.
    destruct (local_only georef) as [lo ws].
    destruct (lo && negb _); [done |]. by intros [= _ <-].
Qed.

End Georeferencing.

(** ** The fields of an exported text *)

Lemma substring_0_length n (s : string) :
  (String.length (String.substring 0 n s) <= n)%nat
  /\ ((String.length s <= n)%nat -> String.substring 0 n s = s).
Proof.
  revert s. induction n as [| n IH]; intros s.
  - destruct s; simpl; split; try lia; done.
  - destruct s as [| c s]; simpl; [split; [lia | done] |].
    destruct (IH s) as [H1 H2]. split; [lia |]. intros Hl. rewrite H2; [done | lia].
Qed.

(** X13.  When the layer has a name field, the field of an exported
    text that holds the symbol name is overwritten with the text: the
    field [Name] holds the first 32 characters of the text, the whole
    text when it is not longer, and then the style keeps its
    placeholder.  Under the layer-field quirk the field [Layer] holds
    the first 32 characters of the symbol name and the feature has no
    other field. *)
Theorem addTextToLayer_fields sym_name text point style :
  KeyValueContainer.find "Name"
    (feature_fields (addTextToLayer_feature (name_field_definition false) sym_name text point style))
  = Some (QString_left 32 text)
  /\ (String.length (QString_left 32 text) <= 32)%nat
  /\ ((String.length text <= 32)%nat ->
      QString_left 32 text = text
      /\ feature_style (addTextToLayer_feature (name_field_definition false) sym_name text point style)
         = style)
  /\ feature_fields (addTextToLayer_feature (name_field_definition true) sym_name text point style)
     = [("Layer", QString_left 32 sym_name)].
Proof.
  destruct (substring_0_length 32 text) as [Hlen Hall].
  split; [done |]. split; [exact Hlen |]. split; [| done].
  intros Hshort. split; [by apply Hall |].
  unfold addTextToLayer_feature, text_style. cbn [feature_style name_field_definition o_name_field].
  by rewrite decide_False by lia.
Qed.

(** ** Writing path objects *)

(** A feature as it is handed to [OGR_L_CreateFeature]. *)
Record OGRCreatedFeature := mkCreated {
  created_fields : KeyValueContainer;
  created_geometry : OGRGeometry;
  created_style : string
}.

(** [OGR_G_AddPoint_2D] and [OGR_G_AddGeometry]. *)
Definition OGR_G_AddPoint_2D (g : OGRGeometry) (point : Q * Q) : OGRGeometry :=
  match g with
  | Geometry type points geometries => Geometry type (points ++ [point]) geometries
  end.

Definition OGR_G_AddGeometry (g sub : OGRGeometry) : OGRGeometry :=
  match g with
  | Geometry type points geometries => Geometry type points (geometries ++ [sub])
  end.

Section Exporter.

(** [georef.toProjectedCoords] on the position of a path coordinate. *)
Variable toProjectedCoords : Q * Q -> Q * Q.

(** The positions of [part.path_coords]. *)
Variable path_coords : PathPart -> list (Q * Q).

(** [symbol->getPlainTextName()] and
    [OGR_STBL_Find(table.get(), symbolId(symbol))]. *)
Variable getPlainTextName : SymbolPtr -> string.

Variable OGR_STBL_Find : SymbolPtr -> string.

(** [OGR_L_CreateFeature(layer, feature) == OGRERR_NONE] and
    [CPLGetLastErrorMsg()]. *)
Variable OGR_L_CreateFeature : OGRCreatedFeature -> bool.

Variable CPLGetLastErrorMsg : string.

Variable OGR_G_CloseRings : OGRGeometry -> OGRGeometry.

(** The members [quirks], [transformation] and [symbol_field]. *)
Variable quirks : OgrQuirks.

Variable transformation : option Transformation.

Variable exporter : OgrFileExport.

(** [OGR_G_Transform(geometry, transformation.get())] with the result
    ignored: the geometry is transformed in place, and left as it is
    when there is no transformation or the transformation fails. *)
Definition OGR_G_Transform (g : OGRGeometry) : OGRGeometry :=
  match transformation with
  | Some t => default g (t g)
  | None => g
  end.

(** The loop over [part.path_coords]. *)
Definition add_path_coords (part : PathPart) (g : OGRGeometry) : OGRGeometry :=
  fold_left (fun g coord => OGR_G_AddPoint_2D g (toProjectedCoords coord)) (path_coords part) g.

Definition create_feature (feature : OGRCreatedFeature) (layer : list OGRCreatedFeature)
  : Outcome unit * list OGRCreatedFeature :=
  if OGR_L_CreateFeature feature then (Return tt, layer ++ [feature])
  else (Throw ("Failed to create feature in layer: " +:+ CPLGetLastErrorMsg), layer).

(** The loop over the parts in [add_feature] of [addLinesToLayer]:
    [line_string] is the geometry made before the loop. *)
Fixpoint addLinesToLayer_parts (sym_name : string) (symbol : SymbolPtr) (parts : list PathPart)
    (line_string : OGRGeometry) (layer : list OGRCreatedFeature)
  : Outcome unit * list OGRCreatedFeature :=
  match parts with
  | [] => (Return tt, layer)
  | part :: parts =>
      let fields := KeyValueContainer.insert_or_assign (symbol_field exporter) sym_name [] in
      let line_string := add_path_coords part line_string in
      let line_string := if NeedsWgs84 quirks then OGR_G_Transform line_string else line_string in
      match create_feature (mkCreated fields line_string (OGR_STBL_Find symbol)) layer with
      | (Return _, layer) => addLinesToLayer_parts sym_name symbol parts line_string layer
      | failed => failed
      end
  end.

(** [add_feature] of [OgrFileExport::addLinesToLayer], [layer] being
    the features created in the layer so far. *)
Definition addLinesToLayer_feature (object : Object) (layer : list OGRCreatedFeature)
  : Outcome unit * list OGRCreatedFeature :=
  match obj_parts object with
  | [] => (Return tt, layer)
  | parts =>
      let sym_name := QString_left 32 (getPlainTextName (obj_symbol object)) in
      let line_string := Geometry (mkGeometryType wkbLineString false) [] [] in
      addLinesToLayer_parts sym_name (obj_symbol object) parts line_string layer
  end.

(** The loop over the parts in [add_feature] of [addAreasToLayer],
    on the polygon and the current ring. *)
Definition addAreasToLayer_parts (parts : list PathPart) (polygon cur_ring : OGRGeometry)
  : OGRGeometry * OGRGeometry :=
  fold_left
    (fun '(polygon, cur_ring) part =>
       let cur_ring := add_path_coords part cur_ring in
       let cur_ring := OGR_G_CloseRings cur_ring in
       let cur_ring := if NeedsWgs84 quirks then OGR_G_Transform cur_ring else cur_ring in
       let polygon := OGR_G_AddGeometry polygon cur_ring in
       (polygon, Geometry wkbLinearRing [] []))
    parts (polygon, cur_ring).

(** [add_feature] of [OgrFileExport::addAreasToLayer]. *)
Definition addAreasToLayer_feature (object : Object) (layer : list OGRCreatedFeature)
  : Outcome unit * list OGRCreatedFeature :=
  match obj_parts object with
  | [] => (Return tt, layer)
  | parts =>
      let sym_name := QString_left 32 (getPlainTextName (obj_symbol object)) in
      let fields := KeyValueContainer.insert_or_assign (symbol_field exporter) sym_name [] in
      let polygon := Geometry (mkGeometryType wkbPolygon false) [] [] in
      let cur_ring := Geometry wkbLinearRing [] [] in
      let '(polygon, _) := addAreasToLayer_parts parts polygon cur_ring in
      create_feature (mkCreated fields polygon (OGR_STBL_Find (obj_symbol object))) layer
  end.

(** [map->applyOnMatchingObjects(add_feature, condition)] on the
    objects of the map in their order, up to the first exception. *)
Fixpoint applyOnMatchingObjects
    (add_feature : Object -> list OGRCreatedFeature -> Outcome unit * list OGRCreatedFeature)
    (condition : Object -> bool) (objects : list Object) (layer : list OGRCreatedFeature)
  : Outcome unit * list OGRCreatedFeature :=
  match objects with
  | [] => (Return tt, layer)
  | object :: objects =>
      if condition object then
        match add_feature object layer with
        | (Return _, layer) => applyOnMatchingObjects add_feature condition objects layer
        | failed => failed
        end
      else applyOnMatchingObjects add_feature condition objects layer
  end.

Definition addLinesToLayer := applyOnMatchingObjects addLinesToLayer_feature.

Definition addAreasToLayer := applyOnMatchingObjects addAreasToLayer_feature.

(** The projected positions of a part. *)
Definition projected (part : PathPart) : list (Q * Q) :=
  List.map toProjectedCoords (path_coords part).

Lemma add_path_coords_points part type points geometries :
  add_path_coords part (Geometry type points geometries)
  = Geometry type (points ++ projected part) geometries.
Proof.
  unfold add_path_coords, projected. revert points.
  induction (path_coords part) as [| coord coords IH]; intros points; simpl.
  - by rewrite app_nil_r.
  - rewrite IH. by rewrite <- app_assoc.
Qed.

(** The feature of a line object whose line string holds [points]. *)
Definition line_feature (object : Object) (points : list (Q * Q)) : OGRCreatedFeature :=
  mkCreated [(symbol_field exporter, QString_left 32 (getPlainTextName (obj_symbol object)))]
    (Geometry (mkGeometryType wkbLineString false) points [])
    (OGR_STBL_Find (obj_symbol object)).

Lemma addLinesToLayer_parts_spec object parts points layer :
  NeedsWgs84 quirks = false ->
  (forall feature, OGR_L_CreateFeature feature = true) ->
  addLinesToLayer_parts (QString_left 32 (getPlainTextName (obj_symbol object))) (obj_symbol object)
    parts (Geometry (mkGeometryType wkbLineString false) points []) layer
  = (Return tt,
     layer ++ List.map (fun i => line_feature object (points ++ flat_map projected (take i parts)))
                (seq 1 (length parts))).
Proof.
  intros Hq Hc. revert points layer.
  induction parts as [| part parts IH]; intros points layer.
  - simpl. by rewrite app_nil_r.
  - cbn [addLinesToLayer_parts]. rewrite Hq, add_path_coords_points.
    unfold create_feature. rewrite Hc. rewrite IH.
    f_equal. rewrite <- app_assoc. f_equal.
    cbn [length seq List.map app]. rewrite <- (seq_shift (length parts) 1), List.map_map.
    cbn [take flat_map]. rewrite !app_nil_r. apply (f_equal2 cons); [done |].
    apply List.map_ext. intros i. by rewrite <- app_assoc.
Qed.

(** X14.  A line object whose features are all created gets one
    feature per part, but the line string is made once for the object
    and never emptied: the feature of part [i] holds the projected
    positions of the parts 1 to [i] together, not those of part [i]
    alone (stated where no transformation to WGS84 is applied; an
    object without parts gives no feature). *)
Theorem addLinesToLayer_accumulates object layer :
  NeedsWgs84 quirks = false ->
  (forall feature, OGR_L_CreateFeature feature = true) ->
  addLinesToLayer_feature object layer
  = (Return tt,
     layer ++ List.map (fun i => line_feature object (flat_map projected (take i (obj_parts object))))
                (seq 1 (length (obj_parts object)))).
Proof.
  intros Hq Hc. unfold addLinesToLayer_feature.
  destruct (obj_parts object) as [| part parts] eqn:E.
  - simpl. by rewrite app_nil_r.
  - rewrite <- E. by rewrite addLinesToLayer_parts_spec.
Qed.

(** The ring [addAreasToLayer] makes of one part. *)
Definition area_ring (part : PathPart) : OGRGeometry :=
  let ring := OGR_G_CloseRings (Geometry wkbLinearRing (projected part) []) in
  if NeedsWgs84 quirks then OGR_G_Transform ring else ring.

Lemma addAreasToLayer_parts_spec parts type points rings :
  addAreasToLayer_parts parts (Geometry type points rings) (Geometry wkbLinearRing [] [])
  = (Geometry type points (rings ++ List.map area_ring parts), Geometry wkbLinearRing [] []).
Proof.
  unfold addAreasToLayer_parts. revert rings.
  induction parts as [| part parts IH]; intros rings.
  - simpl. by rewrite app_nil_r.
  - cbn [fold_left List.map]. rewrite add_path_coords_points. cbn [app].
    cbn [OGR_G_AddGeometry]. rewrite IH. unfold area_ring at 2. cbv zeta.
    by rewrite <- app_assoc.
Qed.

(** X15.  An area object with parts gives one feature, created or
    refused as a whole: its polygon has one ring per part, in the
    order of the parts, and each ring holds the projected positions of
    its own part alone, closed and then transformed when the driver
    needs WGS84; when the layer refuses the feature the exception is
    raised and the layer is left as it was.  An object without parts
    gives no feature. *)
Theorem addAreasToLayer_rings object layer :
  (obj_parts object = [] -> addAreasToLayer_feature object layer = (Return tt, layer))
  /\ (obj_parts object <> [] ->
      exists feature,
        created_geometry feature
        = Geometry (mkGeometryType wkbPolygon false) [] (List.map area_ring (obj_parts object))
        /\ created_fields feature
           = [(symbol_field exporter, QString_left 32 (getPlainTextName (obj_symbol object)))]
        /\ created_style feature = OGR_STBL_Find (obj_symbol object)
        /\ addAreasToLayer_feature object layer
           = if OGR_L_CreateFeature feature then (Return tt, layer ++ [feature])
             else (Throw ("Failed to create feature in layer: " +:+ CPLGetLastErrorMsg), layer)).
Proof.
  unfold addAreasToLayer_feature. split.
  - by intros ->.
  - intros Hparts. destruct (obj_parts object) as [| part parts] eqn:E; [done |].
    rewrite addAreasToLayer_parts_spec. cbn [app].
    eexists. split; [| split; [| split]]; [| | | reflexivity]; done.
Qed.

End Exporter.

(** ** Style strings of line and area symbols *)

(** What [makeStyleString] reads of a line symbol and of its border:
    [isVisible()], [color] (read only of a visible border), [width],
    [shift] and [dashed]; [getColor()], [getLineWidth()],
    [isDashed()], [hasBorder()], [getBorder()] and
    [guessDominantColor()]. *)
Record LineSymbolBorder := mkBorder {
  border_isVisible : bool;
  border_color : MapColor;
  border_width : Z;
  border_shift : Z;
  border_dashed : bool
}.

Record LineSymbol := mkLineSymbol {
  line_getColor : option MapColor;
  line_getLineWidth : Z;
  line_isDashed : bool;
  line_hasBorder : bool;
  line_getBorder : LineSymbolBorder;
  line_guessDominantColor : option MapColor
}.

(** What [makeStyleString] reads of an area symbol: [getColor()] and
    the fill patterns, each with its type, [line_color] and [angle]. *)
Inductive FillPatternType := LinePattern | PointPattern.

Record FillPattern := mkFillPattern {
  pattern_type : FillPatternType;
  pattern_line_color : option MapColor;
  pattern_angle : Q
}.

Record AreaSymbol := mkAreaSymbol {
  area_getColor : option MapColor;
  area_fill_patterns : list FillPattern
}.

(** [QByteArray::chop(1)]; [QByteArray::endsWith(char)] is [endsWith]. *)
Fixpoint chop1 (s : string) : string :=
  match s with
  | EmptyString => EmptyString
  | String _ EmptyString => EmptyString
  | String d rest => String d (chop1 rest)
  end.

(** [std::rotate(begin + first, begin + middle, end)] on the
    characters of a string: the characters from [middle] on move in
    front of those between [first] and [middle]. *)
Definition std_rotate (first middle : nat) (s : string) : string :=
  let l := list_ascii_of_string s in
  string_of_list_ascii (take first l ++ drop middle l ++ take (middle - first) (drop first l)).

Section Styles.

(** [QColor(color->getRgb()).name(QColor::HexArgb).toLatin1()]. *)
Variable QColor_name_HexArgb : MapColor -> string.

(** [QByteArray::number] of a double and of an int. *)
Variable QByteArray_number : Q -> string.

Variable QByteArray_number_int : Z -> string.

Variable qRadiansToDegrees : Q -> Q.

Definition toRgbString (color : MapColor) : string :=
  std_rotate 1 3 (QColor_name_HexArgb color).

Definition dash_parameter : string := ",p:" +:+ String dquote "2mm 1mm" +:+ String dquote "".

(** The pen of the line itself. *)
Definition main_pen (line_symbol : LineSymbol) (main_color : MapColor) (style : string) : string :=
  let style := style +:+ ("PEN(c:" +:+ toRgbString main_color) in
  let style :=
    style +:+ (",w:" +:+ QByteArray_number (inject_Z (line_getLineWidth line_symbol) / 1000) +:+ "mm") in
  let style := if line_isDashed line_symbol then style +:+ dash_parameter else style in
  let style := style +:+ (",l:" +:+ QByteArray_number_int (- color_priority main_color)) in
  style +:+ ");".

(** The pen of a border, [shift] being [-left_border.shift] for the
    left and [right_border.shift] for the right border. *)
Definition border_pen (border : LineSymbolBorder) (shift : Z) (style : string) : string :=
  let style := style +:+ ("PEN(c:" +:+ toRgbString (border_color border)) in
  let style := style +:+ (",w:" +:+ QByteArray_number (inject_Z (border_width border) / 1000) +:+ "mm") in
  let style := style +:+ (",dp:" +:+ QByteArray_number (inject_Z shift / 1000) +:+ "mm") in
  let style :=
    style +:+ (",l:" +:+ QByteArray_number_int (- color_priority (border_color border))) in
  let style := if border_dashed border then style +:+ dash_parameter else style in
  style +:+ ");".

(** The pen written when nothing else was. *)
Definition dominant_pen (main_color : MapColor) (style : string) : string :=
  let style := style +:+ ("PEN(c:" +:+ toRgbString main_color) in
  let style := style +:+ ",w:1pt" in
  let style := style +:+ (",l:" +:+ QByteArray_number_int (- color_priority main_color)) in
  style +:+ ")".

(** [makeStyleString] for a [LineSymbol]. *)
Definition makeStyleString_line (line_symbol : LineSymbol) : string :=
  let style := "" in
  let style :=
    match line_getColor line_symbol with
    | Some main_color =>
        if negb (Z.eqb (line_getLineWidth line_symbol) 0)
        then main_pen line_symbol main_color style
        else style
    | None => style
    end in
  let style :=
    if line_hasBorder line_symbol then
      let left_border := line_getBorder line_symbol in
      let style :=
        if border_isVisible left_border
        then border_pen left_border (- border_shift left_border) style
        else style in
      let right_border := line_getBorder line_symbol in
      if border_isVisible right_border
      then border_pen right_border (border_shift right_border) style
      else style
    else style in
  let style :=
    if decide (style = "") then
      match line_guessDominantColor line_symbol with
      | Some main_color => dominant_pen main_color style
      | None => style
      end
    else style in
  if endsWith ";" style then chop1 style else style.

(** The brush of the area color and the brush of a line pattern. *)
Definition color_brush (color : MapColor) (style : string) : string :=
  let style := style +:+ ("BRUSH(fc:" +:+ toRgbString color) in
  let style := style +:+ (",l:" +:+ QByteArray_number_int (- color_priority color)) in
  style +:+ ");".

Definition pattern_brush (part : FillPattern) (line_color : MapColor) (style : string) : string :=
  let style := style +:+ ("BRUSH(fc:" +:+ toRgbString line_color) in
  let style := style +:+ (",id:" +:+ String dquote "ogr-brush-2" +:+ String dquote "") in
  let style := style +:+ (",a:" +:+ QByteArray_number (qRadiansToDegrees (pattern_angle part))) in
  let style := style +:+ (",l:" +:+ QByteArray_number_int (- color_priority line_color)) in
  style +:+ ");".

(** [makeStyleString] for an [AreaSymbol]. *)
Definition makeStyleString_area (area_symbol : AreaSymbol) : string :=
  let style := "" in
  let style :=
    match area_getColor area_symbol with
    | Some color => color_brush color style
    | None => style
    end in
  let style :=
    fold_left
      (fun style part =>
         match pattern_type part with
         | LinePattern =>
             match pattern_line_color part with
             | None => style
             | Some line_color => pattern_brush part line_color style
             end
         | PointPattern => style
         end)
      (area_fill_patterns area_symbol) style in
  if endsWith ";" style then chop1 style else style.

(** [style] is empty or ends with a closed tool and a semicolon. *)
Definition closed_tools (style : string) : Prop :=
  style = "" \/ exists tools, style = tools +:+ ");".

Lemma append_is_empty (s t : string) : s +:+ t = "" -> t = "".
Proof. destruct s; [by rewrite append_nil_l | by rewrite append_cons]. Qed.

Lemma endsWith_append (s : string) c d :
  endsWith d (s +:+ String c "") = Ascii.eqb c d /\ chop1 (s +:+ String c "") = s.
Proof.
  induction s as [| e s [IH1 IH2]].
  - by rewrite append_nil_l.
  - rewrite append_cons. cbn [endsWith chop1]. rewrite IH1, IH2.
    destruct (s +:+ String c "") eqn:E; [| done].
    apply append_is_empty in E. done.
Qed.

Lemma endsWith_tools (tools : string) :
  endsWith ";" (tools +:+ ");") = true
  /\ chop1 (tools +:+ ");") = tools +:+ ")"
  /\ endsWith ")" (tools +:+ ")") = true
  /\ endsWith ";" (tools +:+ ")") = false.
Proof.
  change ");" with (")" +:+ ";"). rewrite <- append_assoc.
  destruct (endsWith_append (tools +:+ ")") ";" ";") as [-> ->].
  destruct (endsWith_append tools ")" ")") as [-> _].
  destruct (endsWith_append tools ")" ";") as [-> _]. done.
Qed.

Lemma closed_tools_finish style :
  closed_tools style ->
  let result := if endsWith ";" style then chop1 style else style in
  (result = "" <-> style = "") /\ (result <> "" -> endsWith ")" result = true).
Proof.
  intros [-> | [tools ->]]; [done |].
  destruct (endsWith_tools tools) as (-> & -> & H & _). cbv zeta.
  split; [| done]. split; intros E; apply append_is_empty in E; done.
Qed.

Lemma main_pen_closed l c style : closed_tools (main_pen l c style) /\ main_pen l c style <> "".
Proof.
  unfold main_pen. split; [right; eauto |]. intros E. by apply append_is_empty in E.
Qed.

Lemma border_pen_closed b shift style :
  closed_tools (border_pen b shift style) /\ border_pen b shift style <> "".
Proof.
  unfold border_pen. split; [right; eauto |]. intros E. by apply append_is_empty in E.
Qed.

Lemma color_brush_closed c style : closed_tools (color_brush c style) /\ color_brush c style <> "".
Proof.
  unfold color_brush. split; [right; eauto |]. intros E. by apply append_is_empty in E.
Qed.

Lemma pattern_brush_closed p c style :
  closed_tools (pattern_brush p c style) /\ pattern_brush p c style <> "".
Proof.
  unfold pattern_brush. split; [right; eauto |]. intros E. by apply append_is_empty in E.
Qed.

Lemma dominant_pen_ends c :
  dominant_pen c "" <> "" /\ endsWith ";" (dominant_pen c "") = false
  /\ endsWith ")" (dominant_pen c "") = true.
Proof.
  unfold dominant_pen. cbv zeta.
  match goal with |- ?s +:+ ")" <> _ /\ _ => generalize s end. intros tools.
  destruct (endsWith_tools tools) as (_ & _ & -> & ->).
  split; [| done]. intros E. by apply append_is_empty in E.
Qed.

(** The line symbol writes a pen of its own or of its border. *)
Definition has_pen (line_symbol : LineSymbol) : bool :=
  match line_getColor line_symbol with
  | Some _ => negb (Z.eqb (line_getLineWidth line_symbol) 0)
  | None => false
  end
  || line_hasBorder line_symbol && border_isVisible (line_getBorder line_symbol).

(** X16.  The style string of a line symbol is empty exactly when the
    symbol has neither a colored line of a width, nor a visible
    border, nor a dominant color; otherwise it ends with the closing
    parenthesis of its last tool: the semicolon after the last tool is
    always removed. *)
Theorem makeStyleString_line_closed line_symbol :
  (makeStyleString_line line_symbol = ""
   <-> has_pen line_symbol = false /\ line_guessDominantColor line_symbol = None)
  /\ (makeStyleString_line line_symbol <> "" ->
      endsWith ")" (makeStyleString_line line_symbol) = true
      /\ endsWith ";" (makeStyleString_line line_symbol) = false).
Proof.
  unfold makeStyleString_line, has_pen. cbv zeta.
  set (style1 := match line_getColor line_symbol with
                 | Some main_color =>
                     if negb (Z.eqb (line_getLineWidth line_symbol) 0)
                     then main_pen line_symbol main_color ""
                     else ""
                 | None => ""
                 end).
  set (main := match line_getColor line_symbol with
               | Some _ => negb (Z.eqb (line_getLineWidth line_symbol) 0)
               | None => false
               end).
  assert (H1 : closed_tools style1 /\ (style1 = "" <-> main = false)).
  { unfold style1, main. destruct (line_getColor line_symbol) as [c |]; [| by split; [left |]].
    destruct (negb _); [| by split; [left |]].
    destruct (main_pen_closed line_symbol c "") as [Hc Hn]. split; [done |]. by split. }
  clearbody style1 main. destruct H1 as [Hc1 He1].
  set (border := line_getBorder line_symbol).
  set (style2 := if line_hasBorder line_symbol then _ else style1).
  assert (H2 : closed_tools style2
               /\ (style2 = "" <-> main || line_hasBorder line_symbol && border_isVisible border = false)).
  { unfold style2. destruct (line_hasBorder line_symbol); cbn [andb].
    - destruct (border_isVisible border).
      + destruct (border_pen_closed border (border_shift border)
                    (border_pen border (- border_shift border) style1)) as [Hc Hn].
        split; [done |]. rewrite orb_true_r. by split.
      + rewrite orb_false_r. by split.
    - rewrite orb_false_r. by split. }
  clearbody style2. destruct H2 as [Hc2 He2].
  destruct (decide (style2 = "")) as [-> | Hne].
  - destruct He2 as [He2 _]. rewrite (He2 eq_refl).
    destruct (line_guessDominantColor line_symbol) as [c |].
    + destruct (dominant_pen_ends c) as (Hn & -> & Hp).
      split; [split; [done | by intros [_ ?]] |]. intros _. split; [done |].
      destruct (dominant_pen_ends c) as (_ & E & _). unfold dominant_pen in E. done.
    + done.
  - destruct (closed_tools_finish style2 Hc2) as [Hr Hp]. cbv zeta in Hr, Hp.
    destruct Hc2 as [-> | [tools ->]]; [done |].
    destruct (endsWith_tools tools) as (E1 & E2 & E3 & E4). rewrite E1, E2 in *.
    split.
    + split; [intros E; by apply append_is_empty in E |].
      intros [Hb _]. by apply He2 in Hb.
    + intros _. by split.
Qed.

(** An area symbol writes a brush for its color or for a line pattern
    with a color. *)
Definition has_brush (area_symbol : AreaSymbol) : bool :=
  match area_getColor area_symbol with Some _ => true | None => false end
  || existsb
       (fun part =>
          match pattern_type part, pattern_line_color part with
          | LinePattern, Some _ => true
          | _, _ => false
          end)
       (area_fill_patterns area_symbol).

Lemma fill_patterns_closed patterns style :
  let step := fun style part =>
    match pattern_type part with
    | LinePattern =>
        match pattern_line_color part with
        | None => style
        | Some line_color => pattern_brush part line_color style
        end
    | PointPattern => style
    end in
  closed_tools style ->
  closed_tools (fold_left step patterns style)
  /\ (fold_left step patterns style = ""
      <-> style = ""
          /\ existsb
               (fun part =>
                  match pattern_type part, pattern_line_color part with
                  | LinePattern, Some _ => true
                  | _, _ => false
                  end) patterns = false).
Proof.
  intros step. revert style. induction patterns as [| part patterns IH]; intros style Hc.
  - simpl. split; [done |]. split; [done | by intros [? _]].
  - cbn [fold_left existsb]. unfold step at 2 4.
    destruct (pattern_type part).
    + destruct (pattern_line_color part) as [c |].
      * destruct (pattern_brush_closed part c style) as [Hp Hn].
        destruct (IH _ Hp) as [IH1 IH2]. split; [done |]. cbn [orb].
        split; [| by intros [_ ?]]. intros E. apply IH2 in E. by destruct E.
      * apply (IH _ Hc).
    + apply (IH _ Hc).
Qed.

(** X17.  The style string of an area symbol is empty exactly when
    the symbol has no color and no line pattern with a color (point
    patterns and line patterns without a color write nothing);
    otherwise it ends with the closing parenthesis of its last brush,
    never with a semicolon. *)
Theorem makeStyleString_area_closed area_symbol :
  (makeStyleString_area area_symbol = "" <-> has_brush area_symbol = false)
  /\ (makeStyleString_area area_symbol <> "" ->
      endsWith ")" (makeStyleString_area area_symbol) = true
      /\ endsWith ";" (makeStyleString_area area_symbol) = false).
Proof.
  unfold makeStyleString_area, has_brush. cbv zeta.
  set (style1 := match area_getColor area_symbol with
                 | Some color => color_brush color ""
                 | None => ""
                 end).
  assert (H1 : closed_tools style1
               /\ (style1 = ""
                   <-> match area_getColor area_symbol with Some _ => true | None => false end
                       = false)).
  { unfold style1. destruct (area_getColor area_symbol) as [c |]; [| by split; [left |]].
    destruct (color_brush_closed c "") as [Hc Hn]. by split. }
  clearbody style1. destruct H1 as [Hc1 He1].
  destruct (fill_patterns_closed (area_fill_patterns area_symbol) style1 Hc1) as [Hc2 He2].
  cbv zeta in Hc2, He2.
  match goal with |- context [endsWith ";" ?s] => set (style2 := s) in * end.
  clearbody style2.
  assert (He : style2 = ""
               <-> match area_getColor area_symbol with Some _ => true | None => false end
                   || existsb
                        (fun part =>
                           match pattern_type part, pattern_line_color part with
                           | LinePattern, Some _ => true
                           | _, _ => false
                           end) (area_fill_patterns area_symbol) = false).
  { rewrite He2, He1, orb_false_iff. done. }
  destruct Hc2 as [-> | [tools ->]].
  - cbn [endsWith]. split; [done |]. done.
  - destruct (endsWith_tools tools) as (E1 & E2 & E3 & E4). rewrite E1, E2.
    split.
    + split; [intros E; by apply append_is_empty in E |].
      intros Hb. apply He in Hb. by apply append_is_empty in Hb.
    + intros _. by split.
Qed.

(** ** Style strings of combined symbols *)

(** A part of a combined symbol as [makeStyleString] looks at it: by
    its type, with what is read of a line, an area or a combined
    symbol; a part can be null. *)
Inductive CombinedPart :=
| LinePart (line_symbol : LineSymbol)
| AreaPart (area_symbol : AreaSymbol)
| CombinedSymbolPart (parts : list (option CombinedPart))
| PointPart
| TextPart.

(** The style of one part as the loop of [makeStyleString] for a
    [CombinedSymbol] appends it, [None] for a part that is skipped,
    and the loop itself: the index runs from the last part down to the
    first, so the style of a part is appended to that of the parts
    behind it. *)
Fixpoint part_style (part : CombinedPart) : option string :=
  match part with
  | LinePart line_symbol => Some (makeStyleString_line line_symbol)
  | AreaPart area_symbol => Some (makeStyleString_area area_symbol)
  | CombinedSymbolPart parts =>
      let style :=
        fold_right
          (fun subsymbol style =>
             match subsymbol with
             | Some subsymbol =>
                 match part_style subsymbol with
                 | Some sub_style => style +:+ (sub_style +:+ ";")
                 | None => style
                 end
             | None => style
             end)
          "" parts in
      Some (if endsWith ";" style then chop1 style else style)
  | PointPart | TextPart => None
  end.

(** [makeStyleString] for a [CombinedSymbol]. *)
Definition makeStyleString_combined (parts : list (option CombinedPart)) : string :=
  let style :=
    fold_right
      (fun subsymbol style =>
         match subsymbol with
         | Some subsymbol =>
             match part_style subsymbol with
             | Some sub_style => style +:+ (sub_style +:+ ";")
             | None => style
             end
         | None => style
         end)
      "" parts in
  if endsWith ";" style then chop1 style else style.

(** The styles the loop writes, in the order it writes them. *)
Definition written_styles (parts : list (option CombinedPart)) : list string :=
  rev (omap (fun subsymbol => subsymbol ≫= part_style) parts).

Lemma append_nil_r (s : string) : s +:+ "" = s.
Proof. induction s as [| c s IH]; [done |]. by rewrite append_cons, IH. Qed.

Lemma concat_snoc (styles : list string) (style : string) :
  String.concat ";" (styles ++ [style]) +:+ ";"
  = fold_left (fun all one => all +:+ (one +:+ ";")) (styles ++ [style]) "".
Proof.
  assert (H : forall styles first rest,
             first +:+ String.concat ";" (styles ++ [rest]) +:+ ";"
             = fold_left (fun all one => all +:+ (one +:+ ";")) (styles ++ [rest]) first).
  { clear. induction styles as [| one styles IH]; intros first rest.
    - cbn [app String.concat fold_left]. done.
    - cbn [app fold_left]. rewrite <- IH.
      change (String.concat ";" (one :: styles ++ [rest]))
        with (match styles ++ [rest] with
              | [] => one
              | _ :: _ => one +:+ ";" +:+ String.concat ";" (styles ++ [rest])
              end).
      destruct (styles ++ [rest]) eqn:E; [by destruct styles |].
      by rewrite !append_assoc. }
  rewrite <- H. by rewrite append_nil_l.
Qed.

Lemma combined_loop parts :
  fold_right
    (fun subsymbol style =>
       match subsymbol with
       | Some subsymbol =>
           match part_style subsymbol with
           | Some sub_style => style +:+ (sub_style +:+ ";")
           | None => style
           end
       | None => style
       end)
    "" parts
  = fold_left (fun all one => all +:+ (one +:+ ";")) (written_styles parts) "".
Proof.
  unfold written_styles. induction parts as [| part parts IH]; [done |].
  cbn [fold_right]. rewrite IH.
  destruct part as [part |]; cbn [omap list_omap mbind option_bind]; [| done].
  destruct (part_style part) as [sub_style |]; [| done].
  cbn [rev]. by rewrite fold_left_app.
Qed.

(** X18.  The style string of a combined symbol is the styles of its
    line, area and combined parts joined by semicolons, the last part
    first; null parts and point and text parts are left out.  Since
    only one semicolon is removed at the end, a part with an empty
    style still takes its place: two line parts without any pen give
    the style string of a single semicolon. *)
Theorem makeStyleString_combined_joins parts :
  makeStyleString_combined parts = String.concat ";" (written_styles parts)
  /\ forall line_1 line_2,
       makeStyleString_line line_1 = "" ->
       makeStyleString_line line_2 = "" ->
       makeStyleString_combined [Some (LinePart line_1); Some (LinePart line_2)] = ";".
Proof.
  split.
  - unfold makeStyleString_combined. cbv zeta. rewrite combined_loop.
    destruct (written_styles parts) as [| style styles _] using rev_ind; [done |].
    rewrite <- concat_snoc.
    destruct (endsWith_append (String.concat ";" (styles ++ [style])) ";" ";") as [-> ->].
    done.
  - intros line_1 line_2 E1 E2. unfold makeStyleString_combined.
    cbn [fold_right part_style]. rewrite E1, E2. reflexivity.
Qed.

End Styles.

(** * The importer and the exporter on the fixture *)

Module Examples.

(** The import of a feature and of a geometry with the services of
    the fixture. *)
Definition import_feature (feature : OGRFeature) (geometry : OGRGeometry)
    (clipping : option (list Object -> list Object)) (st : OgrFileImport)
  : Outcome (list Object) * OgrFileImport :=
  importFeature Fixture.OGR_SM_parts Fixture.OGR_ST_GetRGBFromString Fixture.match_dash_pattern
    Fixture.QString_number Fixture.QString_toDouble Fixture.MapCoord_load Fixture.toMapCoordF
    Fixture.OGR_G_ForceToLineString Fixture.remove_formatting Fixture.TextObject_alignment
    Fixture.OCTNewCoordinateTransformation Fixture.icon_file_exists feature geometry clipping st.

Definition import_geometry (feature : OGRFeature) (geometry : OGRGeometry) (st : OgrFileImport)
  : Outcome (list Object) * OgrFileImport :=
  importGeometry Fixture.OGR_SM_parts Fixture.OGR_ST_GetRGBFromString Fixture.match_dash_pattern
    Fixture.QString_number Fixture.QString_toDouble Fixture.MapCoord_load Fixture.toMapCoordF
    Fixture.OGR_G_ForceToLineString Fixture.remove_formatting Fixture.TextObject_alignment
    feature geometry st.

Definition import_layer (layer : OGRLayer) (st : OgrFileImport)
  : Outcome (list Object) * OgrFileImport :=
  importLayer Fixture.OGR_SM_parts Fixture.OGR_ST_GetRGBFromString Fixture.match_dash_pattern
    Fixture.QString_number Fixture.QString_toDouble Fixture.MapCoord_load Fixture.toMapCoordF
    Fixture.OGR_G_ForceToLineString Fixture.remove_formatting Fixture.TextObject_alignment
    Fixture.OCTNewCoordinateTransformation Fixture.icon_file_exists Fixture.OGR_L_GetExtent
    Fixture.OGR_L_TestCapability_FastGetExtent Fixture.ClippingImplementation false layer st.

Definition two_points : OGRGeometry := Fixture.line_string [(0, 0)%Q; (3, 4)%Q].

(** A layer of a feature without geometry, a line and an empty point. *)
Definition mixed_layer : OGRLayer :=
  mkLayer "tracks" None
    [ mkFeature None None [] "";
      Fixture.plain_feature two_points;
      Fixture.plain_feature (Geometry (mkGeometryType wkbPoint false) [] []) ].

(** The importer after the import of the layer, two empty geometries
    being counted. *)
Definition after_layer : OgrFileImport := (import_layer mixed_layer Fixture.st0).2.

Lemma after_layer_runs : Fixture.runs Fixture.st0 after_layer.
Proof.
  apply rtc_once,
    (op_importLayer Fixture.OGR_SM_parts Fixture.OGR_ST_GetRGBFromString
       Fixture.match_dash_pattern Fixture.QString_number Fixture.QString_toDouble
       Fixture.MapCoord_load Fixture.toMapCoordF Fixture.OGR_G_ForceToLineString
       Fixture.remove_formatting Fixture.TextObject_alignment
       Fixture.OCTNewCoordinateTransformation Fixture.icon_file_exists Fixture.OGR_L_GetExtent
       Fixture.OGR_L_TestCapability_FastGetExtent Fixture.ClippingImplementation
       Fixture.st0 false mixed_layer).
Qed.

Lemma after_layer_wf : wf after_layer.
Proof.
  exact (runs_from_wf Fixture.OGR_SM_parts Fixture.OGR_ST_GetRGBFromString
           Fixture.match_dash_pattern Fixture.QString_number Fixture.QString_toDouble
           Fixture.MapCoord_load Fixture.toMapCoordF Fixture.OGR_G_ForceToLineString
           Fixture.remove_formatting Fixture.TextObject_alignment
           Fixture.OCTNewCoordinateTransformation Fixture.icon_file_exists Fixture.OGR_L_GetExtent
           Fixture.OGR_L_TestCapability_FastGetExtent Fixture.ClippingImplementation
           Fixture.st0 after_layer Fixture.st0_wf after_layer_runs).
Qed.

Example after_layer_counted : empty_geometries after_layer = 2.
Proof. vm_compute. reflexivity. Qed.

(** ** Symbols and features *)

(** After the import of the layer, the lookup of a line symbol for a
    red pen returns a line symbol of the map. *)
Lemma getSymbol_class_witness :
  exists s,
    map_symbols (map (Fixture.lookup Symbol.Line Fixture.red_line after_layer).2)
      !! (Fixture.lookup Symbol.Line Fixture.red_line after_layer).1 = Some s
    /\ fits Symbol.Line (sym_type s).
Proof.
  exact (getSymbol_class Fixture.OGR_SM_parts Fixture.OGR_ST_GetRGBFromString
           Fixture.match_dash_pattern Fixture.QString_number
           Symbol.Line Fixture.red_line after_layer after_layer_wf).
Defined.

Definition keep_all : option (list Object -> list Object) := Some (fun objects => objects).

(** After the import of the layer, the import of a line of two points
    returns, whatever the clipping. *)
Lemma importFeature_returns_witness :
  exists objects,
    (import_feature (Fixture.plain_feature two_points) two_points keep_all after_layer).1
    = Return objects.
Proof.
  exact (importFeature_returns Fixture.OGR_SM_parts Fixture.OGR_ST_GetRGBFromString
           Fixture.match_dash_pattern Fixture.QString_number Fixture.QString_toDouble
           Fixture.MapCoord_load Fixture.toMapCoordF Fixture.OGR_G_ForceToLineString
           Fixture.remove_formatting Fixture.TextObject_alignment
           Fixture.OCTNewCoordinateTransformation Fixture.icon_file_exists
           (Fixture.plain_feature two_points) two_points keep_all after_layer
           after_layer_wf).
Defined.

(** The label with the anchor 99 is imported as an object that fits its symbol. *)
Lemma importFeature_objects_fit_witness :
  exists objects,
    (import_feature Fixture.far_anchor_feature (Fixture.point_geometry 1 2) None Fixture.st0).1
    = Return objects
    /\ Forall
         (object_fits
            (import_feature Fixture.far_anchor_feature (Fixture.point_geometry 1 2) None
               Fixture.st0).2)
         objects.
Proof.
  exact (importFeature_objects_fit Fixture.OGR_SM_parts Fixture.OGR_ST_GetRGBFromString
           Fixture.match_dash_pattern Fixture.QString_number Fixture.QString_toDouble
           Fixture.MapCoord_load Fixture.toMapCoordF Fixture.OGR_G_ForceToLineString
           Fixture.remove_formatting Fixture.TextObject_alignment
           Fixture.OCTNewCoordinateTransformation Fixture.icon_file_exists
           Fixture.far_anchor_feature (Fixture.point_geometry 1 2) Fixture.st0
           Fixture.st0_wf).
Defined.

(** The lookup of the second label leaves the settings and the counters alone. *)
Lemma imports_from_steady_witness :
  getGeoreferencing (map Fixture.st2) = getGeoreferencing (map Fixture.st1)
  /\ map_srs Fixture.st2 = map_srs Fixture.st1
  /\ unit_type Fixture.st2 = unit_type Fixture.st1
  /\ driver_name Fixture.st2 = driver_name Fixture.st1
  /\ empty_geometries Fixture.st2 = empty_geometries Fixture.st1
  /\ no_transformation Fixture.st1 <= no_transformation Fixture.st2
  /\ failed_transformation Fixture.st1 <= failed_transformation Fixture.st2
  /\ unsupported_geometry_type Fixture.st1 <= unsupported_geometry_type Fixture.st2
  /\ too_few_coordinates Fixture.st1 <= too_few_coordinates Fixture.st2.
Proof.
  exact (imports_from_steady Fixture.OGR_SM_parts Fixture.OGR_ST_GetRGBFromString
           Fixture.match_dash_pattern Fixture.QString_number Fixture.QString_toDouble
           Fixture.MapCoord_load Fixture.toMapCoordF Fixture.OGR_G_ForceToLineString
           Fixture.remove_formatting Fixture.TextObject_alignment
           Fixture.OCTNewCoordinateTransformation Fixture.icon_file_exists
           Fixture.st1 Fixture.st2 Fixture.st1_st2).
Defined.

(** The layer imported a second time: the count goes on from the
    state that has counted already. *)
Lemma importLayer_counts_witness :
  exists objects,
    (import_layer mixed_layer after_layer).1 = Return objects
    /\ empty_geometries (import_layer mixed_layer after_layer).2
       = empty_geometries after_layer
         + Z.of_nat (length (List.filter empty_geometry (OGR_L_features mixed_layer))).
Proof.
  exact (importLayer_counts Fixture.OGR_SM_parts Fixture.OGR_ST_GetRGBFromString
           Fixture.match_dash_pattern Fixture.QString_number Fixture.QString_toDouble
           Fixture.MapCoord_load Fixture.toMapCoordF Fixture.OGR_G_ForceToLineString
           Fixture.remove_formatting Fixture.TextObject_alignment
           Fixture.OCTNewCoordinateTransformation Fixture.icon_file_exists
           Fixture.OGR_L_GetExtent Fixture.OGR_L_TestCapability_FastGetExtent
           Fixture.ClippingImplementation false mixed_layer after_layer after_layer_wf).
Defined.

(** The layer gives the object of its line and counts two empty geometries. *)
Example importLayer_mixed :
  length <$> match (import_layer mixed_layer Fixture.st0).1 with
             | Return objects => Some objects
             | _ => None
             end = Some 1%nat
  /\ empty_geometries (import_layer mixed_layer Fixture.st0).2 = 2
  /\ empty_geometries (import_layer mixed_layer after_layer).2 = 4.
Proof. repeat split; vm_compute; reflexivity. Qed.

(** ** Pens *)

(** The matcher on the two patterns of the examples; the lengths are
    the doubles next to the decimal fractions. *)
Definition match_dash_pattern (pattern : string) : option (Q * Q) :=
  if String.eqb pattern "0.05mm 2mm" then Some (round_double (1 # 20), 2%Q)
  else if String.eqb pattern "3000000mm 2mm" then Some (3000000%Q, 2%Q)
  else None.

(** A pen with a width of 0 mm and a dash of 0.05 mm. *)
Definition thin_dashed_pen : OGRStyleTool :=
  mkTool OGRSTCPen "PEN(c:#FF0000,w:0mm,p:0.05mm 2mm)" (Some "#FF0000") (Some 0%Q) None None
    (Some "0.05mm 2mm") None None None None None None None None None.

(** The importer after a layer with the services of this example. *)
Definition after_layer_dashes : OgrFileImport :=
  (importLayer Fixture.OGR_SM_parts Fixture.OGR_ST_GetRGBFromString match_dash_pattern
     Fixture.QString_number Fixture.QString_toDouble Fixture.MapCoord_load Fixture.toMapCoordF
     Fixture.OGR_G_ForceToLineString Fixture.remove_formatting Fixture.TextObject_alignment
     Fixture.OCTNewCoordinateTransformation Fixture.icon_file_exists Fixture.OGR_L_GetExtent
     Fixture.OGR_L_TestCapability_FastGetExtent Fixture.ClippingImplementation
     false mixed_layer Fixture.st0).2.

Definition pen_symbol : nat * OgrFileImport :=
  getSymbolForPen Fixture.OGR_ST_GetRGBFromString match_dash_pattern
    thin_dashed_pen "PEN(c:#FF0000,w:0mm,p:0.05mm 2mm)" after_layer_dashes.

(** After the import of the layer, with its two empty geometries
    counted, the symbol of the thin dashed pen is in bounds. *)
Lemma getSymbolForPen_bounds_witness :
  exists s,
    map_symbols (map pen_symbol.2) !! pen_symbol.1 = Some s
    /\ sym_line_width s
       = match OGRSTPenWidth thin_dashed_pen with
         | Some w => if Qle_bool w (round_double (1 # 100)) then round_double (1 # 10) else w
         | None => round_double (1 # 10)
         end
    /\ (1 # 100 < sym_line_width s)%Q
    /\ (forall length_0 length_1,
          pen_pattern match_dash_pattern thin_dashed_pen = Some (length_0, length_1) ->
          sym_dashed s = true
          /\ sym_dash_length s = Z.max 100 (qRound (double_mul length_0 1000))
          /\ sym_break_length s = Z.max 100 (qRound (double_mul length_1 1000))
          /\ 100 <= sym_dash_length s <= INT_MAX
          /\ 100 <= sym_break_length s <= INT_MAX
          /\ ((0 <= double_mul length_0 1000)%Q ->
              (inject_Z (2 ^ 31) <= double_add (double_mul length_0 1000) (1 # 2))%Q ->
              sym_dash_length s = 100)
          /\ ((0 <= double_mul length_1 1000)%Q ->
              (inject_Z (2 ^ 31) <= double_add (double_mul length_1 1000) (1 # 2))%Q ->
              sym_break_length s = 100)).
Proof.
  apply (getSymbolForPen_bounds Fixture.OGR_SM_parts Fixture.OGR_ST_GetRGBFromString
           match_dash_pattern Fixture.QString_number Fixture.QString_toDouble
           Fixture.MapCoord_load Fixture.toMapCoordF Fixture.OGR_G_ForceToLineString
           Fixture.remove_formatting Fixture.TextObject_alignment
           Fixture.OCTNewCoordinateTransformation Fixture.icon_file_exists
           Fixture.OGR_L_GetExtent Fixture.OGR_L_TestCapability_FastGetExtent
           Fixture.ClippingImplementation
           Fixture.new_Symbol Fixture.empty_map UnitOnGround "DXF" Fixture.utm after_layer_dashes
           thin_dashed_pen "PEN(c:#FF0000,w:0mm,p:0.05mm 2mm)").
  - apply rtc_once, op_importLayer.
  - reflexivity.
  - vm_compute. reflexivity.
Defined.

(** The symbol of the pen: the width is the double 0.1, the dash is
    raised to 0.1 mm. *)
Example getSymbolForPen_thin_dashed :
  (fun s => (sym_line_width s, sym_dashed s, sym_dash_length s, sym_break_length s))
    <$> map_symbols (map pen_symbol.2) !! pen_symbol.1
  = Some (round_double (1 # 10), true, 100, 2000).
Proof. vm_compute. reflexivity. Qed.

(** A pen with a dash of 3000 m: the length in thousandths is beyond
    the range of [int], and the dash is set to 0.1 mm. *)
Definition long_dashed_pen : OGRStyleTool :=
  mkTool OGRSTCPen "PEN(c:#FF0000,p:3000000mm 2mm)" (Some "#FF0000") None None None
    (Some "3000000mm 2mm") None None None None None None None None None.

Example getSymbolForPen_long_dash :
  qRound (double_mul 3000000 1000) = INT_MIN
  /\ (fun s => (sym_dashed s, sym_dash_length s, sym_break_length s))
       <$> map_symbols
             (map (getSymbolForPen Fixture.OGR_ST_GetRGBFromString match_dash_pattern
                     long_dashed_pen "PEN(c:#FF0000,p:3000000mm 2mm)" Fixture.st0).2)
           !! (getSymbolForPen Fixture.OGR_ST_GetRGBFromString match_dash_pattern
                 long_dashed_pen "PEN(c:#FF0000,p:3000000mm 2mm)" Fixture.st0).1
     = Some (true, 100, 2000).
Proof. split; vm_compute; reflexivity. Qed.

(** ** The parts of a geometry *)

(** A collection of a line of one point, a line of two points, a
    ring, and a point. *)
Definition mixed_collection : OGRGeometry :=
  Geometry (mkGeometryType wkbGeometryCollection false) []
    [ Fixture.line_string [(1, 1)%Q];
      two_points;
      Geometry wkbLinearRing [(0, 0)%Q; (1, 0)%Q; (0, 0)%Q] [];
      Fixture.point_geometry 5 5 ].

Lemma importGeometry_accounts_witness :
  exists objects,
    (import_geometry (Fixture.plain_feature mixed_collection) mixed_collection after_layer).1
    = Return objects
    /\ Z.of_nat (length (List.filter is_path objects))
       + (counted
            (import_geometry (Fixture.plain_feature mixed_collection) mixed_collection
               after_layer).2
          - counted after_layer)
       = Z.of_nat (count_parts false mixed_collection)
    /\ (length (List.filter (fun object => negb (is_path object)) objects)
        <= count_parts true mixed_collection)%nat.
Proof.
  exact (importGeometry_accounts Fixture.OGR_SM_parts Fixture.OGR_ST_GetRGBFromString
           Fixture.match_dash_pattern Fixture.QString_number Fixture.QString_toDouble
           Fixture.MapCoord_load Fixture.toMapCoordF Fixture.OGR_G_ForceToLineString
           Fixture.remove_formatting Fixture.TextObject_alignment
           (Fixture.plain_feature mixed_collection) mixed_collection after_layer
           after_layer_wf).
Defined.

(** Of the three parts that are no points, one becomes a path and two
    are counted, as too short and as unsupported; the point becomes
    an object. *)
Example importGeometry_mixed :
  List.map is_path
    match (import_geometry (Fixture.plain_feature mixed_collection) mixed_collection
             Fixture.st0).1 with
    | Return objects => objects
    | _ => []
    end = [true; false]
  /\ too_few_coordinates
       (import_geometry (Fixture.plain_feature mixed_collection) mixed_collection Fixture.st0).2
     = 1
  /\ unsupported_geometry_type
       (import_geometry (Fixture.plain_feature mixed_collection) mixed_collection Fixture.st0).2
     = 1
  /\ count_parts false mixed_collection = 3%nat.
Proof. repeat split; vm_compute; reflexivity. Qed.

(** ** Exported lines *)

Definition toProjectedCoords (position : Q * Q) : Q * Q := position.

(** The positions of a part of straight segments, in millimetres. *)
Definition path_coords (part : PathPart) : list (Q * Q) :=
  List.map (fun c => (inject_Z c.1 / 1000, inject_Z c.2 / 1000)%Q) (part_coords part).

Definition getPlainTextName (symbol : nat) : string := "Fence".

Definition OGR_STBL_Find (symbol : nat) : string := "PEN(c:#000000ff,w:0.1mm,l:0)".

Definition OGR_L_CreateFeature (feature : OGRCreatedFeature) : bool := true.

(** A path of two parts. *)
Definition two_parts : Object :=
  set_parts
    [ mkPathPart [(0, 0); (1000, 0)] false;
      mkPathPart [(5000, 5000); (6000, 5000)] false ]
    (new_Object Object.Path 2).

Definition add_lines (object : Object) (layer : list OGRCreatedFeature)
  : Outcome unit * list OGRCreatedFeature :=
  addLinesToLayer_feature toProjectedCoords path_coords getPlainTextName OGR_STBL_Find
    OGR_L_CreateFeature "" no_quirks None (name_field_definition false) object layer.

Lemma addLinesToLayer_accumulates_witness :
  add_lines two_parts []
  = (Return tt,
     [] ++ List.map
             (fun i =>
                line_feature getPlainTextName OGR_STBL_Find (name_field_definition false)
                  two_parts
                  (flat_map (projected toProjectedCoords path_coords)
                     (take i (obj_parts two_parts))))
             (seq 1 (length (obj_parts two_parts)))).
Proof.
  exact (addLinesToLayer_accumulates toProjectedCoords path_coords getPlainTextName
           OGR_STBL_Find OGR_L_CreateFeature "" no_quirks None (name_field_definition false)
           two_parts [] eq_refl (fun feature => eq_refl)).
Defined.

(** The second feature has four points: the two of the first part and
    the two of its own. *)
Example addLinesToLayer_two_parts :
  List.map (fun feature => length (OGR_G_points (created_geometry feature)))
    (add_lines two_parts []).2 = [2%nat; 4%nat].
Proof. vm_compute. reflexivity. Qed.

(** ** Style strings *)

(** Opaque red and opaque black by name, and numbers printed for the
    values of the examples. *)
Definition QColor_name_HexArgb (color : MapColor) : string :=
  match color_spec color with
  | Rgb 255 0 0 => "#ffff0000"
  | _ => "#ff000000"
  end.

Definition QByteArray_number (d : Q) : string :=
  if Qeq_bool d (1 # 4) then "0.25" else Fixture.QString_number d "g" 6.

Definition red : MapColor := mkMapColor "red" 3 (Rgb 255 0 0).

Definition no_border : LineSymbolBorder := mkBorder false red 0 0 false.

Definition red_line : LineSymbol := mkLineSymbol (Some red) 250 false false no_border (Some red).

(** A line symbol without color, border and dominant color. *)
Definition blank_line : LineSymbol := mkLineSymbol None 250 false false no_border None.

Definition red_area : AreaSymbol :=
  mkAreaSymbol (Some red) [mkFillPattern PointPattern None 0].

Definition line_style : LineSymbol -> string :=
  makeStyleString_line QColor_name_HexArgb QByteArray_number QString_number_int.

Definition combined_style : list (option CombinedPart) -> string :=
  makeStyleString_combined QColor_name_HexArgb QByteArray_number QString_number_int
    (fun angle => angle).

(** The alpha of the color name is moved behind the blue, and the
    semicolon after the tool is removed. *)
Example makeStyleString_red_line :
  toRgbString QColor_name_HexArgb red = "#ff0000ff"
  /\ line_style red_line = "PEN(c:#ff0000ff,w:0.25mm,l:-3)"
  /\ line_style blank_line = "".
Proof. repeat split; vm_compute; reflexivity. Qed.

(** A border and an area in a combined symbol, the point part left
    out; and the semicolon two blank lines leave. *)
Example makeStyleString_combined_parts :
  combined_style [Some (LinePart red_line); Some PointPart; None; Some (AreaPart red_area)]
  = "BRUSH(fc:#ff0000ff,l:-3);PEN(c:#ff0000ff,w:0.25mm,l:-3)"
  /\ combined_style [Some (LinePart blank_line); Some (LinePart blank_line)] = ";".
Proof. split; vm_compute; reflexivity. Qed.

End Examples.
